(** * CRUD access methods: the base class [S3Method]

    A shallow embedding of [modules/core/methods/base.py]: the entry point
    [__call__] of the REST interface, the permission check [_permitted], the
    target record resolution [_record_id], the view post-processing
    [_extend_view] and the URL filter removal [_remove_filters], together
    with the parts of Python they rest on (truth values, dicts, [str.replace],
    [re.match]).

    The file has three parts: the model of the code, the vocabulary of the
    statements with a worked request, and the lemmas and theorems. *)

From Stdlib Require Import String Ascii List Bool Arith ZArith.
Import ListNotations.
Open Scope string_scope.

(* ################################################################## *)
(** * Part I: the model *)

(* ================================================================== *)
(** ** Python strings *)

(** The line feed, the one character that [.] does not match. *)
Definition newline : ascii := "010"%char.

(** [occurs c s]: the character [c] is one of the characters of [s]. *)
Fixpoint occurs (c : ascii) (s : string) : bool :=
  match s with
  | EmptyString => false
  | String x s' => Ascii.eqb x c || occurs c s'
  end.

(** The text of [s] before its first line feed (all of [s] when it has none). *)
Fixpoint first_line (s : string) : string :=
  match s with
  | EmptyString => EmptyString
  | String c s' => if Ascii.eqb c newline then EmptyString
                   else String c (first_line s')
  end.

(* ================================================================== *)
(** ** Regular expressions and [re.match]

    The fragment of Python's [re] syntax that [REGEX_FILTER] uses.  A compiled
    pattern is a term of [regex]; [re_match] is [pattern.match(s)] seen as a
    truth value: some prefix of [s], starting at its first character, is in
    the language of the pattern. *)

(** A compiled pattern. *)
Inductive regex : Type :=
| Void                       (* matches nothing   *)
| Eps                        (* the empty string  *)
| Chr (c : ascii)            (* a literal, also an escaped one: \. \( \) *)
| Dot                        (* .  any character except a line feed *)
| Cat (a b : regex)          (* ab  *)
| Alt (a b : regex)          (* a|b *)
| Star (a : regex).          (* a*  *)

(** [a+] *)
Definition Plus (a : regex) : regex := Cat a (Star a).

(** The language of a pattern. *)
Inductive matches : regex -> string -> Prop :=
| m_eps : matches Eps ""
| m_chr c : matches (Chr c) (String c "")
| m_dot c : Ascii.eqb c newline = false -> matches Dot (String c "")
| m_cat a b s t : matches a s -> matches b t -> matches (Cat a b) (s ++ t)
| m_alt_l a b s : matches a s -> matches (Alt a b) s
| m_alt_r a b s : matches b s -> matches (Alt a b) s
| m_star_nil a : matches (Star a) ""
| m_star_cons a s t :
    matches a s -> matches (Star a) t -> matches (Star a) (s ++ t).

(** The pattern matches the empty string. *)
Fixpoint nullable (r : regex) : bool :=
  match r with
  | Void => false
  | Eps => true
  | Chr _ => false
  | Dot => false
  | Cat a b => nullable a && nullable b
  | Alt a b => nullable a || nullable b
  | Star _ => true
  end.

(** Brzozowski derivative: the pattern for what may follow the character [c]. *)
Fixpoint deriv (c : ascii) (r : regex) : regex :=
  match r with
  | Void => Void
  | Eps => Void
  | Chr x => if Ascii.eqb x c then Eps else Void
  | Dot => if Ascii.eqb c newline then Void else Eps
  | Cat a b => if nullable a then Alt (Cat (deriv c a) b) (deriv c b)
               else Cat (deriv c a) b
  | Alt a b => Alt (deriv c a) (deriv c b)
  | Star a => Cat (deriv c a) (Star a)
  end.

(** [re_match r s]: [r.match(s)] is not [None]. *)
Fixpoint re_match (r : regex) (s : string) : bool :=
  nullable r ||
  match s with
  | EmptyString => false
  | String c s' => re_match (deriv c r) s'
  end.

(** [REGEX_FILTER = re.compile(r".+\..+|.*\(.+\).*")] *)
Definition REGEX_FILTER : regex :=
  Alt (Cat (Plus Dot) (Cat (Chr ".") (Plus Dot)))
      (Cat (Star Dot)
           (Cat (Chr "(") (Cat (Plus Dot) (Cat (Chr ")") (Star Dot))))).

(* ================================================================== *)
(** ** [str.replace] *)

(** The scan of [s.replace(old, new)] for a non-empty [old], from left to
    right: [skip] counts the characters of a replaced occurrence still to be
    passed over, so that occurrences do not overlap. *)
Fixpoint replace_from (old new : string) (skip : nat) (s : string) : string :=
  match s with
  | EmptyString => EmptyString
  | String c s' =>
      match skip with
      | S n => replace_from old new n s'
      | O => if prefix old s
             then new ++ replace_from old new (String.length old - 1) s'
             else String c (replace_from old new 0 s')
      end
  end.

(** [s.replace(old, new)] *)
Definition replace (old new s : string) : string := replace_from old new 0 s.

(* ================================================================== *)
(** ** Python values *)

(** A dict key of this code: a string, or [None] (the alias of the master
    resource in a [hide_filter] dict). *)
Definition key : Type := option string.

(** The values this code handles.  A callable is named by a number, and
    called through the interpretation [call] of the methods below; an object
    of any other class is true in a condition. *)
#[local] Unset Elimination Schemes.
Inductive value : Type :=
| VNone
| VBool (b : bool)
| VInt (n : Z)
| VStr (s : string)
| VTuple (items : list value)
| VList (items : list value)
| VDict (entries : list (key * value))   (* in insertion order *)
| VCallable (f : nat)                    (* a callable, by its identity *)
| VObject (o : nat).                     (* any other object (a form, an XML helper) *)
#[local] Set Elimination Schemes.

(** [bool(v)], the test behind [if v], [not v], [a and b]. *)
Definition truthy (v : value) : bool :=
  match v with
  | VNone => false
  | VBool b => b
  | VInt n => negb (Z.eqb n 0)
  | VStr s => negb (String.eqb s "")
  | VTuple l | VList l => negb (Nat.eqb (List.length l) 0)
  | VDict d => negb (Nat.eqb (List.length d) 0)
  | VCallable _ => true
  | VObject _ => true
  end.

(** [v == s] for a string literal [s]. *)
Definition is_str (v : value) (s : string) : bool :=
  match v with
  | VStr x => String.eqb x s
  | _ => false
  end.

(** [v in (s1, s2, ...)] for string literals. *)
Definition in_strs (v : value) (l : list string) : bool :=
  existsb (is_str v) l.

(** [v is None] *)
Definition is_none (v : value) : bool :=
  match v with VNone => true | _ => false end.

(** [callable(v)] *)
Definition callable (v : value) : bool :=
  match v with VCallable _ => true | _ => false end.

(** [k == v] for a key [k] (a string or [None]). *)
Definition key_is (k : key) (v : value) : bool :=
  match k, v with
  | Some s, VStr x => String.eqb s x
  | None, VNone => true
  | _, _ => false
  end.

(** [a == b] for two keys, the equality of a dict lookup. *)
Definition key_eqb (a b : key) : bool :=
  match a, b with
  | Some x, Some y => String.eqb x y
  | None, None => true
  | _, _ => false
  end.

(* ------------------------------------------------------------------ *)
(** *** Dicts

    A dict is the list of its entries in insertion order, no key twice: the
    loop of [_extend_view] goes through [attr] in that order, and the
    handlers it calls have effects. *)

Section Dict.

Context {K V : Type} (eqb : K -> K -> bool).

(** [d.get(k)] *)
Fixpoint dict_get (k : K) (d : list (K * V)) : option V :=
  match d with
  | [] => None
  | (k', v) :: d' => if eqb k k' then Some v else dict_get k d'
  end.

(** [k in d] *)
Definition dict_has (k : K) (d : list (K * V)) : bool :=
  match dict_get k d with Some _ => true | None => false end.

(** [d[k] = v]: an existing key keeps its place, a new one goes last. *)
Fixpoint dict_set (k : K) (v : V) (d : list (K * V)) : list (K * V) :=
  match d with
  | [] => [(k, v)]
  | (k', v') :: d' => if eqb k k' then (k', v) :: d'
                      else (k', v') :: dict_set k v d'
  end.

(** [del d[k]] *)
Fixpoint dict_del (k : K) (d : list (K * V)) : list (K * V) :=
  match d with
  | [] => []
  | (k', v') :: d' => if eqb k k' then dict_del k d'
                      else (k', v') :: dict_del k d'
  end.

(** [d.update(other)]: the entries of [other] are set one by one. *)
Fixpoint dict_update (d other : list (K * V)) : list (K * V) :=
  match other with
  | [] => d
  | (k, v) :: rest => dict_update (dict_set k v d) rest
  end.

End Dict.

(* ================================================================== *)
(** ** [_remove_filters] *)

(** [_remove_filters(get_vars)]: a new [Storage] with the entries of the URL
    vars (a dict with string keys) whose key [REGEX_FILTER] does not match,
    in their order. *)
Definition _remove_filters (get_vars : list (string * value))
  : list (string * value) :=
  filter (fun kv => negb (re_match REGEX_FILTER (fst kv))) get_vars.

(* ================================================================== *)
(** ** The objects of a request *)

(** A database table, as far as this code reads it. *)
Record table : Type := {
  tbl_name : string;
  tbl_id : string;                 (* table._id.name *)
}.

(** A resource ([S3Resource]): the master resource of a request, one of its
    components, or a link table.  Resources are objects, shared between the
    request, the handler instance and the local variables of [__call__]:
    they live in the store of the [world] and are named by their address
    there.  In a condition ([if r.component], [if link]) a resource is true,
    and [None] is false. *)
Record resource : Type := {
  res_prefix : string;
  res_name : string;
  res_tablename : string;
  res_table : table;
  res_multiple : bool;
  res_link : option nat;           (* the link table resource, if any *)
  res_lastid : option string;      (* ID of the record last created: None or a str *)
  res_found : list value;          (* the primary keys a [load] finds, in order *)
  res_rows : list value;           (* the rows now loaded, by primary key *)
  res_filters : list value;        (* primary keys added with [add_filter] *)
}.

(** The request ([S3Request]), an object of the store as well: [self.request]
    names the same request as the argument [r]. *)
Record request : Type := {
  req_method : value;
  req_id : value;
  req_component : option nat;
  req_component_id : value;
  req_component_name : key;
  req_link : option nat;
  req_link_id : value;
  req_resource : nat;
  req_table : table;
  req_tablename : string;
  req_interactive : bool;
  req_next : value;
}.

(** The instance attributes of the method handler ([self]), as [__init__]
    lists them. *)
Record method_handler : Type := {
  h_request : option nat;
  h_method : value;
  h_download_url : value;
  h_hide_filter : value;
  h_prefix : option string;
  h_name : option string;
  h_resource : option nat;
  h_tablename : option string;
  h_table : option table;
  h_record_id : value;
  h_next : value;
}.

(** [S3Method.__init__] *)
Definition __init__ : method_handler := {|
  h_request := None;
  h_method := VNone;
  h_download_url := VNone;
  h_hide_filter := VBool false;
  h_prefix := None;
  h_name := None;
  h_resource := None;
  h_tablename := None;
  h_table := None;
  h_record_id := VNone;
  h_next := VNone;
|}.

(** [current.response] *)
Record response : Type := {
  resp_download_url : value;       (* response.s3.download_url *)
  resp_error : value;
}.

(** A call of [auth.s3_has_permission(method, table, record_id=...)]. *)
Record check : Type := {
  chk_method : value;
  chk_table : table;
  chk_record_id : value;
}.

(** Everything a call can read and change: the handler instance, the
    requests and the resources by address, the response, and the record of
    the permission checks made. *)
Record world : Type := {
  self : method_handler;
  requests : nat -> request;
  resources : nat -> resource;
  resp : response;
  checks : list check;             (* the permission checks made, latest last *)
}.

(** *** Assignments

    [with_self], [with_request r] and [with_resource c] change one object
    of the world; [set_h_x v] is the assignment [self.x = v], [set_req_x v]
    the assignment [r.x = v]. *)

Definition with_self (f : method_handler -> method_handler) (w : world) : world :=
  {| self := f (self w); requests := requests w; resources := resources w;
     resp := resp w; checks := checks w |}.

Definition with_request (r : nat) (f : request -> request) (w : world) : world :=
  {| self := self w;
     requests := fun a => if Nat.eqb a r then f (requests w a) else requests w a;
     resources := resources w; resp := resp w; checks := checks w |}.

Definition with_resource (c : nat) (f : resource -> resource) (w : world) : world :=
  {| self := self w; requests := requests w;
     resources := fun a => if Nat.eqb a c then f (resources w a) else resources w a;
     resp := resp w; checks := checks w |}.

(** One more permission check is on record. *)
Definition with_check (c : check) (w : world) : world :=
  {| self := self w; requests := requests w; resources := resources w;
     resp := resp w; checks := checks w ++ [c] |}.

Definition set_h_request (v : option nat) (h : method_handler) : method_handler :=
  {| h_request := v; h_method := h_method h; h_download_url := h_download_url h;
     h_hide_filter := h_hide_filter h; h_prefix := h_prefix h; h_name := h_name h;
     h_resource := h_resource h; h_tablename := h_tablename h; h_table := h_table h;
     h_record_id := h_record_id h; h_next := h_next h |}.

Definition set_h_method (v : value) (h : method_handler) : method_handler :=
  {| h_request := h_request h; h_method := v; h_download_url := h_download_url h;
     h_hide_filter := h_hide_filter h; h_prefix := h_prefix h; h_name := h_name h;
     h_resource := h_resource h; h_tablename := h_tablename h; h_table := h_table h;
     h_record_id := h_record_id h; h_next := h_next h |}.

Definition set_h_download_url (v : value) (h : method_handler) : method_handler :=
  {| h_request := h_request h; h_method := h_method h; h_download_url := v;
     h_hide_filter := h_hide_filter h; h_prefix := h_prefix h; h_name := h_name h;
     h_resource := h_resource h; h_tablename := h_tablename h; h_table := h_table h;
     h_record_id := h_record_id h; h_next := h_next h |}.

Definition set_h_hide_filter (v : value) (h : method_handler) : method_handler :=
  {| h_request := h_request h; h_method := h_method h;
     h_download_url := h_download_url h;
     h_hide_filter := v; h_prefix := h_prefix h; h_name := h_name h;
     h_resource := h_resource h; h_tablename := h_tablename h; h_table := h_table h;
     h_record_id := h_record_id h; h_next := h_next h |}.

Definition set_h_record_id (v : value) (h : method_handler) : method_handler :=
  {| h_request := h_request h; h_method := h_method h;
     h_download_url := h_download_url h;
     h_hide_filter := h_hide_filter h; h_prefix := h_prefix h; h_name := h_name h;
     h_resource := h_resource h; h_tablename := h_tablename h; h_table := h_table h;
     h_record_id := v; h_next := h_next h |}.

Definition set_h_next (v : value) (h : method_handler) : method_handler :=
  {| h_request := h_request h; h_method := h_method h;
     h_download_url := h_download_url h;
     h_hide_filter := h_hide_filter h; h_prefix := h_prefix h; h_name := h_name h;
     h_resource := h_resource h; h_tablename := h_tablename h; h_table := h_table h;
     h_record_id := h_record_id h; h_next := v |}.

(** [self.prefix], [self.name], [self.tablename], [self.table] and
    [self.resource], set from the target resource at address [a]. *)
Definition set_h_target (a : nat) (res : resource) (h : method_handler) : method_handler :=
  {| h_request := h_request h; h_method := h_method h;
     h_download_url := h_download_url h;
     h_hide_filter := h_hide_filter h;
     h_prefix := Some (res_prefix res); h_name := Some (res_name res);
     h_resource := Some a; h_tablename := Some (res_tablename res);
     h_table := Some (res_table res);
     h_record_id := h_record_id h; h_next := h_next h |}.

Definition set_req_component_id (v : value) (q : request) : request :=
  {| req_method := req_method q; req_id := req_id q;
     req_component := req_component q; req_component_id := v;
     req_component_name := req_component_name q; req_link := req_link q;
     req_link_id := req_link_id q; req_resource := req_resource q;
     req_table := req_table q; req_tablename := req_tablename q;
     req_interactive := req_interactive q; req_next := req_next q |}.

Definition set_req_link_id (v : value) (q : request) : request :=
  {| req_method := req_method q; req_id := req_id q;
     req_component := req_component q; req_component_id := req_component_id q;
     req_component_name := req_component_name q; req_link := req_link q;
     req_link_id := v; req_resource := req_resource q;
     req_table := req_table q; req_tablename := req_tablename q;
     req_interactive := req_interactive q; req_next := req_next q |}.

Definition set_req_next (v : value) (q : request) : request :=
  {| req_method := req_method q; req_id := req_id q;
     req_component := req_component q; req_component_id := req_component_id q;
     req_component_name := req_component_name q; req_link := req_link q;
     req_link_id := req_link_id q; req_resource := req_resource q;
     req_table := req_table q; req_tablename := req_tablename q;
     req_interactive := req_interactive q; req_next := v |}.

(** [component.load(start=start, limit=limit)]: the rows of the resource are
    the first [limit] ones found from [start] on.  A row stands for the value
    of its primary key, [row[table._id.name]]. *)
Definition load (start limit : nat) (c : resource) : resource :=
  {| res_prefix := res_prefix c; res_name := res_name c;
     res_tablename := res_tablename c; res_table := res_table c;
     res_multiple := res_multiple c; res_link := res_link c;
     res_lastid := res_lastid c; res_found := res_found c;
     res_rows := firstn limit (skipn start (res_found c));
     res_filters := res_filters c |}.

(** [component.add_filter(table._id == component_id)] *)
Definition add_filter (id : value) (c : resource) : resource :=
  {| res_prefix := res_prefix c; res_name := res_name c;
     res_tablename := res_tablename c; res_table := res_table c;
     res_multiple := res_multiple c; res_link := res_link c;
     res_lastid := res_lastid c; res_found := res_found c;
     res_rows := res_rows c; res_filters := res_filters c ++ [id] |}.

(* ------------------------------------------------------------------ *)
(** *** Exceptions and the monad of a call *)

(** An exception, by the names of its class and of the classes that one
    derives from, and its message. *)
Record exn : Type := {
  exn_classes : list string;
  exn_message : string;
}.

(** [isinstance(e, TypeError)], the test of [except TypeError]. *)
Definition is_TypeError (e : exn) : bool :=
  existsb (String.eqb "TypeError") (exn_classes e).

(** The two exceptions the model raises itself. *)
Definition TypeError (msg : string) : exn :=
  {| exn_classes := ["TypeError"; "Exception"]; exn_message := msg |}.

Definition AttributeError (msg : string) : exn :=
  {| exn_classes := ["AttributeError"; "Exception"]; exn_message := msg |}.

(** How a call ends. *)
Inductive outcome (A : Type) : Type :=
| Returns (a : A)
| Raises (e : exn).

Arguments Returns {A} a.
Arguments Raises {A} e.

(** A call reads and changes the world, and returns or raises; what it
    changed before it raised stays changed. *)
Definition M (A : Type) : Type := world -> outcome A * world.

(** [return a] *)
Definition ret {A} (a : A) : M A := fun w => (Returns a, w).

(** [raise e] *)
Definition raise {A} (e : exn) : M A := fun w => (Raises e, w).

(** [m], then [k] on what it returned; an exception of [m] goes through. *)
Definition bind {A B} (m : M A) (k : A -> M B) : M B :=
  fun w => match m w with
           | (Returns a, w') => k a w'
           | (Raises e, w') => (Raises e, w')
           end.

(** The world as it is now. *)
Definition get : M world := fun w => (Returns w, w).

(** An assignment. *)
Definition modify (f : world -> world) : M unit := fun w => (Returns tt, f w).

Notation "x <- m ;; k" := (bind m (fun x => k))
  (at level 61, m at next level, right associativity).
Notation "m ;;; k" := (bind m (fun _ => k))
  (at level 61, right associativity).

(** The keyword arguments [**attr] of a call, in their order.  The attr of
    [__call__] are the keywords it was called with beyond its own
    parameters: [r], [method] and [widget_id] are not among the keys.  A key
    named [output] may be: it meets the first parameter of [_extend_view]
    when [__call__] passes the attr on (see [extend_view_call]). *)
Definition kwargs : Type := list (string * value).

(** [attr.get(name)] *)
Definition attr_get (name : string) (attr : kwargs) : value :=
  match dict_get String.eqb name attr with
  | Some v => v
  | None => VNone
  end.

(** What a subclass supplies: [apply_method(r, **attr)], the handler of the
    standalone page, and [widget(r, method, widget_id, **attr)] where the
    instance has one ([hasattr(self, "widget")]).  Both are given the request
    by its address; they may change anything in the world. *)
Record subclass : Type := {
  apply_method : nat -> kwargs -> M value;
  widget : option (nat -> value -> value -> kwargs -> M value);
}.

(** The stubs of the base class. *)
Definition S3Method : subclass := {|
  apply_method := fun _ _ => ret (VDict []);
  widget := Some (fun _ _ _ _ => ret VNone);
|}.

(* ================================================================== *)
(** ** The methods of [S3Method] *)

Section Methods.

(** The framework the class runs in.  A call of the framework returns (it
    does not raise); the request and the resources it is given are named by
    their addresses. *)

(** [current.auth.s3_has_permission(method, table, record_id=...)] *)
Variable s3_has_permission : value -> table -> value -> bool.

(** [current.s3db.get_config(tablename, key)] *)
Variable get_config : string -> string -> value.

(** [r.actuate_link()] *)
Variable actuate_link : world -> nat -> bool.

(** [link.link_id(master_id, component_id)] *)
Variable link_id : world -> nat -> value -> value -> value.

(** [str(v)] of a value that is no string. *)
Variable str_of : value -> string.

(** [f(r)] for the callable number [f] and the request [r]: it may change
    the world, the output dict of [_extend_view] apart, which it does not
    hold. *)
Variable call : nat -> nat -> M value.

(** [str(v)] *)
Definition str (v : value) : string :=
  match v with
  | VStr s => s
  | _ => str_of v
  end.

(** [has_permission(method, table, record_id=record_id)], recorded. *)
Definition has_permission (method : value) (t : table) (record_id : value)
  : M bool :=
  modify (with_check {| chk_method := method; chk_table := t;
                        chk_record_id := record_id |}) ;;;
  ret (s3_has_permission method t record_id).

(** [isinstance(v, (tuple, list))] *)
Definition is_sequence (v : value) : bool :=
  match v with
  | VTuple _ | VList _ => true
  | _ => false
  end.

(** [name in v] for a tuple or list [v] *)
Definition contains (v : value) (name : key) : bool :=
  match v with
  | VTuple items | VList items => existsb (key_is name) items
  | _ => false
  end.

(** [S3Method._permitted]: the permission for [method] (by default the
    method of the request) on the target of the request. *)
Definition _permitted (method : value) : M bool :=
  w <- get ;;
  match h_request (self w) with
  | None =>
      raise (AttributeError "'NoneType' object has no attribute 'component'")
  | Some r =>
      let method := if negb (truthy method) then h_method (self w) else method in
      let method := if in_strs method ["list"; "datatable"; "datalist"]
                    then VStr "read" (* Rest handled in S3Permission.METHODS *)
                    else method in
      match req_component (requests w r) with
      | None =>
          let table := req_table (requests w r) in
          let record_id := req_id (requests w r) in
          has_permission method table record_id
      | Some c =>
          let table := res_table (resources w c) in
          let record_id := req_component_id (requests w r) in
          if is_str method "create" then
            (* Is creating a new component record allowed without
               permission to update the master record? *)
            let writable := get_config (req_tablename (requests w r))
                                       "ignore_master_access" in
            if negb (is_sequence writable)
               || negb (contains writable (req_component_name (requests w r)))
            then
              master_access <- has_permission (VStr "update")
                                 (req_table (requests w r))
                                 (req_id (requests w r)) ;;
              if negb master_access then ret false
              else has_permission method table record_id
            else has_permission method table record_id
          else has_permission method table record_id
      end
  end.

(** The block of [_record_id] that enforces the first component record of a
    component that is not multiple, when no component ID is given.  It
    returns the component ID. *)
Definition first_component_record (r c : nat) (link : option nat)
  (master_id component_id : value) : M value :=
  modify (with_resource c (load 0 1)) ;;;
  w <- get ;;
  match res_rows (resources w c) with
  | first :: _ =>
      (match link with
       | Some l =>
           if truthy master_id
           then modify (with_request r
                          (set_req_link_id (link_id w l master_id first)))
           else ret tt
       | None => ret tt
       end) ;;;
      modify (with_request r (set_req_component_id first)) ;;;
      modify (with_resource c (add_filter first)) ;;;
      ret first
  | [] => ret component_id
  end.

(** [S3Method._record_id]: the ID of the target record of the request. *)
Definition _record_id (r : nat) : M value :=
  w <- get ;;
  let master_id := req_id (requests w r) in
  match req_component (requests w r) with
  | Some c =>
      let component_id := req_component_id (requests w r) in
      let link := req_link (requests w r) in
      component_id <-
        (if negb (res_multiple (resources w c)) && negb (truthy component_id)
         then first_component_record r c link master_id component_id
         else ret component_id) ;;
      w <- get ;;
      if match link with
         | None => true
         | Some _ => actuate_link w r
         end
      then ret component_id
      else ret (req_link_id (requests w r))
  | None => ret master_id
  end.

(** The first part of [__call__]: the environment of the request, the
    settings, the method, and the target resource and record.  It returns
    the target resource, the local [resource] of [__call__]. *)
Definition resolve_target (r : nat) (method : value) : M nat :=
  (* Environment of the request *)
  modify (with_self (set_h_request (Some r))) ;;;
  (* Settings *)
  w <- get ;;
  modify (with_self (set_h_download_url (resp_download_url (resp w)))) ;;;
  (* Override request method *)
  modify (with_self (set_h_method (if is_none method
                                   then req_method (requests w r)
                                   else method))) ;;;
  (* Find the target resource and record *)
  resource <-
    (match req_component (requests w r) with
     | Some c =>
         record_id <- _record_id r ;;
         modify (with_self (set_h_record_id record_id)) ;;;
         w <- get ;;
         (if negb (truthy (h_method (self w)))
          then
            if res_multiple (resources w c)
               && negb (truthy (req_component_id (requests w r)))
            then modify (with_self (set_h_method (VStr "list")))
            else modify (with_self (set_h_method (VStr "read")))
          else ret tt) ;;;
         w <- get ;;
         match res_link (resources w c) with
         | Some l => if actuate_link w r then ret c else ret l
         | None => ret c
         end
     | None =>
         modify (with_self (set_h_record_id (req_id (requests w r)))) ;;;
         w <- get ;;
         (if negb (truthy (h_method (self w)))
          then
            if truthy (req_id (requests w r))
               || in_strs (req_method (requests w r)) ["read"; "display"]
            then modify (with_self (set_h_method (VStr "read")))
            else modify (with_self (set_h_method (VStr "list")))
          else ret tt) ;;;
         ret (req_resource (requests w r))
     end) ;;
  w <- get ;;
  modify (with_self (set_h_target resource (resources w resource))) ;;;
  ret resource.

(** The [hide_filter] policy of [__call__]. *)
Definition hide_filter_policy (r : nat) (attr : kwargs) : M unit :=
  w <- get ;;
  if req_interactive (requests w r) then
    let hide_filter := attr_get "hide_filter" attr in
    let hide_filter :=
      match hide_filter with
      | VDict d =>
          let component_name := req_component_name (requests w r) in
          match dict_get key_eqb component_name d with
          | Some setting => setting
          | None =>
              match dict_get key_eqb (Some "_default") d with
              | Some setting => setting
              | None => VNone
              end
          end
      | _ => hide_filter
      end in
    let hide_filter :=
      if is_none hide_filter
      then VBool (match req_component (requests w r) with
                  | Some _ => true
                  | None => false
                  end)
      else hide_filter in
    modify (with_self (set_h_hide_filter hide_filter))
  else
    modify (with_self (set_h_hide_filter (VBool true))).

(** The redirection of [__call__], after [apply_method]. *)
Definition redirect (r resource : nat) : M unit :=
  w <- get ;;
  (match res_lastid (resources w resource) with
   | Some lastid =>
       if truthy (h_next (self w)) && negb (String.eqb lastid "")
       then
         let next := str (h_next (self w)) in
         let next := replace "%5Bid%5D" lastid next in
         let next := replace "[id]" lastid next in
         modify (with_self (set_h_next (VStr next)))
       else ret tt
   | None => ret tt
   end) ;;;
  w <- get ;;
  if negb (truthy (resp_error (resp w)))
  then modify (with_request r (set_req_next (h_next (self w))))
  else ret tt.

(** [isinstance(v, dict)] *)
Definition is_dict (v : value) : bool :=
  match v with VDict _ => true | _ => false end.

(** Every key of the dict is a string. *)
Definition string_keys (d : list (key * value)) : bool :=
  forallb (fun kv => match fst kv with Some _ => true | None => false end) d.

(** [output.update] with the entries of [display] as keyword arguments.
    Python takes only strings as keywords, and raises a [TypeError]
    otherwise. *)
Definition update_kw (output : list (key * value)) (display : value)
  : M (list (key * value)) :=
  match display with
  | VDict d =>
      if string_keys d
      then ret (dict_update key_eqb output d)
      else raise (TypeError "keywords must be strings")
  | _ => raise (TypeError "argument after ** must be a mapping")
  end.

(** What the loop of [_extend_view] does with an entry of [attr] once
    [display] is known. *)
Definition extend_entry (name : string) (handler : value) (resolve : bool)
  (display : value) (output : list (key * value)) : M (list (key * value)) :=
  if is_dict display && resolve then
    update_kw output display
  else if negb (is_none display) then
    ret (dict_set key_eqb (Some name) display output)
  else if dict_has key_eqb (Some name) output && callable handler then
    ret (dict_del key_eqb (Some name) output)
  else ret output.

(** The loop of [_extend_view] over the entries of [attr]. *)
Fixpoint extend_entries (r : nat) (attr : kwargs) (output : list (key * value))
  : M (list (key * value)) :=
  match attr with
  | [] => ret output
  | (name, handler) :: rest =>
      match handler with
      | VCallable f =>
          fun w =>
            match call f r w with
            | (Returns display, w') =>
                (output <- extend_entry name handler true display output ;;
                 extend_entries r rest output) w'
            | (Raises e, w') =>
                if is_TypeError e
                then
                  (* Argument list failure
                     => pass callable to the view as-is
                     (display = handler; continue: nothing is stored) *)
                  extend_entries r rest output w'
                else
                  (* Propagate all other errors to the caller *)
                  (Raises e, w')
            end
      | _ =>
          output <- extend_entry name handler false handler output ;;
          extend_entries r rest output
      end
  end.

(** [S3Method._extend_view]: add the view variables of [attr] to the output
    dict.  The output is changed in place; the model returns it. *)
Definition _extend_view (output : value) (r : nat) (attr : kwargs) : M value :=
  w <- get ;;
  match output with
  | VDict d =>
      if req_interactive (requests w r)
      then d' <- extend_entries r attr d ;; ret (VDict d')
      else ret output
  | _ => ret output
  end.

(** The call [self._extend_view(output, r, **attr)] of [__call__].  Python
    binds the arguments before the body runs: a keyword named [output]
    meets the parameter that the first positional argument has filled, and
    the call raises a [TypeError]. *)
Definition extend_view_call (output : value) (r : nat) (attr : kwargs)
  : M value :=
  if dict_has String.eqb "output" attr
  then raise (TypeError
                "_extend_view() got multiple values for argument 'output'")
  else _extend_view output r attr.

(** The branch of [__call__] for the standalone page: [apply_method], the
    redirection, the view variables. *)
Definition standalone_page (cls : subclass) (r resource : nat) (attr : kwargs)
  : M value :=
  output <- apply_method cls r attr ;;
  (* Redirection *)
  redirect r resource ;;;
  (* Add additional view variables (e.g. rheader) *)
  extend_view_call output r attr.

(** The last part of [__call__]: the method handler is applied, as a widget
    (when a widget ID is given and the instance has a [widget] method) or as
    a standalone page. *)
Definition apply_handler (cls : subclass) (r resource : nat)
  (widget_id : value) (attr : kwargs) : M value :=
  w <- get ;;
  match (if truthy widget_id then widget cls else None) with
  | Some widget_method =>
      widget_method r (h_method (self w)) widget_id attr
  | None => standalone_page cls r resource attr
  end.

(** [__call__], once the target is resolved. *)
Definition execute (cls : subclass) (r resource : nat)
  (widget_id : value) (attr : kwargs) : M value :=
  w <- get ;;
  if is_str (h_method (self w)) "_init"
  then
    (* Just init, don't execute *)
    ret VNone
  else
    hide_filter_policy r attr ;;;
    (* Apply method *)
    apply_handler cls r resource widget_id attr.

(** [S3Method.__call__]: the entry point for the REST interface. *)
Definition __call__ (cls : subclass) (r : nat) (method widget_id : value)
  (attr : kwargs) : M value :=
  resource <- resolve_target r method ;;
  execute cls r resource widget_id attr.

End Methods.

(* ================================================================== *)
(** ** [crud_string] *)

(** [S3Method.crud_string(tablename, name)]: the CRUD string [name] of the
    table, from [current.response.s3.crud_strings].  That dict holds the
    default strings under their names, and for a table a dict of its own
    strings under the table name.  A table entry that is no dict has no
    [get], and the call raises. *)
Definition crud_string (crud_strings : list (key * value))
  (tablename name : string) : outcome value :=
  (* CRUD strings for this table *)
  let _crud_strings :=
    match dict_get key_eqb (Some tablename) crud_strings with
    | Some v => v
    | None => VDict crud_strings
    end in
  match _crud_strings with
  | VDict d =>
      Returns (match dict_get key_eqb (Some name) d with
               | Some v => v
               | None =>
                   (* Default fallback *)
                   match dict_get key_eqb (Some name) crud_strings with
                   | Some v => v
                   | None => VNone
                   end
               end)
  | _ => Raises (AttributeError "object has no attribute 'get'")
  end.

(* ================================================================== *)
(** ** [_view] *)

(** [s.split(sep, 1)] for a separator of one character: the text before the
    first separator and the text after it, or [s] alone when it has none. *)
Fixpoint split1 (sep : ascii) (s : string) : list string :=
  match s with
  | EmptyString => [EmptyString]
  | String c s' =>
      if Ascii.eqb c sep then [EmptyString; s']
      else match split1 sep s' with
           | first :: rest => String c first :: rest
           | [] => []
           end
  end.

(** [a, b = parts]: the unpacking of a list into two names. *)
Definition unpack2 (parts : list string) : outcome (string * string) :=
  match parts with
  | [a; b] => Returns (a, b)
  | _ => Raises {| exn_classes := ["ValueError"; "Exception"];
                   exn_message := "wrong number of values to unpack" |}
  end.

(** ["%s" % k] for a string or [None]. *)
Definition format_key (k : key) : string :=
  match k with
  | Some s => s
  | None => "None"
  end.

(** What [_view] reads of the request besides its component: [r.folder]
    (the folder of the application), [r.controller] and [r.name]. *)
Record request_names : Type := {
  req_folder : string;
  req_controller : string;
  req_name : string;
}.

(** What [_view] returns: the custom view of a theme as a file opened for
    reading, named here by its path, or the name of a view template. *)
Inductive view : Type :=
| ViewFile (path : string)
| ViewName (name : string).

Section View.

(** [current.deployment_settings.get_theme()] and [get_theme_layouts()] *)
Variable theme : string.
Variable theme_layouts : string.

(** [os.path.exists] and [os.path.join], of the platform. *)
Variable path_exists : string -> bool.
Variable path_join : list string -> string.

(** [open(path, "rb")]: the exception it raises, if it raises one (the path
    is a directory, or may not be read), and [None] where it returns the
    open file. *)
Variable open_error : string -> option exn.

(** The second part of [_view], from [if r.component] on: the view of the
    controller for the component, or for the resource, if there is one. *)
Definition controller_view (q : request) (e : request_names)
  (default : string) : view :=
  let folder := req_folder e in
  let prefix := req_controller e in
  let generic :=
    let view := req_name e ++ "_" ++ default in
    let path := path_join [folder; "views"; prefix; view] in
    if path_exists path then ViewName (prefix ++ "/" ++ view)
    else ViewName default in
  match req_component q with
  | Some _ =>
      let view := req_name e ++ "_" ++ format_key (req_component_name q)
                  ++ "_" ++ default in
      let path := path_join [folder; "views"; prefix; view] in
      if path_exists path then ViewName (prefix ++ "/" ++ view)
      else generic
  | None => generic
  end.

(** [S3Method._view(r, default)]: the view template for the request.  It
    may enter a mapping for [default] in [current.response.s3.views], the
    dict given and returned here. *)
Definition _view (q : request) (e : request_names) (default : string)
  (views : list (string * string)) : outcome view * list (string * string) :=
  let folder := req_folder e in
  let prefix := req_controller e in
  if negb (String.eqb theme "default") then
    (* See if there is a Custom View for this Theme *)
    let view := path_join [folder; "modules"; "templates"; theme_layouts;
                           "views";
                           prefix ++ "_" ++ req_name e ++ "_" ++ default] in
    if path_exists view then
      (* There is a view specific to this page *)
      match open_error view with
      | None => (Returns (ViewFile view), views)
      | Some e => (Raises e, views)
      end
    else
      match (if occurs "/" default then unpack2 (split1 "/" default)
             else Returns (EmptyString, default)) with
      | Returns (subfolder, default_) =>
          let views :=
            if path_exists (path_join [folder; "modules"; "templates";
                                       theme_layouts; "views"; subfolder;
                                       "_" ++ default_])
            then
              (* There is a general view for this page type *)
              let subfolder := if negb (String.eqb subfolder "")
                               then subfolder ++ "/" else subfolder in
              (* Pass this mapping to the View *)
              dict_set String.eqb default
                ("../modules/templates/" ++ theme_layouts ++ "/views/"
                 ++ subfolder ++ "_" ++ default_) views
            else views in
          (Returns (controller_view q e default), views)
      | Raises e => (Raises e, views)
      end
  else (Returns (controller_view q e default), views).

End View.

(** [os.path.join] of a POSIX platform: a part that starts with a slash
    starts the path anew; any other part is added, after a slash unless the
    path so far is empty or ends with one. *)
Fixpoint ends_with_slash (s : string) : bool :=
  match s with
  | EmptyString => false
  | String c EmptyString => Ascii.eqb c "/"
  | String _ s' => ends_with_slash s'
  end.

Definition starts_with_slash (s : string) : bool :=
  match s with
  | String c _ => Ascii.eqb c "/"
  | EmptyString => false
  end.

Definition posix_join_step (path b : string) : string :=
  if starts_with_slash b then b
  else if String.eqb path "" || ends_with_slash path then path ++ b
  else path ++ "/" ++ b.

Definition posix_join (parts : list string) : string :=
  match parts with
  | [] => EmptyString
  | a :: p => fold_left posix_join_step p a
  end.

(* ################################################################## *)
(** * Part II: the vocabulary of the statements *)

(* ================================================================== *)
(** ** Filter keys *)

(** The filter pattern in the words of its description: the key contains a
    dot with non-empty text on both sides ... *)
Definition dotted (k : string) : Prop :=
  exists a b, a <> "" /\ b <> "" /\ k = a ++ "." ++ b.

(** ... or a parenthesized non-empty group. *)
Definition grouped (k : string) : Prop :=
  exists a b c, b <> "" /\ k = a ++ "(" ++ b ++ ")" ++ c.

(** A key of the shape of a filter. *)
Definition filter_shaped (k : string) : Prop := dotted k \/ grouped k.

(** A key with a line feed before its dot: [a], line feed, [.b]. *)
Definition two_line_key : string := String "a" (String newline ".b").

(* ================================================================== *)
(** ** URL patterns *)

(** A URL pattern, cut at its placeholders. *)
Inductive piece : Type :=
| Text (s : string)
| EncodedId        (* %5Bid%5D *)
| PlainId.         (* [id] *)

(** A piece as it is written in the pattern. *)
Definition piece_text (p : piece) : string :=
  match p with
  | Text s => s
  | EncodedId => "%5Bid%5D"
  | PlainId => "[id]"
  end.

(** The pattern as written ... *)
Fixpoint pattern_text (ps : list piece) : string :=
  match ps with
  | [] => ""
  | p :: ps' => piece_text p ++ pattern_text ps'
  end.

(** ... and with [id] in the place of every placeholder. *)
Fixpoint filled_text (id : string) (ps : list piece) : string :=
  match ps with
  | [] => ""
  | Text s :: ps' => s ++ filled_text id ps'
  | _ :: ps' => id ++ filled_text id ps'
  end.

(** The text between the placeholders starts no placeholder of its own. *)
Definition plain_piece (p : piece) : bool :=
  match p with
  | Text s => negb (occurs "%" s) && negb (occurs "[" s)
  | _ => true
  end.

(** After the first pass the encoded placeholders hold the id. *)
Definition fill_encoded (id : string) (p : piece) : piece :=
  match p with
  | EncodedId => Text id
  | _ => p
  end.

(* ================================================================== *)
(** ** Calls and what they leave alone *)

(** [m] returns [a] from [w], leaving [w']. *)
Definition returns {A} (m : M A) (w : world) (a : A) (w' : world) : Prop :=
  m w = (Returns a, w').

(** What [_record_id] and the resolution of the target leave alone: the
    handler instance apart, a request keeps all but [component_id] and
    [link_id], a resource all but its rows and filters. *)
Record unchanged_but_ids (w w' : world) : Prop := {
  ub_resp : resp w' = resp w;
  ub_checks : checks w' = checks w;
  ub_req_method : forall a, req_method (requests w' a) = req_method (requests w a);
  ub_req_id : forall a, req_id (requests w' a) = req_id (requests w a);
  ub_req_component :
    forall a, req_component (requests w' a) = req_component (requests w a);
  ub_req_component_name :
    forall a, req_component_name (requests w' a) = req_component_name (requests w a);
  ub_req_interactive :
    forall a, req_interactive (requests w' a) = req_interactive (requests w a);
  ub_req_next : forall a, req_next (requests w' a) = req_next (requests w a);
  ub_res_multiple :
    forall a, res_multiple (resources w' a) = res_multiple (resources w a);
  ub_res_link : forall a, res_link (resources w' a) = res_link (resources w a);
  ub_res_lastid : forall a, res_lastid (resources w' a) = res_lastid (resources w a);
}.

(* ================================================================== *)
(** ** The steps of [__call__] and of [_permitted] *)

(** The method [__call__] settles on: the one given, else the one of the
    request, else a default by the target. *)
Definition resolved_method (r : nat) (method : value) (w : world) : value :=
  let given := if is_none method then req_method (requests w r) else method in
  if truthy given then given
  else
    match req_component (requests w r) with
    | Some c =>
        if res_multiple (resources w c)
           && negb (truthy (req_component_id (requests w r)))
        then VStr "list" else VStr "read"
    | None =>
        if truthy (req_id (requests w r))
           || in_strs (req_method (requests w r)) ["read"; "display"]
        then VStr "read" else VStr "list"
    end.

(** The attributes of the handler instance that name the target of the
    request [r], resolved to [resource], are set in [w0]; [w] is the world
    before the call. *)
Definition target_set (r resource : nat) (w w0 : world) : Prop :=
  h_download_url (self w0) = resp_download_url (resp w) /\
  h_resource (self w0) = Some resource /\
  h_prefix (self w0) = Some (res_prefix (resources w0 resource)) /\
  h_name (self w0) = Some (res_name (resources w0 resource)) /\
  h_tablename (self w0) = Some (res_tablename (resources w0 resource)) /\
  h_table (self w0) = Some (res_table (resources w0 resource)).

(** The setting a [hide_filter] dict gives for a component: the one under
    the name of the component, else the one under [_default], else [None]. *)
Definition chosen_setting (component_name : key) (d : list (key * value))
  : value :=
  match dict_get key_eqb component_name d with
  | Some setting => setting
  | None =>
      match dict_get key_eqb (Some "_default") d with
      | Some setting => setting
      | None => VNone
      end
  end.

(** [r.component is not None] *)
Definition has_component (q : request) : bool :=
  match req_component q with
  | Some _ => true
  | None => false
  end.

(** The method [_permitted] checks: the one given, else the one of the
    handler instance. *)
Definition checked_method (method : value) (w : world) : value :=
  if negb (truthy method) then h_method (self w) else method.

(** The check of [update] on the master record of the request. *)
Definition master_check (q : request) : check :=
  {| chk_method := VStr "update"; chk_table := req_table q;
     chk_record_id := req_id q |}.

(** The check of [create] on the component table and record. *)
Definition component_check (q : request) (component : resource) : check :=
  {| chk_method := VStr "create"; chk_table := res_table component;
     chk_record_id := req_component_id q |}.

(** The method a permission is asked for: [list], [datatable] and
    [datalist] are read as [read]. *)
Definition permission_method (method : value) : value :=
  if in_strs method ["list"; "datatable"; "datalist"] then VStr "read"
  else method.

(** The table and the record a permission is asked for: those of the
    component if the request has one, else those of the master. *)
Definition permission_target (q : request) (w : world) : table * value :=
  match req_component q with
  | None => (req_table q, req_id q)
  | Some c => (res_table (resources w c), req_component_id q)
  end.

(** The master table is configured with an [ignore_master_access] tuple or
    list that contains the component name. *)
Definition ignores_master_access (get_config : string -> string -> value)
  (q : request) : bool :=
  is_sequence (get_config (req_tablename q) "ignore_master_access")
  && contains (get_config (req_tablename q) "ignore_master_access")
              (req_component_name q).

(* ================================================================== *)
(** ** A request, worked through

    The component [office] of the organisation with ID 4, requested
    interactively with no method; a subclass whose page sets a next-URL with
    both placeholders, and whose widget returns a dict. *)

(** The tables and resources of the example: the organisations at address
    0 of the store, the offices at every other address. *)
Definition ex_table (name : string) : table :=
  {| tbl_name := name; tbl_id := "id" |}.

Definition ex_organisation : resource :=
  {| res_prefix := "org"; res_name := "organisation";
     res_tablename := "org_organisation";
     res_table := ex_table "org_organisation";
     res_multiple := true; res_link := None; res_lastid := None;
     res_found := [VInt 4]; res_rows := []; res_filters := [] |}.

Definition ex_office : resource :=
  {| res_prefix := "org"; res_name := "office";
     res_tablename := "org_office"; res_table := ex_table "org_office";
     res_multiple := true; res_link := None; res_lastid := Some "12";
     res_found := [VInt 7; VInt 8]; res_rows := []; res_filters := [] |}.

(** The request [org/organisation/4/office]. *)
Definition ex_request : request :=
  {| req_method := VNone; req_id := VInt 4; req_component := Some 1;
     req_component_id := VNone; req_component_name := Some "office";
     req_link := None; req_link_id := VNone; req_resource := 0;
     req_table := ex_table "org_organisation";
     req_tablename := "org_organisation";
     req_interactive := true; req_next := VNone |}.

(** The world before the call: a fresh handler instance, no error. *)
Definition ex_world : world :=
  {| self := __init__;
     requests := fun _ => ex_request;
     resources := fun a => match a with
                           | 0 => ex_organisation
                           | _ => ex_office
                           end;
     resp := {| resp_download_url := VStr "/default/download";
                resp_error := VNone |};
     checks := [] |}.

(** The framework of the example. *)
Definition ex_actuate_link (_ : world) (_ : nat) : bool := true.

Definition ex_link_id (_ : world) (_ : nat) (_ _ : value) : value := VNone.

Definition ex_str_of (_ : value) : string := "".

(** An exception that is no [TypeError]. *)
Definition ValueError (msg : string) : exn :=
  {| exn_classes := ["ValueError"; "Exception"]; exn_message := msg |}.

(** The callables of the example: 0 returns a dict, 1 does not take the
    request, 2 fails, 3 returns [None], 4 returns a dict with the key
    [None]. *)
Definition ex_call (f : nat) (_ : nat) : M value :=
  match f with
  | 0 => ret (VDict [(Some "title", VStr "Offices")])
  | 1 => raise (TypeError "rheader() takes 0 positional arguments but 1 was given")
  | 2 => raise (ValueError "no such record")
  | 3 => ret VNone
  | _ => ret (VDict [(None, VInt 1)])
  end.

(** The subclass of the example: the page sets [self.next] and returns a
    form, the widget returns its ID in a dict. *)
Definition ex_apply_method (_ : nat) (_ : kwargs) : M value :=
  modify (with_self (set_h_next (VStr "/org/office/[id]/read?next=%5Bid%5D"))) ;;;
  ret (VDict [(Some "item", VStr "form")]).

Definition ex_widget (_ : nat) (method widget_id : value) (_ : kwargs)
  : M value :=
  ret (VDict [(Some "widget", widget_id)]).

Definition ex_cls : subclass :=
  {| apply_method := ex_apply_method; widget := Some ex_widget |}.

(** [__call__] in the example. *)
Definition ex_run (method widget_id : value) (attr : kwargs)
  : outcome value * world :=
  __call__ ex_actuate_link ex_link_id ex_str_of ex_call ex_cls
           0 method widget_id attr ex_world.

(** A permission oracle that denies everything. *)
Definition deny_all (_ : value) (_ : table) (_ : value) : bool := false.

(** A permission oracle that denies [update] only. *)
Definition deny_update (method : value) (_ : table) (_ : value) : bool :=
  negb (is_str method "update").

(** No table of the example is configured. *)
Definition ex_get_config (_ _ : string) : value := VNone.

(** The states of the example on its way through [__call__] with no
    method, no widget ID and the given attr: after the resolution of the
    target, after the [hide_filter] policy, after [apply_method], after the
    redirection. *)
Definition ex_w0 : world :=
  snd (resolve_target ex_actuate_link ex_link_id 0 VNone ex_world).

Definition ex_w1 (attr : kwargs) : world :=
  snd (hide_filter_policy 0 attr ex_w0).

Definition ex_w2 (attr : kwargs) : world :=
  snd (ex_apply_method 0 attr (ex_w1 attr)).

Definition ex_w3 (attr : kwargs) : world :=
  snd (redirect ex_str_of 0 1 (ex_w2 attr)).

(** The example, called with the method [create]. *)
Definition ex_create : world :=
  snd (resolve_target ex_actuate_link ex_link_id 0 (VStr "create") ex_world).

(* ================================================================== *)
(** ** Further vocabulary: the target record *)

(** The ID of the target record as the request holds it: [r.id] on the
    master, [r.component_id] on a component whose link, if any, is
    actuated, and [r.link_id] otherwise. *)
Definition target_record_id (actuate_link : world -> nat -> bool) (r : nat)
  (w : world) : value :=
  match req_component (requests w r) with
  | None => req_id (requests w r)
  | Some _ =>
      if match req_link (requests w r) with
         | None => true
         | Some _ => actuate_link w r
         end
      then req_component_id (requests w r)
      else req_link_id (requests w r)
  end.

(** [_record_id] has nothing to enforce: the request is on the master, or
    the component is multiple, or a component ID is given. *)
Definition nothing_to_enforce (r : nat) (w : world) : bool :=
  match req_component (requests w r) with
  | None => true
  | Some c =>
      res_multiple (resources w c) || truthy (req_component_id (requests w r))
  end.

(** The world once [_record_id] has enforced the record [first] of the
    component [c] of the request [r]: the row is loaded, [r.link_id] is
    set where the request has a link and a master ID, [r.component_id] is
    set, and the component is filtered. *)
Definition enforced (link_id : world -> nat -> value -> value -> value)
  (r c : nat) (first : value) (w : world) : world :=
  let loaded := with_resource c (load 0 1) w in
  with_resource c (add_filter first)
    (with_request r (set_req_component_id first)
       (match req_link (requests w r) with
        | Some l =>
            if truthy (req_id (requests w r))
            then with_request r
                   (set_req_link_id
                      (link_id loaded l (req_id (requests w r)) first))
                   loaded
            else loaded
        | None => loaded
        end)).

(** The check [_permitted] makes on the target of the request. *)
Definition target_check (method : value) (w : world) (r : nat) : check :=
  {| chk_method := permission_method (checked_method method w);
     chk_table := fst (permission_target (requests w r) w);
     chk_record_id := snd (permission_target (requests w r) w) |}.

(* ================================================================== *)
(** ** Further vocabulary: view templates *)

(** The custom view of a theme for a page: the file
    [modules/templates/<layouts>/views/<controller>_<name>_<default>] of the
    application. *)
Definition page_view (path_join : list string -> string)
  (theme_layouts : string) (e : request_names) (default : string) : string :=
  path_join [req_folder e; "modules"; "templates"; theme_layouts; "views";
             req_controller e ++ "_" ++ req_name e ++ "_" ++ default].

(** A view of a controller: the file [views/<controller>/<view>] of the
    application. *)
Definition view_file (path_join : list string -> string)
  (e : request_names) (view : string) : string :=
  path_join [req_folder e; "views"; req_controller e; view].

(** The general view of a theme for a page type: the default name with an
    underscore before its last part, [_<default>] or
    [<subfolder>/_<rest>]. *)
Definition template_name (default : string) : string :=
  if occurs "/" default then
    match split1 "/" default with
    | [subfolder; rest] =>
        (if String.eqb subfolder "" then "" else subfolder ++ "/")
        ++ "_" ++ rest
    | _ => "_" ++ default
    end
  else "_" ++ default.

(** A part of a path that joins as it stands: not empty, and with no slash
    at either end. *)
Definition plain_part (s : string) : bool :=
  negb (String.eqb s "") && negb (starts_with_slash s)
  && negb (ends_with_slash s).

(* ================================================================== *)
(** ** Further requests, worked through *)

(** The list of the organisations, [org/organisation]: no record, no
    component, no method. *)
Definition ex_list_request : request :=
  {| req_method := VNone; req_id := VNone; req_component := None;
     req_component_id := VNone; req_component_name := None;
     req_link := None; req_link_id := VNone; req_resource := 0;
     req_table := ex_table "org_organisation";
     req_tablename := "org_organisation";
     req_interactive := true; req_next := VNone |}.

Definition ex_list_world : world :=
  {| self := __init__;
     requests := fun _ => ex_list_request;
     resources := fun _ => ex_organisation;
     resp := {| resp_download_url := VStr "/default/download";
                resp_error := VNone |};
     checks := [] |}.

(** The home address of the person 5, [pr/person/5/home]: a component that
    is not multiple, over a link table that is not actuated.  The persons
    are at address 0 of the store, the locations at address 1, the link
    table at every other address. *)
Definition ex_person : resource :=
  {| res_prefix := "pr"; res_name := "person"; res_tablename := "pr_person";
     res_table := ex_table "pr_person";
     res_multiple := true; res_link := None; res_lastid := None;
     res_found := [VInt 5]; res_rows := []; res_filters := [] |}.

Definition ex_home (found : list value) : resource :=
  {| res_prefix := "gis"; res_name := "location";
     res_tablename := "gis_location"; res_table := ex_table "gis_location";
     res_multiple := false; res_link := Some 2; res_lastid := None;
     res_found := found; res_rows := []; res_filters := [] |}.

Definition ex_home_link : resource :=
  {| res_prefix := "pr"; res_name := "address";
     res_tablename := "pr_address"; res_table := ex_table "pr_address";
     res_multiple := true; res_link := None; res_lastid := None;
     res_found := []; res_rows := []; res_filters := [] |}.

Definition ex_home_request : request :=
  {| req_method := VNone; req_id := VInt 5; req_component := Some 1;
     req_component_id := VNone; req_component_name := Some "home";
     req_link := Some 2; req_link_id := VNone; req_resource := 0;
     req_table := ex_table "pr_person"; req_tablename := "pr_person";
     req_interactive := false; req_next := VNone |}.

(** The world of that request, with the locations a [load] finds. *)
Definition ex_home_world (found : list value) : world :=
  {| self := __init__;
     requests := fun _ => ex_home_request;
     resources := fun a => match a with
                           | 0 => ex_person
                           | 1 => ex_home found
                           | _ => ex_home_link
                           end;
     resp := {| resp_download_url := VNone; resp_error := VNone |};
     checks := [] |}.

(** A link that is not actuated, and the rows of the link table: the row of
    the person [m] and the location [c] has the ID [10 * m + c]. *)
Definition ex_unactuated (_ : world) (_ : nat) : bool := false.

Definition ex_link_row (_ : world) (_ : nat) (master_id component_id : value)
  : value :=
  match master_id, component_id with
  | VInt m, VInt c => VInt (10 * m + c)
  | _, _ => VNone
  end.

(** The world [_record_id] leaves, where the locations 7 and 8 are found. *)
Definition ex_home_found : world :=
  snd (_record_id ex_unactuated ex_link_row 0 (ex_home_world [VInt 7; VInt 8])).

(** A subclass whose page fails, and one whose page is an export, no dict. *)
Definition ex_failing : subclass :=
  {| apply_method := fun _ _ => raise (ValueError "no such record");
     widget := None |}.

Definition ex_export : subclass :=
  {| apply_method := fun _ _ => ret (VStr "<xml/>"); widget := None |}.

(** The application of the example, and two states of its files: with a
    view of the controller for the offices of an organisation, and with a
    general list view of the theme [RMS]. *)
Definition ex_names : request_names :=
  {| req_folder := "applications/eden"; req_controller := "org";
     req_name := "organisation" |}.

Definition ex_controller_files (path : string) : bool :=
  String.eqb path "applications/eden/views/org/organisation_office_list.html".

Definition ex_theme_files (path : string) : bool :=
  String.eqb path "applications/eden/modules/templates/RMS/views/_list.html".

(** Every file of the example can be opened. *)
Definition ex_open_error (_ : string) : option exn := None.

(** CRUD strings: a default label, and the label of the offices. *)
Definition ex_crud_strings : list (key * value) :=
  [(Some "label_create", VStr "Add Record");
   (Some "org_office", VDict [(Some "label_create", VStr "Add Office")])].

(* ################################################################## *)
(** * Part III: lemmas and theorems *)

(* ================================================================== *)
(** ** Strings *)

Lemma append_assoc (a b c : string) : (a ++ b) ++ c = a ++ (b ++ c).
Proof. induction a as [|x a IH]; simpl; [reflexivity | now rewrite IH]. Qed.

Lemma append_eq_nil (a b : string) : a ++ b = "" -> a = "" /\ b = "".
Proof. destruct a; simpl; [auto | discriminate]. Qed.

Lemma occurs_app c a b : occurs c (a ++ b) = occurs c a || occurs c b.
Proof.
  induction a as [|x a IH]; simpl; [reflexivity|].
  now rewrite IH, orb_assoc.
Qed.

Lemma first_line_no_newline s : occurs newline (first_line s) = false.
Proof.
  induction s as [|c s IH]; simpl; [reflexivity|].
  destruct (Ascii.eqb c newline) eqn:E; simpl; [reflexivity|].
  now rewrite E.
Qed.

Lemma first_line_id s : occurs newline s = false -> first_line s = s.
Proof.
  induction s as [|c s IH]; simpl; [reflexivity|].
  intros H. apply orb_false_iff in H as [Hc Hs].
  now rewrite Hc, IH.
Qed.

Lemma first_line_prefix s : exists rest, s = first_line s ++ rest.
Proof.
  induction s as [|c s [rest IH]]; simpl.
  - now exists "".
  - destruct (Ascii.eqb c newline).
    + now exists (String c s).
    + exists rest. simpl. now rewrite <- IH.
Qed.

(** A prefix of [s] without a line feed is a prefix of its first line. *)
Lemma first_line_app p q :
  occurs newline p = false -> first_line (p ++ q) = p ++ first_line q.
Proof.
  induction p as [|c p IH]; simpl; [reflexivity|].
  intros H. apply orb_false_iff in H as [Hc Hp].
  now rewrite Hc, IH.
Qed.

Lemma app_nonempty_l (a b : string) : a <> "" -> a ++ b <> "".
Proof. destruct a; [contradiction | discriminate]. Qed.

(* ================================================================== *)
(** ** The derivative matcher decides the language *)

Lemma nullable_spec r : nullable r = true <-> matches r "".
Proof.
  induction r as [| | | |a IHa b IHb|a IHa b IHb|a IHa]; simpl.
  - split; [discriminate | intros H; inversion H].
  - split; [constructor | reflexivity].
  - split; [discriminate | intros H; inversion H].
  - split; [discriminate | intros H; inversion H].
  - rewrite andb_true_iff, IHa, IHb. split.
    + intros [Ha Hb]. change "" with ("" ++ ""). now constructor.
    + intros H. inversion H as [| | |a' b' s t Hs Ht Ea Est| | | |]; subst.
      apply append_eq_nil in Est as [-> ->]. now split.
  - rewrite orb_true_iff, IHa, IHb. split.
    + intros [H|H]; [now apply m_alt_l | now apply m_alt_r].
    + intros H. inversion H; subst; [now left | now right].
  - split; [constructor | reflexivity].
Qed.

(** A non-empty word of [a*] starts with a non-empty word of [a]. *)
Lemma star_cons_inv a c s :
  matches (Star a) (String c s) ->
  exists s1 s2, s = s1 ++ s2 /\ matches a (String c s1) /\ matches (Star a) s2.
Proof.
  intros H. remember (Star a) as r eqn:Er. remember (String c s) as w eqn:Ew.
  revert c s Ew.
  induction H as [| | | | | | |a' u t Hu _ Ht IHt]; try discriminate.
  injection Er as ->. intros c s Ew.
  destruct u as [|x u]; simpl in Ew.
  - now apply IHt.
  - injection Ew as -> <-. now exists u, t.
Qed.

Lemma deriv_spec r c s : matches (deriv c r) s <-> matches r (String c s).
Proof.
  revert s. induction r; intros s; simpl.
  - split; intros H; inversion H.
  - split; intros H; inversion H.
  - destruct (Ascii.eqb c0 c) eqn:E.
    + apply Ascii.eqb_eq in E as ->. split; intros H; inversion H; constructor.
    + split; intros H; inversion H; subst.
      rewrite Ascii.eqb_refl in E. discriminate.
  - destruct (Ascii.eqb c newline) eqn:E.
    + split; intros H; inversion H; subst. congruence.
    + split; intros H; inversion H; subst; now constructor.
  - assert (Hl : forall u, matches (Cat (deriv c r1) r2) u ->
                           matches (Cat r1 r2) (String c u)).
    { intros u H. inversion H; subst.
      change (String c (s0 ++ t)) with (String c s0 ++ t).
      constructor; [now apply IHr1 | assumption]. }
    assert (Hr : forall u, matches (Cat r1 r2) (String c u) ->
                           (nullable r1 = true /\ matches r2 (String c u)) \/
                           matches (Cat (deriv c r1) r2) u).
    { intros u H. inversion H as [| | |a b s1 t H1 H2 E1 E2| | | |]; subst.
      destruct s1 as [|x s1]; simpl in E2.
      - left. subst t. split; [now apply nullable_spec | assumption].
      - injection E2 as -> <-. right. constructor; [now apply IHr1 | assumption]. }
    destruct (nullable r1) eqn:N.
    + split; intros H.
      * inversion H; subst; [now apply Hl|].
        change (String c s) with ("" ++ String c s).
        constructor; [now apply nullable_spec | now apply IHr2].
      * destruct (Hr _ H) as [[_ H2]|H2];
          [apply m_alt_r; now apply IHr2 | now apply m_alt_l].
    + split; intros H; [now apply Hl|].
      destruct (Hr _ H) as [[N' _]|H2]; [discriminate | assumption].
  - split; intros H; inversion H; subst;
      solve [apply m_alt_l; now apply IHr1 | apply m_alt_r; now apply IHr2].
  - split; intros H.
    + inversion H; subst.
      change (String c (s0 ++ t)) with (String c s0 ++ t).
      constructor; [now apply IHr | assumption].
    + apply star_cons_inv in H as (s1 & s2 & -> & H1 & H2).
      constructor; [now apply IHr | assumption].
Qed.

(** [re_match] holds exactly when a prefix of the string is in the language. *)
Lemma re_match_spec r s :
  re_match r s = true <-> exists p q, s = p ++ q /\ matches r p.
Proof.
  revert r. induction s as [|c s IH]; intros r; simpl.
  - rewrite orb_false_r, nullable_spec. split.
    + intros H. now exists "", "".
    + intros (p & q & E & H). symmetry in E.
      apply append_eq_nil in E as [-> _]. assumption.
  - rewrite orb_true_iff, nullable_spec, IH. split.
    + intros [H|(p & q & -> & H)].
      * now exists "", (String c s).
      * exists (String c p), q. split; [reflexivity | now apply deriv_spec].
    + intros (p & q & E & H). destruct p as [|x p]; simpl in E.
      * now left.
      * injection E as <- ->. right. exists p, q.
        split; [reflexivity | now apply deriv_spec].
Qed.

Lemma matches_cat_inv a b p :
  matches (Cat a b) p -> exists s t, p = s ++ t /\ matches a s /\ matches b t.
Proof. intros H. inversion H; subst. eauto. Qed.

Lemma matches_alt_inv a b p : matches (Alt a b) p -> matches a p \/ matches b p.
Proof. intros H. inversion H; subst; auto. Qed.

Lemma matches_chr_inv c p : matches (Chr c) p -> p = String c "".
Proof. intros H. now inversion H. Qed.

Lemma matches_star_dot p : matches (Star Dot) p <-> occurs newline p = false.
Proof.
  split.
  - intros H. remember (Star Dot) as r eqn:Er.
    induction H as [| | | | | | |a u t Hu _ Ht IHt]; try discriminate.
    + reflexivity.
    + injection Er as ->. inversion Hu as [| |c Hc| | | | |]; subst.
      simpl. now rewrite Hc, IHt.
  - induction p as [|c p IH]; simpl; intros H; [constructor|].
    apply orb_false_iff in H as [Hc Hp].
    change (String c p) with (String c "" ++ p).
    constructor; [now constructor | now apply IH].
Qed.

Lemma matches_plus_dot p :
  matches (Plus Dot) p <-> p <> "" /\ occurs newline p = false.
Proof.
  unfold Plus. split.
  - intros H. inversion H as [| | |a b s t Hs Ht Ea Est| | | |]; subst.
    inversion Hs as [| |c Hc| | | | |]; subst. simpl. split; [discriminate|].
    rewrite Hc. now apply matches_star_dot.
  - intros [Hne H]. destruct p as [|c p]; [contradiction|].
    simpl in H. apply orb_false_iff in H as [Hc Hp].
    change (String c p) with (String c "" ++ p).
    constructor; [now constructor | now apply matches_star_dot].
Qed.

(* ================================================================== *)
(** ** What [REGEX_FILTER] matches *)

(** [REGEX_FILTER.match(k)] succeeds exactly when the first line of [k] has
    the shape of a filter key: [.] does not match a line feed, and [match]
    anchors the pattern at the start of the key. *)
Lemma REGEX_FILTER_first_line k :
  re_match REGEX_FILTER k = true <-> filter_shaped (first_line k).
Proof.
  rewrite re_match_spec. unfold REGEX_FILTER. split.
  - intros (p & q & -> & H).
    apply matches_alt_inv in H as [H|H].
    + apply matches_cat_inv in H as (u & t & -> & Hu & Ht).
      apply matches_cat_inv in Ht as (d & v & -> & Hd & Hv).
      apply matches_chr_inv in Hd as ->.
      apply matches_plus_dot in Hu as [Hune Hu], Hv as [Hvne Hv].
      left. exists u, (v ++ first_line q). repeat split;
        [assumption | now apply app_nonempty_l |].
      rewrite first_line_app.
      * now rewrite !append_assoc.
      * rewrite !occurs_app, Hu, Hv. reflexivity.
    + apply matches_cat_inv in H as (u & t & -> & Hu & Ht).
      apply matches_cat_inv in Ht as (d & t1 & -> & Hd & Ht1).
      apply matches_cat_inv in Ht1 as (v & t2 & -> & Hv & Ht2).
      apply matches_cat_inv in Ht2 as (e & w & -> & He & Hw).
      apply matches_chr_inv in Hd as ->. apply matches_chr_inv in He as ->.
      apply matches_star_dot in Hu, Hw.
      apply matches_plus_dot in Hv as [Hvne Hv].
      right. exists u, v, (w ++ first_line q). split; [assumption|].
      rewrite first_line_app.
      * now rewrite !append_assoc.
      * rewrite !occurs_app, Hu, Hv, Hw. reflexivity.
  - destruct (first_line_prefix k) as [rest Ek].
    pose proof (first_line_no_newline k) as Hnl.
    intros [(a & b & Ha & Hb & E)|(a & b & c & Hb & E)];
      exists (first_line k), rest; (split; [assumption|]);
      rewrite E in Hnl |- *; rewrite !occurs_app in Hnl;
      repeat (apply orb_false_iff in Hnl as [? Hnl]).
    + apply m_alt_l. constructor; [now apply matches_plus_dot|].
      constructor; [constructor | now apply matches_plus_dot].
    + apply m_alt_r. constructor; [now apply matches_star_dot|].
      constructor; [constructor|].
      constructor; [now apply matches_plus_dot|].
      constructor; [constructor | now apply matches_star_dot].
Qed.

(** On a key without a line feed the pattern is the description itself. *)
Lemma REGEX_FILTER_one_line k :
  occurs newline k = false ->
  (re_match REGEX_FILTER k = true <-> filter_shaped k).
Proof.
  intros H. rewrite REGEX_FILTER_first_line. now rewrite (first_line_id _ H).
Qed.

(* ================================================================== *)
(** ** [_remove_filters]: the claim C8 *)

Lemma filter_idempotent {A} (f : A -> bool) (l : list A) :
  filter f (filter f l) = filter f l.
Proof.
  induction l as [|x l IH]; simpl; [reflexivity|].
  destruct (f x) eqn:E; simpl; [now rewrite E, IH | assumption].
Qed.

(** A key stays exactly when the pattern does not match it. *)
Lemma remove_filters_lookup get_vars k :
  dict_get String.eqb k (_remove_filters get_vars) =
  if re_match REGEX_FILTER k then None else dict_get String.eqb k get_vars.
Proof.
  unfold _remove_filters.
  induction get_vars as [|[k' v'] l IH]; simpl.
  - now destruct (re_match REGEX_FILTER k).
  - destruct (re_match REGEX_FILTER k') eqn:E'; simpl.
    + destruct (String.eqb_spec k k') as [->|]; [|assumption].
      rewrite E' in IH |- *. assumption.
    + destruct (String.eqb_spec k k') as [->|]; [now rewrite E' | assumption].
Qed.

(** C8, as stated, fails: the key [two_line_key] contains a dot with
    non-empty text on both sides, and [_remove_filters] keeps it, because
    [.] in the pattern does not match the line feed before the dot. *)
Lemma remove_filters_keeps_two_line_key :
  filter_shaped two_line_key /\
  _remove_filters [(two_line_key, VStr "1")] = [(two_line_key, VStr "1")].
Proof.
  split; [|reflexivity].
  left. exists (String "a" (String newline "")), "b".
  repeat split; discriminate.
Qed.

(** C8, amended: [_remove_filters] returns exactly the key-value pairs whose
    key does not match the filter pattern, that is, whose first line (the
    text before the first line feed) neither contains a dot with non-empty
    text on both sides nor a parenthesized non-empty group; values are
    unchanged, and applying it twice equals applying it once.  For a key
    without a line feed the first line is the key. *)
Theorem remove_filters_spec (get_vars : list (string * value)) :
  (forall k v,
      In (k, v) (_remove_filters get_vars) <->
      In (k, v) get_vars /\ ~ filter_shaped (first_line k)) /\
  (forall k v,
      occurs newline k = false ->
      (In (k, v) (_remove_filters get_vars) <->
       In (k, v) get_vars /\ ~ filter_shaped k)) /\
  _remove_filters (_remove_filters get_vars) = _remove_filters get_vars.
Proof.
  assert (H : forall k v,
             In (k, v) (_remove_filters get_vars) <->
             In (k, v) get_vars /\ ~ filter_shaped (first_line k)).
  { intros k v. unfold _remove_filters. rewrite filter_In. simpl.
    rewrite negb_true_iff, <- not_true_iff_false, REGEX_FILTER_first_line.
    reflexivity. }
  split; [exact H|]. split.
  - intros k v Hk. rewrite H. now rewrite (first_line_id _ Hk).
  - apply filter_idempotent.
Qed.

(** The URL vars of a filtered list: the filters go, the rest stays. *)
Example remove_filters_example :
  _remove_filters [("person.name__like", VStr "A*"); ("limit", VInt 10);
                   ("~(office)", VInt 3); ("format.", VStr "xls")]
  = [("limit", VInt 10); ("format.", VStr "xls")].
Proof. reflexivity. Qed.

(* ================================================================== *)
(** ** Placeholders *)

Lemma prefix_app (a b : string) : prefix a (a ++ b) = true.
Proof.
  induction a as [|c a IH]; simpl; [now destruct b|].
  destruct (ascii_dec c c); [assumption | contradiction].
Qed.

Lemma replace_from_skip old new a b :
  replace_from old new (String.length a) (a ++ b) = replace_from old new 0 b.
Proof. induction a as [|c a IH]; simpl; [reflexivity | assumption]. Qed.

(** An occurrence at the head is replaced, and the scan goes on behind it. *)
Lemma replace_at old new b :
  old <> "" -> replace old new (old ++ b) = new ++ replace old new b.
Proof.
  intros Hne. destruct old as [|c old]; [contradiction|].
  unfold replace.
  change (String c old ++ b) with (String c (old ++ b)).
  cbn [replace_from].
  change (String c (old ++ b)) with (String c old ++ b).
  rewrite prefix_app. cbn [String.length]. rewrite Nat.sub_1_r. cbn [Nat.pred].
  now rewrite replace_from_skip.
Qed.

(** Text without the first character of [old] is copied. *)
Lemma replace_keep c old new a b :
  occurs c a = false ->
  replace (String c old) new (a ++ b) = a ++ replace (String c old) new b.
Proof.
  unfold replace. induction a as [|x a IH]; intros H; [reflexivity|].
  simpl in H. apply orb_false_iff in H as [Hx Ha].
  change (String x a ++ b) with (String x (a ++ b)).
  cbn [replace_from prefix].
  destruct (ascii_dec c x) as [->|_].
  - rewrite Ascii.eqb_refl in Hx. discriminate.
  - simpl. now rewrite IH.
Qed.

Lemma replace_encoded id ps :
  forallb plain_piece ps = true ->
  replace "%5Bid%5D" id (pattern_text ps) =
  pattern_text (map (fill_encoded id) ps).
Proof.
  induction ps as [|p ps IH]; intros Hps; [reflexivity|].
  cbn [forallb] in Hps. apply andb_true_iff in Hps as [Hp Hps].
  specialize (IH Hps). cbn [pattern_text map].
  destruct p as [s| |]; cbn [piece_text fill_encoded].
  - cbn [plain_piece] in Hp. apply andb_true_iff in Hp as [Hp _].
    apply negb_true_iff in Hp.
    now rewrite replace_keep, IH.
  - rewrite replace_at by discriminate. now rewrite IH.
  - rewrite replace_keep by reflexivity. now rewrite IH.
Qed.

Lemma replace_plain id ps :
  forallb plain_piece ps = true ->
  occurs "[" id = false ->
  replace "[id]" id (pattern_text (map (fill_encoded id) ps)) =
  filled_text id ps.
Proof.
  intros Hps Hid. induction ps as [|p ps IH]; [reflexivity|].
  cbn [forallb] in Hps. apply andb_true_iff in Hps as [Hp Hps].
  specialize (IH Hps). cbn [pattern_text map filled_text].
  destruct p as [s| |]; cbn [piece_text fill_encoded].
  - cbn [plain_piece] in Hp. apply andb_true_iff in Hp as [_ Hp].
    apply negb_true_iff in Hp.
    now rewrite replace_keep, IH.
  - now rewrite replace_keep, IH.
  - rewrite replace_at by discriminate. now rewrite IH.
Qed.

Example replace_example :
  replace "[id]" "12" "/org/office/[id]/read?next=[id]"
  = "/org/office/12/read?next=12".
Proof. reflexivity. Qed.

(** The two passes of [replace] put the id in the place of every placeholder
    of a pattern whose other text (and the id) cannot be taken for the start
    of one. *)
Lemma replace_placeholders id ps :
  forallb plain_piece ps = true ->
  occurs "[" id = false ->
  replace "[id]" id (replace "%5Bid%5D" id (pattern_text ps)) =
  filled_text id ps.
Proof.
  intros Hps Hid. rewrite replace_encoded by assumption.
  now apply replace_plain.
Qed.

(* ================================================================== *)
(** ** Dicts *)

Lemma key_eqb_spec a b : reflect (a = b) (key_eqb a b).
Proof.
  destruct a as [x|], b as [y|]; simpl; try (constructor; congruence).
  destruct (String.eqb_spec x y); constructor; congruence.
Qed.

Section DictFacts.

Context {K V : Type} (eqb : K -> K -> bool).
Hypothesis eqb_spec : forall a b, reflect (a = b) (eqb a b).
Implicit Types (k : K) (d : list (K * V)).

Lemma eqb_refl' a : eqb a a = true.
Proof. destruct (eqb_spec a a); congruence. Qed.

Lemma dict_get_set_same k v d : dict_get eqb k (dict_set eqb k v d) = Some v.
Proof.
  induction d as [|[k' v'] d IH]; simpl.
  - now rewrite eqb_refl'.
  - destruct (eqb k k') eqn:E; simpl; now rewrite E.
Qed.

Lemma dict_get_set_other k k' v d :
  k' <> k -> dict_get eqb k' (dict_set eqb k v d) = dict_get eqb k' d.
Proof.
  intros Hne. induction d as [|[k0 v0] d IH]; simpl.
  - destruct (eqb_spec k' k); [contradiction | reflexivity].
  - destruct (eqb_spec k k0) as [->|]; simpl.
    + destruct (eqb_spec k' k0); [contradiction | reflexivity].
    + now rewrite IH.
Qed.

Lemma dict_get_del_same k d : dict_get eqb k (dict_del eqb k d) = None.
Proof.
  induction d as [|[k' v'] d IH]; simpl; [reflexivity|].
  destruct (eqb k k') eqn:E; simpl; [assumption | now rewrite E].
Qed.

Lemma dict_get_del_other k k' d :
  k' <> k -> dict_get eqb k' (dict_del eqb k d) = dict_get eqb k' d.
Proof.
  intros Hne. induction d as [|[k0 v0] d IH]; simpl; [reflexivity|].
  destruct (eqb_spec k k0) as [->|]; simpl.
  - destruct (eqb_spec k' k0); [contradiction | assumption].
  - now rewrite IH.
Qed.

Lemma dict_del_absent k d : dict_get eqb k d = None -> dict_del eqb k d = d.
Proof.
  induction d as [|[k' v'] d IH]; simpl; [reflexivity|].
  destruct (eqb k k'); [discriminate|]. intros H. now rewrite IH.
Qed.

Lemma dict_get_snoc k k' v' d :
  dict_get eqb k (d ++ [(k', v')]) =
  match dict_get eqb k d with
  | Some v => Some v
  | None => if eqb k k' then Some v' else None
  end.
Proof.
  induction d as [|[k0 v0] d IH]; simpl; [reflexivity|].
  destruct (eqb k k0); [reflexivity | apply IH].
Qed.

Lemma dict_get_absent k d : ~ In k (map fst d) -> dict_get eqb k d = None.
Proof.
  induction d as [|[k' v'] d IH]; simpl; [reflexivity|].
  intros H. destruct (eqb_spec k k') as [->|_].
  - exfalso. apply H. now left.
  - apply IH. intros Hin. apply H. now right.
Qed.

(** In a dict, where no key stands twice, the order of the entries does not
    matter to a lookup. *)
Lemma dict_get_rev k d : NoDup (map fst d) -> dict_get eqb k (rev d) = dict_get eqb k d.
Proof.
  induction d as [|[k' v'] d IH]; simpl; [reflexivity|].
  intros Hnd. inversion Hnd as [|? ? Hnotin Hnd']; subst.
  rewrite dict_get_snoc, (IH Hnd').
  destruct (eqb_spec k k') as [->|_].
  - now rewrite (dict_get_absent _ _ Hnotin).
  - now destruct (dict_get eqb k d).
Qed.

(** After [d.update(other)] a key has the value [other] gives it (the last
    one, should [other] list it twice), else the one it had in [d]. *)
Lemma dict_get_update k d other :
  dict_get eqb k (dict_update eqb d other) =
  match dict_get eqb k (rev other) with
  | Some v => Some v
  | None => dict_get eqb k d
  end.
Proof.
  revert d. induction other as [|[k' v'] other IH]; intros d; simpl;
    [reflexivity|].
  rewrite IH, dict_get_snoc.
  destruct (dict_get eqb k (rev other)); [reflexivity|].
  destruct (eqb_spec k k') as [->|Hne].
  - apply dict_get_set_same.
  - now apply dict_get_set_other.
Qed.

End DictFacts.

(* ================================================================== *)
(** ** What the resolution of the target leaves alone *)

Lemma unchanged_refl w : unchanged_but_ids w w.
Proof. constructor; reflexivity. Qed.

Lemma unchanged_trans w1 w2 w3 :
  unchanged_but_ids w1 w2 -> unchanged_but_ids w2 w3 -> unchanged_but_ids w1 w3.
Proof.
  intros [] []. constructor; intros; etransitivity; eauto.
Qed.

Lemma unchanged_with_self f w : unchanged_but_ids w (with_self f w).
Proof. constructor; reflexivity. Qed.

Lemma unchanged_set_component_id r v w :
  unchanged_but_ids w (with_request r (set_req_component_id v) w).
Proof.
  constructor; try reflexivity; intros a; simpl; now destruct (Nat.eqb a r).
Qed.

Lemma unchanged_set_link_id r v w :
  unchanged_but_ids w (with_request r (set_req_link_id v) w).
Proof.
  constructor; try reflexivity; intros a; simpl; now destruct (Nat.eqb a r).
Qed.

Lemma unchanged_load c s n w :
  unchanged_but_ids w (with_resource c (load s n) w).
Proof.
  constructor; try reflexivity; intros a; simpl; now destruct (Nat.eqb a c).
Qed.

Lemma unchanged_add_filter c v w :
  unchanged_but_ids w (with_resource c (add_filter v) w).
Proof.
  constructor; try reflexivity; intros a; simpl; now destruct (Nat.eqb a c).
Qed.

Create HintDb frame.

#[local] Hint Resolve unchanged_refl unchanged_with_self
  unchanged_set_component_id unchanged_set_link_id unchanged_load
  unchanged_add_filter : frame.

Ltac frame :=
  repeat (eapply unchanged_trans; [|solve [auto with frame]]);
  auto with frame.

(* ================================================================== *)
(** ** Properties of [__call__] and [_extend_view] *)

Section MethodFacts.

Variable actuate_link : world -> nat -> bool.
Variable link_id : world -> nat -> value -> value -> value.
Variable str_of : value -> string.
Variable call : nat -> nat -> M value.

Lemma first_component_record_returns r c link master_id component_id w :
  exists v w',
    returns (first_component_record link_id r c link master_id component_id)
            w v w' /\
    self w' = self w /\
    unchanged_but_ids w w'.
Proof.
  unfold returns, first_component_record, bind, get, modify, ret.
  destruct (res_rows (resources (with_resource c (load 0 1) w) c))
    as [|first rows].
  { do 2 eexists. split; [reflexivity|]. split; auto with frame. }
  destruct link as [l|]; [destruct (truthy master_id)|];
    do 2 eexists; (split; [reflexivity|]); (split; [reflexivity|]); frame.
Qed.

(** [_record_id] returns, and changes the handler instance not at all.  On a
    component that is multiple, or whose record is given, it changes
    nothing. *)
Lemma record_id_returns r w :
  exists v w',
    returns (_record_id actuate_link link_id r) w v w' /\
    self w' = self w /\
    unchanged_but_ids w w' /\
    (forall c, req_component (requests w r) = Some c ->
               res_multiple (resources w c) = true \/
               truthy (req_component_id (requests w r)) = true ->
               w' = w).
Proof.
  unfold returns, _record_id. unfold bind at 1. unfold get at 1.
  destruct (req_component (requests w r)) as [c|] eqn:Ec.
  2:{ exists (req_id (requests w r)), w.
      split; [reflexivity|]. split; [reflexivity|]. split; [frame|].
      discriminate. }
  unfold bind at 1.
  destruct (negb (res_multiple (resources w c))
            && negb (truthy (req_component_id (requests w r)))) eqn:Eb.
  - destruct (first_component_record_returns r c (req_link (requests w r))
                (req_id (requests w r)) (req_component_id (requests w r)) w)
      as (v & w' & Hr & Hs & Hu).
    unfold returns in Hr. rewrite Hr. unfold bind, get, ret.
    apply andb_true_iff in Eb as [Em Et].
    apply negb_true_iff in Em, Et.
    assert (Hno : forall c0, Some c = Some c0 ->
                  res_multiple (resources w c0) = true \/
                  truthy (req_component_id (requests w r)) = true ->
                  w' = w).
    { intros c0 [= <-] [H|H]; congruence. }
    destruct (req_link (requests w r)); [destruct (actuate_link w' r)|];
      do 2 eexists; (split; [reflexivity|]); auto.
  - unfold bind, get, ret.
    destruct (req_link (requests w r)); [destruct (actuate_link w r)|];
      do 2 eexists; (split; [reflexivity|]);
      (split; [reflexivity|]); (split; [frame|]); reflexivity.
Qed.

(** The resolution of the target returns; it sets the method as
    [resolved_method] says and the attributes of the target, and leaves
    [hide_filter] and [next] of the handler instance, the response and the
    permission checks alone. *)
Lemma resolve_target_returns r method w :
  exists resource w0,
    returns (resolve_target actuate_link link_id r method) w resource w0 /\
    unchanged_but_ids w w0 /\
    h_method (self w0) = resolved_method r method w /\
    h_request (self w0) = Some r /\
    h_hide_filter (self w0) = h_hide_filter (self w) /\
    h_next (self w0) = h_next (self w) /\
    target_set r resource w w0.
Proof.
  unfold returns, resolve_target, resolved_method, target_set.
  unfold bind at 1. unfold modify at 1.
  unfold bind at 1. unfold get at 1.
  unfold bind at 1. unfold modify at 1.
  unfold bind at 1. unfold modify at 1.
  cbn [requests resp with_self self].
  set (given := if is_none method then req_method (requests w r) else method).
  set (w1 := with_self _ (with_self _ (with_self _ w))).
  destruct (req_component (requests w r)) as [c|] eqn:Ec.
  - destruct (record_id_returns r w1) as (v & w2 & Hr & Hs & Hu & Hsame).
    unfold returns in Hr.
    unfold bind at 1. unfold bind at 1. rewrite Hr.
    unfold bind at 1. unfold modify at 1.
    unfold bind at 1. unfold get at 1.
    cbn [with_self self requests resources].
    change (h_method (set_h_record_id v (self w2))) with (h_method (self w2)).
    rewrite Hs. change (h_method (self w1)) with given.
    assert (Hcond : res_multiple (resources w2 c)
                    && negb (truthy (req_component_id (requests w2 r)))
                    = res_multiple (resources w c)
                      && negb (truthy (req_component_id (requests w r)))).
    { destruct (res_multiple (resources w c)) eqn:Em.
      - rewrite (Hsame c Ec (or_introl Em)).
        change (resources w1 c) with (resources w c).
        change (requests w1 r) with (requests w r).
        now rewrite Em.
      - rewrite (ub_res_multiple _ _ Hu c).
        change (resources w1 c) with (resources w c).
        now rewrite Em. }
    rewrite Hcond.
    assert (Hu' : unchanged_but_ids w w2).
    { eapply unchanged_trans; [|exact Hu]. unfold w1. frame. }
    destruct (truthy given) eqn:Eg; cbn [negb];
      [|destruct (res_multiple (resources w c)
                  && negb (truthy (req_component_id (requests w r))))];
      unfold bind, modify, get, ret;
      (destruct (res_link (resources _ c));
       [match goal with |- context [actuate_link ?x r] =>
          destruct (actuate_link x r) end|]);
      do 2 eexists; (split; [reflexivity|]);
      (split; [frame|]); cbn; rewrite ?Hs; repeat split; auto.
  - unfold bind at 1. unfold bind at 1. unfold modify at 1.
    unfold bind at 1. unfold get at 1.
    cbn [with_self self requests resources].
    change (h_method (set_h_record_id (req_id (requests w r)) (self w1)))
      with given.
    change (requests w1 r) with (requests w r).
    destruct (truthy given) eqn:Eg; cbn [negb];
      [|destruct (truthy (req_id (requests w r))
                  || in_strs (req_method (requests w r)) ["read"; "display"])];
      unfold bind, modify, get, ret;
      do 2 eexists; (split; [reflexivity|]);
      (split; [unfold w1; frame|]); cbn; repeat split; auto.
Qed.

(** [__call__] is the resolution of the target, then [execute]. *)
Lemma call_steps cls r method widget_id attr w resource w0 :
  returns (resolve_target actuate_link link_id r method) w resource w0 ->
  __call__ actuate_link link_id str_of call cls r method widget_id attr w =
  execute str_of call cls r resource widget_id attr w0.
Proof. unfold returns, __call__, bind. now intros ->. Qed.

(** On [_init], [execute] returns [None] and does nothing. *)
Lemma execute_init cls r resource widget_id attr w :
  is_str (h_method (self w)) "_init" = true ->
  execute str_of call cls r resource widget_id attr w = (Returns VNone, w).
Proof. unfold execute, bind, get, ret. now intros ->. Qed.

(** The [hide_filter] policy returns, and sets [self.hide_filter] only. *)
Lemma hide_filter_policy_returns r attr w :
  exists v,
    returns (hide_filter_policy r attr) w tt (with_self (set_h_hide_filter v) w) /\
    (req_interactive (requests w r) = false -> v = VBool true) /\
    (req_interactive (requests w r) = true ->
     forall d, attr_get "hide_filter" attr = VDict d ->
       v = if is_none (chosen_setting (req_component_name (requests w r)) d)
           then VBool (has_component (requests w r))
           else chosen_setting (req_component_name (requests w r)) d).
Proof.
  unfold returns, hide_filter_policy, bind, get, modify.
  destruct (req_interactive (requests w r)).
  - eexists. split; [reflexivity|]. split; [discriminate|].
    intros _ d ->. reflexivity.
  - eexists. split; [reflexivity|]. split; [reflexivity | discriminate].
Qed.

(** Off [_init], [execute] is the [hide_filter] policy, then the handler. *)
Lemma execute_steps cls r resource widget_id attr w w1 :
  is_str (h_method (self w)) "_init" = false ->
  returns (hide_filter_policy r attr) w tt w1 ->
  execute str_of call cls r resource widget_id attr w =
  apply_handler str_of call cls r resource widget_id attr w1.
Proof.
  unfold returns, execute. unfold bind at 1. unfold get at 1.
  intros -> H. unfold bind. now rewrite H.
Qed.

(* ------------------------------------------------------------------ *)
(** *** The default method of a component request *)

(** C1: for a component request with no method established (no [method]
    argument, and [r.method] not set), [__call__] resolves the method to
    [list] when the component is multiple and no component ID is given, and
    to [read] otherwise; it goes on to execute with that method. *)
Theorem component_default_method cls r widget_id attr c w :
  req_component (requests w r) = Some c ->
  truthy (req_method (requests w r)) = false ->
  exists resource w0,
    returns (resolve_target actuate_link link_id r VNone) w resource w0 /\
    h_method (self w0) =
      (if res_multiple (resources w c)
          && negb (truthy (req_component_id (requests w r)))
       then VStr "list" else VStr "read") /\
    __call__ actuate_link link_id str_of call cls r VNone widget_id attr w =
    execute str_of call cls r resource widget_id attr w0.
Proof.
  intros Hc Hm.
  destruct (resolve_target_returns r VNone w)
    as (resource & w0 & Hr & _ & Hmethod & _).
  exists resource, w0. split; [assumption|]. split.
  - rewrite Hmethod. unfold resolved_method. cbn [is_none].
    now rewrite Hm, Hc.
  - now apply call_steps.
Qed.

(* ------------------------------------------------------------------ *)
(** *** The [hide_filter] policy *)

(** C9: when the resolved method is not [_init], [__call__] applies the
    handler in a state where [self.hide_filter] is [True] if the request is
    not interactive; if it is interactive and the [hide_filter] attr is a
    dict, the setting is the one under the component name, else the one
    under [_default], else [None], and a setting of [None] gives [True]
    exactly when the request has a component. *)
Theorem hide_filter_resolved cls r method widget_id attr w :
  is_str (resolved_method r method w) "_init" = false ->
  exists resource w1,
    __call__ actuate_link link_id str_of call cls r method widget_id attr w =
    apply_handler str_of call cls r resource widget_id attr w1 /\
    (req_interactive (requests w r) = false ->
     h_hide_filter (self w1) = VBool true) /\
    (req_interactive (requests w r) = true ->
     forall d, attr_get "hide_filter" attr = VDict d ->
       h_hide_filter (self w1) =
       if is_none (chosen_setting (req_component_name (requests w r)) d)
       then VBool (has_component (requests w r))
       else chosen_setting (req_component_name (requests w r)) d).
Proof.
  intros Hinit.
  destruct (resolve_target_returns r method w)
    as (resource & w0 & Hr & Hu & Hmethod & _).
  destruct (hide_filter_policy_returns r attr w0) as (v & Hh & Hoff & Hon).
  exists resource, (with_self (set_h_hide_filter v) w0). split.
  - rewrite (call_steps cls r method widget_id attr w resource w0 Hr).
    apply execute_steps; [now rewrite Hmethod | assumption].
  - unfold has_component in *.
    rewrite (ub_req_interactive _ _ Hu), (ub_req_component_name _ _ Hu),
      (ub_req_component _ _ Hu) in *.
    cbn [self with_self h_hide_filter set_h_hide_filter]. split; assumption.
Qed.

(* ------------------------------------------------------------------ *)
(** *** The delegation to the handler *)

Lemma apply_handler_widget cls r resource widget_id attr w widget_method :
  truthy widget_id = true ->
  widget cls = Some widget_method ->
  apply_handler str_of call cls r resource widget_id attr w =
  widget_method r (h_method (self w)) widget_id attr w.
Proof.
  intros Hw Hm. unfold apply_handler, bind, get. now rewrite Hw, Hm.
Qed.

Lemma apply_handler_page cls r resource widget_id attr w :
  truthy widget_id = false \/ widget cls = None ->
  apply_handler str_of call cls r resource widget_id attr w =
  standalone_page str_of call cls r resource attr w.
Proof.
  intros H. unfold apply_handler. unfold bind at 1, get at 1.
  destruct H as [-> | ->]; [reflexivity | now destruct (truthy widget_id)].
Qed.

(** Off [_init], [__call__] comes to the handler with the resolved method,
    and with no permission check made. *)
Lemma call_reaches_handler cls r method widget_id attr w :
  is_str (resolved_method r method w) "_init" = false ->
  exists resource w1,
    __call__ actuate_link link_id str_of call cls r method widget_id attr w =
    apply_handler str_of call cls r resource widget_id attr w1 /\
    h_method (self w1) = resolved_method r method w /\
    h_request (self w1) = Some r /\
    checks w1 = checks w.
Proof.
  intros Hinit.
  destruct (resolve_target_returns r method w)
    as (resource & w0 & Hr & Hu & Hmethod & Hreq & _).
  destruct (hide_filter_policy_returns r attr w0) as (v & Hh & _).
  exists resource, (with_self (set_h_hide_filter v) w0). split.
  - rewrite (call_steps cls r method widget_id attr w resource w0 Hr).
    apply execute_steps; [now rewrite Hmethod | assumption].
  - cbn [self with_self h_method h_request set_h_hide_filter checks].
    repeat split; auto; apply Hu.
Qed.

(** C5, amended: when the resolved method is not [_init], [__call__] comes
    to the handler in the state [w1] that the resolution of the target and
    the [hide_filter] policy leave, and nothing else: [r.next] and
    [self.next] are there as before the call.  When a widget ID is given
    and the handler instance has a widget method, [__call__] is the call of
    [widget] in that state, with the resolved method, the widget ID and the
    attr: it returns what [widget] returns (or raises what it raises) and
    leaves the state [widget] leaves, so that there is no redirection, no
    assignment to [r.next] and no [_extend_view], before it or after it;
    when no widget ID is given or there is no widget method, [__call__]
    delegates to [apply_method] for the standalone page. *)
Theorem handler_delegation cls r method widget_id attr w :
  is_str (resolved_method r method w) "_init" = false ->
  exists resource w0 w1,
    returns (resolve_target actuate_link link_id r method) w resource w0 /\
    returns (hide_filter_policy r attr) w0 tt w1 /\
    req_next (requests w1 r) = req_next (requests w r) /\
    h_next (self w1) = h_next (self w) /\
    (forall widget_method,
        truthy widget_id = true ->
        widget cls = Some widget_method ->
        __call__ actuate_link link_id str_of call cls r method widget_id attr w
        = widget_method r (resolved_method r method w) widget_id attr w1) /\
    (truthy widget_id = false \/ widget cls = None ->
        __call__ actuate_link link_id str_of call cls r method widget_id attr w
        = standalone_page str_of call cls r resource attr w1).
Proof.
  intros Hinit.
  destruct (resolve_target_returns r method w)
    as (resource & w0 & Hr & Hu & Hmethod & _ & _ & Hnext & _).
  destruct (hide_filter_policy_returns r attr w0) as (v & Hh & _).
  assert (Hcall :
    __call__ actuate_link link_id str_of call cls r method widget_id attr w =
    apply_handler str_of call cls r resource widget_id attr
      (with_self (set_h_hide_filter v) w0)).
  { rewrite (call_steps cls r method widget_id attr w resource w0 Hr).
    apply execute_steps; [now rewrite Hmethod | assumption]. }
  exists resource, w0, (with_self (set_h_hide_filter v) w0).
  split; [exact Hr|]. split; [exact Hh|].
  split; [apply (ub_req_next _ _ Hu)|]. split; [exact Hnext|]. split.
  - intros widget_method Hw Hm. rewrite Hcall.
    rewrite (apply_handler_widget cls r resource widget_id attr _
               widget_method Hw Hm).
    cbn [self with_self h_method set_h_hide_filter]. now rewrite Hmethod.
  - intros H. rewrite Hcall. now apply apply_handler_page.
Qed.

(** C2, amended: [__call__] makes no permission check of its own.  When the
    resolved method is not [_init] it delegates to the handler of the
    subclass ([widget] or [apply_method]) in a state where no call of
    [s3_has_permission] has been added, and where [self.request] and
    [self.method] are set, so that the handler can call [_permitted]. *)
Theorem delegation_without_check cls r method widget_id attr w :
  is_str (resolved_method r method w) "_init" = false ->
  exists resource w1,
    checks w1 = checks w /\
    h_request (self w1) = Some r /\
    h_method (self w1) = resolved_method r method w /\
    (forall widget_method,
        truthy widget_id = true ->
        widget cls = Some widget_method ->
        __call__ actuate_link link_id str_of call cls r method widget_id attr w
        = widget_method r (h_method (self w1)) widget_id attr w1) /\
    (truthy widget_id = false \/ widget cls = None ->
        __call__ actuate_link link_id str_of call cls r method widget_id attr w
        = standalone_page str_of call cls r resource attr w1).
Proof.
  intros Hinit.
  destruct (call_reaches_handler cls r method widget_id attr w Hinit)
    as (resource & w1 & Hcall & Hmethod & Hreq & Hchecks).
  exists resource, w1. repeat split; auto.
  - intros widget_method Hw Hm. rewrite Hcall.
    now apply apply_handler_widget.
  - intros H. rewrite Hcall. now apply apply_handler_page.
Qed.

(* ------------------------------------------------------------------ *)
(** *** The redirection *)

(** [__call__] on the standalone page, once [apply_method] has returned. *)
Lemma call_after_apply_method cls r method widget_id attr w resource w0 w1
  output w2 :
  returns (resolve_target actuate_link link_id r method) w resource w0 ->
  is_str (h_method (self w0)) "_init" = false ->
  returns (hide_filter_policy r attr) w0 tt w1 ->
  truthy widget_id = false \/ widget cls = None ->
  returns (apply_method cls r attr) w1 output w2 ->
  __call__ actuate_link link_id str_of call cls r method widget_id attr w =
  (redirect str_of r resource ;;; extend_view_call call output r attr) w2.
Proof.
  intros Hr Hinit Hh Hw Ha.
  rewrite (call_steps cls r method widget_id attr w resource w0 Hr).
  rewrite (execute_steps cls r resource widget_id attr w0 w1 Hinit Hh).
  rewrite apply_handler_page by assumption.
  unfold standalone_page. unfold bind at 1. unfold returns in Ha.
  now rewrite Ha.
Qed.

(** The call of [_extend_view] from [__call__]: with no keyword named
    [output] it is [_extend_view] on the arguments given; with one, a
    [TypeError], and nothing done. *)
Lemma extend_view_call_binds output r attr w :
  dict_has String.eqb "output" attr = false ->
  extend_view_call call output r attr w = _extend_view call output r attr w.
Proof. unfold extend_view_call. now intros ->. Qed.

Lemma extend_view_call_refused output r attr w :
  dict_has String.eqb "output" attr = true ->
  extend_view_call call output r attr w =
  (Raises (TypeError
             "_extend_view() got multiple values for argument 'output'"), w).
Proof. unfold extend_view_call. now intros ->. Qed.

(** The redirection with [self.next] set and a non-empty [lastid]. *)
Lemma redirect_with_lastid r resource w lastid :
  truthy (h_next (self w)) = true ->
  res_lastid (resources w resource) = Some lastid ->
  lastid <> "" ->
  exists w',
    returns (redirect str_of r resource) w tt w' /\
    h_next (self w') =
      VStr (replace "[id]" lastid
              (replace "%5Bid%5D" lastid (str str_of (h_next (self w))))) /\
    (truthy (resp_error (resp w)) = false ->
     req_next (requests w' r) = h_next (self w')) /\
    (truthy (resp_error (resp w)) = true ->
     req_next (requests w' r) = req_next (requests w r)).
Proof.
  intros Hnext Hlast Hne. apply String.eqb_neq in Hne.
  unfold returns, redirect.
  unfold bind at 1. unfold get at 1. rewrite Hlast, Hnext, Hne.
  cbn [andb negb]. unfold bind at 1. unfold modify at 1.
  unfold bind at 1. unfold get at 1.
  cbn [resp with_self].
  destruct (truthy (resp_error (resp w))); cbn [negb];
    unfold modify, ret; eexists; (split; [reflexivity|]);
    cbn; rewrite ?Nat.eqb_refl; repeat split; auto; discriminate.
Qed.

(** C6: on the standalone page, when [apply_method] leaves [self.next] set
    and the target resource has a non-empty [lastid], [__call__] sets
    [self.next] to its string form with every [%5Bid%5D] and then every
    [[id]] replaced by [lastid] (so a pattern cut at its placeholders comes
    out with the id in the place of each), and assigns that to [r.next] when
    [response.error] is not set and leaves [r.next] as it is when it is
    set. *)
Theorem redirection cls r method widget_id attr w resource w0 w1 output w2
  lastid :
  returns (resolve_target actuate_link link_id r method) w resource w0 ->
  is_str (h_method (self w0)) "_init" = false ->
  returns (hide_filter_policy r attr) w0 tt w1 ->
  truthy widget_id = false \/ widget cls = None ->
  returns (apply_method cls r attr) w1 output w2 ->
  truthy (h_next (self w2)) = true ->
  res_lastid (resources w2 resource) = Some lastid ->
  lastid <> "" ->
  exists w3,
    returns (redirect str_of r resource) w2 tt w3 /\
    __call__ actuate_link link_id str_of call cls r method widget_id attr w =
    extend_view_call call output r attr w3 /\
    h_next (self w3) =
      VStr (replace "[id]" lastid
              (replace "%5Bid%5D" lastid (str str_of (h_next (self w2))))) /\
    (forall ps,
        str str_of (h_next (self w2)) = pattern_text ps ->
        forallb plain_piece ps = true ->
        occurs "[" lastid = false ->
        h_next (self w3) = VStr (filled_text lastid ps)) /\
    (truthy (resp_error (resp w2)) = false ->
     req_next (requests w3 r) = h_next (self w3)) /\
    (truthy (resp_error (resp w2)) = true ->
     req_next (requests w3 r) = req_next (requests w2 r)).
Proof.
  intros Hr Hinit Hh Hw Ha Hnext Hlast Hne.
  destruct (redirect_with_lastid r resource w2 lastid Hnext Hlast Hne)
    as (w3 & Hred & Hn & Hoff & Hon).
  exists w3. split; [assumption|]. split.
  - rewrite (call_after_apply_method cls r method widget_id attr w resource
               w0 w1 output w2 Hr Hinit Hh Hw Ha).
    unfold bind. unfold returns in Hred. now rewrite Hred.
  - split; [assumption|]. split; [|split; assumption].
    intros ps E Hps Hid. rewrite Hn, E.
    now rewrite replace_placeholders.
Qed.

(* ------------------------------------------------------------------ *)
(** *** The view variables *)

Lemma extend_entries_app r (before after : kwargs) output w :
  extend_entries call r (before ++ after)%list output w =
  (output' <- extend_entries call r before output ;;
   extend_entries call r after output') w.
Proof.
  revert output w.
  induction before as [|[name handler] before IH]; intros output w;
    [reflexivity|].
  assert (Hstep : forall resolve display w0,
             (out <- extend_entry name handler resolve display output ;;
              extend_entries call r (before ++ after)%list out) w0 =
             (output' <- (out <- extend_entry name handler resolve display output ;;
                          extend_entries call r before out) ;;
              extend_entries call r after output') w0).
  { intros resolve display w0. unfold bind.
    destruct (extend_entry name handler resolve display output w0)
      as [[out|e] w0']; [exact (IH out w0') | reflexivity]. }
  cbn [app extend_entries].
  destruct handler; try apply Hstep.
  unfold bind at 2.
  destruct (call f r w) as [[display|e] w']; [apply Hstep|].
  destruct (is_TypeError e); [apply IH | reflexivity].
Qed.

(** An entry that is not callable and not [None] is stored under its key. *)
Lemma extend_value r name v rest output w :
  callable v = false ->
  is_none v = false ->
  extend_entries call r ((name, v) :: rest) output w =
  extend_entries call r rest (dict_set key_eqb (Some name) v output) w.
Proof.
  intros Hc Hn. destruct v; try discriminate; reflexivity.
Qed.

(** A callable that returns a dict with string keys: the dict is merged. *)
Lemma extend_callable_dict r name f rest output w d w' :
  returns (call f r) w (VDict d) w' ->
  string_keys d = true ->
  extend_entries call r ((name, VCallable f) :: rest) output w =
  extend_entries call r rest (dict_update key_eqb output d) w'.
Proof.
  unfold returns. intros Hcall Hkeys. cbn [extend_entries]. rewrite Hcall.
  unfold extend_entry, update_kw. cbn [is_dict andb]. rewrite Hkeys.
  reflexivity.
Qed.

(** A callable that returns [None]: the entry under its key is removed. *)
Lemma extend_callable_none r name f rest output w w' :
  returns (call f r) w VNone w' ->
  extend_entries call r ((name, VCallable f) :: rest) output w =
  extend_entries call r rest (dict_del key_eqb (Some name) output) w'.
Proof.
  unfold returns. intros Hcall. cbn [extend_entries]. rewrite Hcall.
  unfold extend_entry, dict_has. cbn [is_dict is_none andb negb callable].
  destruct (dict_get key_eqb (Some name) output) eqn:E; cbn [andb].
  - reflexivity.
  - unfold bind, ret. now rewrite (dict_del_absent key_eqb _ _ E).
Qed.

(** A callable that raises: a [TypeError] is passed over, with the output as
    it is; any other exception ends the loop. *)
Lemma extend_callable_raises r name f rest output w e w' :
  call f r w = (Raises e, w') ->
  extend_entries call r ((name, VCallable f) :: rest) output w =
  if is_TypeError e then extend_entries call r rest output w'
  else (Raises e, w').
Proof. intros Hcall. cbn [extend_entries]. now rewrite Hcall. Qed.

(** On an interactive request and an output dict, [_extend_view] is the
    loop over the entries of [attr]. *)
Lemma extend_view_dict r attr output w :
  req_interactive (requests w r) = true ->
  _extend_view call (VDict output) r attr w =
  (d <- extend_entries call r attr output ;; ret (VDict d)) w.
Proof.
  intros Hi. unfold _extend_view. unfold bind at 1. unfold get at 1.
  now rewrite Hi.
Qed.

(** On a request that is not interactive, or an output that is no dict,
    [_extend_view] does nothing: no handler is called. *)
Lemma extend_view_skips output r attr w :
  req_interactive (requests w r) = false \/ is_dict output = false ->
  _extend_view call output r attr w = (Returns output, w).
Proof.
  intros H. unfold _extend_view, bind, get, ret.
  destruct output; try reflexivity.
  destruct H as [-> | H]; [reflexivity | discriminate].
Qed.

(** C3: in [_extend_view] on an interactive request, when the call of a
    callable view-variable handler with the request raises: a [TypeError]
    is caught, the output is left as it was before the entry and the
    remaining entries are processed; any other exception is raised to the
    caller as it is, in the state the handler left. *)
Theorem extend_view_handler_raises r (before : kwargs) name f after output w
  output1 w1 e w2 :
  req_interactive (requests w r) = true ->
  returns (extend_entries call r before output) w output1 w1 ->
  call f r w1 = (Raises e, w2) ->
  (is_TypeError e = true ->
   _extend_view call (VDict output) r
     (before ++ (name, VCallable f) :: after)%list w
   = (d <- extend_entries call r after output1 ;; ret (VDict d)) w2) /\
  (is_TypeError e = false ->
   _extend_view call (VDict output) r
     (before ++ (name, VCallable f) :: after)%list w
   = (Raises e, w2)).
Proof.
  unfold returns. intros Hi Hb Hcall.
  assert (H : extend_entries call r
                (before ++ (name, VCallable f) :: after)%list output w =
              if is_TypeError e then extend_entries call r after output1 w2
              else (Raises e, w2)).
  { rewrite extend_entries_app. unfold bind. rewrite Hb.
    now apply extend_callable_raises. }
  rewrite (extend_view_dict r _ output w Hi). unfold bind at 1 3. rewrite H.
  split; intros ->; reflexivity.
Qed.

(** C7, amended: on an interactive request handled as a standalone page
    (no widget ID, or no widget method), when [apply_method] returns a dict
    and the attr has no entry named [output], [__call__] returns that dict
    after the loop of [_extend_view] over the entries of [attr]; with an
    entry named [output] the call of [_extend_view] raises a [TypeError]
    instead, after the redirection.  In that loop an entry whose value is
    not callable and not [None] is stored in the output under its key; a
    callable whose call returns a dict with string keys has that dict
    merged into the output; and a callable whose call returns [None] leaves
    no entry under its key. *)
Theorem view_variables cls r method widget_id attr w resource w0 w1 d w2 w3 :
  returns (resolve_target actuate_link link_id r method) w resource w0 ->
  is_str (h_method (self w0)) "_init" = false ->
  returns (hide_filter_policy r attr) w0 tt w1 ->
  truthy widget_id = false \/ widget cls = None ->
  returns (apply_method cls r attr) w1 (VDict d) w2 ->
  returns (redirect str_of r resource) w2 tt w3 ->
  req_interactive (requests w3 r) = true ->
  (dict_has String.eqb "output" attr = false ->
   __call__ actuate_link link_id str_of call cls r method widget_id attr w =
   (d' <- extend_entries call r attr d ;; ret (VDict d')) w3) /\
  (dict_has String.eqb "output" attr = true ->
   __call__ actuate_link link_id str_of call cls r method widget_id attr w =
   (Raises (TypeError
              "_extend_view() got multiple values for argument 'output'"),
    w3)) /\
  (forall name v rest output wa,
      callable v = false ->
      is_none v = false ->
      exists output',
        extend_entries call r ((name, v) :: rest) output wa =
        extend_entries call r rest output' wa /\
        dict_get key_eqb (Some name) output' = Some v /\
        forall k, k <> Some name ->
                  dict_get key_eqb k output' = dict_get key_eqb k output) /\
  (forall name f rest output wa display wb,
      returns (call f r) wa (VDict display) wb ->
      string_keys display = true ->
      NoDup (map fst display) ->
      exists output',
        extend_entries call r ((name, VCallable f) :: rest) output wa =
        extend_entries call r rest output' wb /\
        forall k, dict_get key_eqb k output' =
                  match dict_get key_eqb k display with
                  | Some v => Some v
                  | None => dict_get key_eqb k output
                  end) /\
  (forall name f rest output wa wb,
      returns (call f r) wa VNone wb ->
      exists output',
        extend_entries call r ((name, VCallable f) :: rest) output wa =
        extend_entries call r rest output' wb /\
        dict_get key_eqb (Some name) output' = None /\
        forall k, k <> Some name ->
                  dict_get key_eqb k output' = dict_get key_eqb k output).
Proof.
  intros Hr Hinit Hh Hw Ha Hred Hi.
  assert (Hpage :
    __call__ actuate_link link_id str_of call cls r method widget_id attr w =
    extend_view_call call (VDict d) r attr w3).
  { rewrite (call_after_apply_method cls r method widget_id attr w resource
               w0 w1 (VDict d) w2 Hr Hinit Hh Hw Ha).
    unfold bind at 1. unfold returns in Hred. now rewrite Hred. }
  split; [|split; [|split; [|split]]].
  - intros Hb. rewrite Hpage, (extend_view_call_binds _ _ _ _ Hb).
    now apply extend_view_dict.
  - intros Hb. rewrite Hpage. now apply extend_view_call_refused.
  - intros name v rest output wa Hc Hn.
    exists (dict_set key_eqb (Some name) v output).
    split; [now apply extend_value|]. split.
    + apply dict_get_set_same. apply key_eqb_spec.
    + intros k Hk. apply dict_get_set_other; [apply key_eqb_spec | assumption].
  - intros name f rest output wa display wb Hcall Hkeys Hnd.
    exists (dict_update key_eqb output display).
    split; [now apply extend_callable_dict|].
    intros k. rewrite (dict_get_update key_eqb key_eqb_spec).
    now rewrite (dict_get_rev key_eqb key_eqb_spec).
  - intros name f rest output wa wb Hcall.
    exists (dict_del key_eqb (Some name) output).
    split; [now apply extend_callable_none|]. split.
    + apply dict_get_del_same.
    + intros k Hk. apply dict_get_del_other; [apply key_eqb_spec | assumption].
Qed.

End MethodFacts.

(* ================================================================== *)
(** ** Properties of [_permitted] *)

Section PermissionFacts.

Variable s3_has_permission : value -> table -> value -> bool.
Variable get_config : string -> string -> value.

Lemma is_str_eq v s : is_str v s = true -> v = VStr s.
Proof.
  destruct v; try discriminate. simpl. intros H.
  apply String.eqb_eq in H. now subst.
Qed.

(** But for [create] on a component, [_permitted] is one check: the checked
    method on the target table and record. *)
Lemma permitted_one_check method w r :
  h_request (self w) = Some r ->
  req_component (requests w r) = None \/
  is_str (permission_method (checked_method method w)) "create" = false ->
  _permitted s3_has_permission get_config method w =
  has_permission s3_has_permission
    (permission_method (checked_method method w))
    (fst (permission_target (requests w r) w))
    (snd (permission_target (requests w r) w)) w.
Proof.
  intros Hreq H. unfold _permitted. unfold bind at 1. unfold get at 1.
  rewrite Hreq. unfold permission_target.
  fold (checked_method method w).
  fold (permission_method (checked_method method w)).
  destruct (req_component (requests w r)) as [c|]; [|reflexivity].
  destruct H as [H | ->]; [discriminate | reflexivity].
Qed.

(** Before its first call a handler instance has no request, and
    [_permitted] fails on it. *)
Lemma permitted_before_call method w :
  h_request (self w) = None ->
  exists e, _permitted s3_has_permission get_config method w = (Raises e, w).
Proof.
  intros H. unfold _permitted, bind, get, raise. rewrite H. eauto.
Qed.

(** C4: for a component request whose checked method is [create]: when the
    master table is not configured to ignore master access for the
    component and [update] on the master record is denied, [_permitted]
    returns [False] and has checked the master record only; otherwise it
    returns what the permission check of [create] on the component table and
    record gives. *)
Theorem permitted_create_on_component method w r c :
  h_request (self w) = Some r ->
  req_component (requests w r) = Some c ->
  is_str (checked_method method w) "create" = true ->
  (ignores_master_access get_config (requests w r) = false ->
   s3_has_permission (VStr "update") (req_table (requests w r))
                     (req_id (requests w r)) = false ->
   _permitted s3_has_permission get_config method w =
   (Returns false, with_check (master_check (requests w r)) w)) /\
  (ignores_master_access get_config (requests w r) = false ->
   s3_has_permission (VStr "update") (req_table (requests w r))
                     (req_id (requests w r)) = true ->
   _permitted s3_has_permission get_config method w =
   (Returns (s3_has_permission (VStr "create") (res_table (resources w c))
                               (req_component_id (requests w r))),
    with_check (component_check (requests w r) (resources w c))
               (with_check (master_check (requests w r)) w))) /\
  (ignores_master_access get_config (requests w r) = true ->
   _permitted s3_has_permission get_config method w =
   (Returns (s3_has_permission (VStr "create") (res_table (resources w c))
                               (req_component_id (requests w r))),
    with_check (component_check (requests w r) (resources w c)) w)).
Proof.
  intros Hreq Hc Hm. unfold checked_method in Hm.
  apply is_str_eq in Hm.
  assert (Hpre :
             _permitted s3_has_permission get_config method w =
             (if negb (is_sequence (get_config (req_tablename (requests w r))
                                               "ignore_master_access"))
                 || negb (contains (get_config (req_tablename (requests w r))
                                               "ignore_master_access")
                                   (req_component_name (requests w r)))
              then
                master_access <- has_permission s3_has_permission (VStr "update")
                                   (req_table (requests w r))
                                   (req_id (requests w r)) ;;
                if negb master_access then ret false
                else has_permission s3_has_permission (VStr "create")
                       (res_table (resources w c))
                       (req_component_id (requests w r))
              else has_permission s3_has_permission (VStr "create")
                     (res_table (resources w c))
                     (req_component_id (requests w r))) w).
  { unfold _permitted. unfold bind at 1. unfold get at 1.
    rewrite Hreq, Hm, Hc. reflexivity. }
  rewrite Hpre. clear Hpre.
  unfold ignores_master_access. rewrite <- negb_andb.
  destruct (is_sequence _ && contains _ _); cbn [negb].
  - split; [|split]; [discriminate | discriminate | intros _].
    reflexivity.
  - split; [|split]; [intros _ Hdeny | intros _ Hallow | discriminate];
      unfold bind, has_permission, modify, ret; cbn [with_check];
      [rewrite Hdeny | rewrite Hallow]; reflexivity.
Qed.

End PermissionFacts.

(* ================================================================== *)
(** ** Further properties of [_record_id] *)

Section RecordIdFacts.

Variable actuate_link : world -> nat -> bool.
Variable link_id : world -> nat -> value -> value -> value.

(** The world after the first record of the component [c] was enforced. *)
Lemma first_component_record_found r c link master_id component_id w first
  others :
  res_found (resources w c) = first :: others ->
  first_component_record link_id r c link master_id component_id w =
  (Returns first,
   with_resource c (add_filter first)
     (with_request r (set_req_component_id first)
        (match link with
         | Some l =>
             if truthy master_id
             then with_request r
                    (set_req_link_id
                       (link_id (with_resource c (load 0 1) w) l master_id first))
                    (with_resource c (load 0 1) w)
             else with_resource c (load 0 1) w
         | None => with_resource c (load 0 1) w
         end))).
Proof.
  intros Hf. unfold first_component_record, bind, modify, get, ret.
  cbn [resources with_resource]. rewrite Nat.eqb_refl.
  cbn [load res_rows]. rewrite Hf. cbn [firstn skipn].
  destruct link; [destruct (truthy master_id)|]; reflexivity.
Qed.

(** X1: on a component that is not multiple, with no component ID given and
    a record found, [_record_id] enforces the first record: it loads that
    one row, sets [r.component_id] to its ID, filters the component by it,
    and, where the request has a link and a master ID, sets [r.link_id] to
    what the link gives for the two IDs.  It returns the ID of the record,
    or [r.link_id] when the link is not actuated. *)
Theorem record_id_enforces_first r c w first others :
  req_component (requests w r) = Some c ->
  res_multiple (resources w c) = false ->
  truthy (req_component_id (requests w r)) = false ->
  res_found (resources w c) = first :: others ->
  exists v w',
    returns (_record_id actuate_link link_id r) w v w' /\
    req_component_id (requests w' r) = first /\
    res_rows (resources w' c) = [first] /\
    res_filters (resources w' c) = (res_filters (resources w c) ++ [first])%list /\
    (req_link (requests w r) = None -> v = first) /\
    (forall l,
        req_link (requests w r) = Some l ->
        (truthy (req_id (requests w r)) = true ->
         req_link_id (requests w' r) =
         link_id (with_resource c (load 0 1) w) l (req_id (requests w r)) first) /\
        (truthy (req_id (requests w r)) = false ->
         req_link_id (requests w' r) = req_link_id (requests w r)) /\
        v = if actuate_link w' r then first else req_link_id (requests w' r)).
Proof.
  intros Hc Hm Ht Hf.
  unfold returns, _record_id. unfold bind at 1. unfold get at 1.
  rewrite Hc, Hm, Ht. cbn [negb andb]. unfold bind at 1.
  rewrite (first_component_record_found r c _ _ _ w first others Hf).
  unfold bind, get, ret.
  destruct (req_link (requests w r)) as [l|] eqn:El.
  - destruct (truthy (req_id (requests w r))) eqn:Em;
      match goal with |- context [actuate_link ?x r] =>
        destruct (actuate_link x r) eqn:Ea end;
      do 2 eexists; (split; [reflexivity|]);
      cbn; rewrite ?Nat.eqb_refl; cbn; rewrite ?Hf;
      (split; [reflexivity|]); (split; [reflexivity|]);
      (split; [reflexivity|]); (split; [discriminate|]);
      intros l' [= <-]; rewrite ?Ea;
      (split; [intros; try reflexivity; discriminate|]);
      (split; [intros; try reflexivity; discriminate|]); reflexivity.
  - do 2 eexists. (split; [reflexivity|]).
    cbn. rewrite ?Nat.eqb_refl. cbn. rewrite ?Hf.
    repeat split; try reflexivity; discriminate.
Qed.

Lemma first_component_record_empty r c link master_id component_id w :
  res_found (resources w c) = [] ->
  first_component_record link_id r c link master_id component_id w =
  (Returns component_id, with_resource c (load 0 1) w).
Proof.
  intros Hf. unfold first_component_record, bind, modify, get, ret.
  cbn [resources with_resource]. rewrite Nat.eqb_refl.
  cbn [load res_rows]. now rewrite Hf.
Qed.

(** With nothing to enforce, [_record_id] reads the ID off the request and
    changes nothing. *)
Lemma record_id_reads r w :
  nothing_to_enforce r w = true ->
  _record_id actuate_link link_id r w =
  (Returns (target_record_id actuate_link r w), w).
Proof.
  unfold nothing_to_enforce, target_record_id, _record_id.
  unfold bind at 1. unfold get at 1.
  destruct (req_component (requests w r)) as [c|]; [|reflexivity].
  intros H. rewrite <- negb_orb, H. cbn [negb].
  unfold bind, get, ret.
  now destruct (req_link (requests w r)); [destruct (actuate_link w r)|].
Qed.

(** X2: on a component that is not multiple, with no component ID given and
    no record found, [_record_id] enforces nothing: the request is as it
    was, [r.component_id] still unset, no filter is added to the component,
    and the ID returned is the unset one (or [r.link_id] when the link is
    not actuated). *)
Theorem record_id_nothing_found r c w :
  req_component (requests w r) = Some c ->
  res_multiple (resources w c) = false ->
  truthy (req_component_id (requests w r)) = false ->
  res_found (resources w c) = [] ->
  exists v w',
    returns (_record_id actuate_link link_id r) w v w' /\
    requests w' = requests w /\
    res_rows (resources w' c) = [] /\
    res_filters (resources w' c) = res_filters (resources w c) /\
    v = target_record_id actuate_link r w' /\
    (req_link (requests w r) = None -> truthy v = false).
Proof.
  intros Hc Hm Ht Hf.
  unfold returns, _record_id, target_record_id.
  unfold bind at 1. unfold get at 1.
  rewrite Hc, Hm, Ht. cbn [negb andb]. unfold bind at 1.
  rewrite (first_component_record_empty r c _ _ _ w Hf).
  unfold bind, get, ret.
  destruct (req_link (requests w r)) as [l|] eqn:El;
    [destruct (actuate_link (with_resource c (load 0 1) w) r) eqn:Ea|];
    do 2 eexists; (split; [reflexivity|]);
    cbn [requests resources with_resource]; rewrite ?Nat.eqb_refl;
    cbn [res_rows res_filters load]; rewrite ?Hf, ?Hc, ?El, ?Ea;
    repeat split; auto; discriminate.
Qed.

(** [_record_id] where it enforces the record [first]. *)
Lemma record_id_enforced r c w first others :
  req_component (requests w r) = Some c ->
  res_multiple (resources w c) = false ->
  truthy (req_component_id (requests w r)) = false ->
  res_found (resources w c) = first :: others ->
  _record_id actuate_link link_id r w =
  (Returns (target_record_id actuate_link r (enforced link_id r c first w)),
   enforced link_id r c first w).
Proof.
  intros Hc Hm Ht Hf.
  unfold _record_id. unfold bind at 1. unfold get at 1.
  rewrite Hc, Hm, Ht. cbn [negb andb]. unfold bind at 1.
  rewrite (first_component_record_found r c _ _ _ w first others Hf).
  fold (enforced link_id r c first w).
  unfold bind, get, ret, target_record_id.
  assert (Hq : req_component (requests (enforced link_id r c first w) r) = Some c
               /\ req_link (requests (enforced link_id r c first w) r)
                  = req_link (requests w r)
               /\ req_component_id (requests (enforced link_id r c first w) r)
                  = first).
  { unfold enforced.
    destruct (req_link (requests w r)) eqn:El;
      [destruct (truthy (req_id (requests w r)))|];
      cbn; rewrite ?Nat.eqb_refl; cbn; rewrite ?El; auto. }
  destruct Hq as (-> & -> & ->).
  now destruct (req_link (requests w r));
    [destruct (actuate_link (enforced link_id r c first w) r)|].
Qed.

(** The ID [_record_id] returns is the target record ID the request holds
    when it returns; the link of the request is as before. *)
Lemma record_id_result r w v w' :
  returns (_record_id actuate_link link_id r) w v w' ->
  v = target_record_id actuate_link r w' /\
  req_link (requests w' r) = req_link (requests w r).
Proof.
  unfold returns. intros H.
  destruct (nothing_to_enforce r w) eqn:En.
  - rewrite (record_id_reads r w En) in H. now injection H as <- <-.
  - unfold nothing_to_enforce in En.
    destruct (req_component (requests w r)) as [c|] eqn:Hc; [|discriminate].
    apply orb_false_iff in En as [Hm Ht].
    destruct (res_found (resources w c)) as [|first others] eqn:Hf.
    + destruct (record_id_nothing_found r c w Hc Hm Ht Hf)
        as (v1 & w1 & H1 & Hq & _ & _ & Hv1 & _).
      unfold returns in H1. rewrite H1 in H.
      injection H as <- <-. now rewrite Hq.
    + rewrite (record_id_enforced r c w first others Hc Hm Ht Hf) in H.
      injection H as <- <-. split; [reflexivity|].
      unfold enforced.
      destruct (req_link (requests w r)) eqn:El;
        [destruct (truthy (req_id (requests w r)))|];
        cbn; rewrite ?Nat.eqb_refl; cbn; now rewrite ?El.
Qed.

(** X3: the ID [_record_id] returns is the target record ID the request
    holds when it returns; and once a component ID is there (or the
    component is multiple, or the request is on the master), calling
    [_record_id] again returns the same ID and changes nothing. *)
Theorem record_id_settled r w v w' :
  returns (_record_id actuate_link link_id r) w v w' ->
  v = target_record_id actuate_link r w' /\
  (nothing_to_enforce r w' = true ->
   returns (_record_id actuate_link link_id r) w' v w').
Proof.
  intros H. destruct (record_id_result r w v w' H) as [Hv _].
  split; [assumption|].
  intros En. unfold returns. rewrite (record_id_reads r w' En). now subst v.
Qed.

End RecordIdFacts.

(* ================================================================== *)
(** ** Further properties of [__call__] *)

Lemma falsy_not_read v :
  truthy v = false -> in_strs v ["read"; "display"] = false.
Proof.
  destruct v; cbn; try reflexivity.
  intros H. apply negb_false_iff, String.eqb_eq in H. now subst.
Qed.

Section CallFacts.

Variable actuate_link : world -> nat -> bool.
Variable link_id : world -> nat -> value -> value -> value.
Variable str_of : value -> string.
Variable call : nat -> nat -> M value.

(** On a request with no component, the target is the master: its resource
    and its record ID; the requests and the resources are as they were. *)
Lemma resolve_target_master r method w :
  req_component (requests w r) = None ->
  exists w0,
    returns (resolve_target actuate_link link_id r method) w
            (req_resource (requests w r)) w0 /\
    h_method (self w0) = resolved_method r method w /\
    h_record_id (self w0) = req_id (requests w r) /\
    requests w0 = requests w /\
    resources w0 = resources w.
Proof.
  intros Ec.
  unfold returns, resolve_target, resolved_method.
  unfold bind at 1. unfold modify at 1.
  unfold bind at 1. unfold get at 1.
  unfold bind at 1. unfold modify at 1.
  unfold bind at 1. unfold modify at 1.
  cbn [requests resp with_self self].
  set (given := if is_none method then req_method (requests w r) else method).
  set (w1 := with_self _ (with_self _ (with_self _ w))).
  rewrite Ec.
  unfold bind at 1. unfold bind at 1. unfold modify at 1.
  unfold bind at 1. unfold get at 1.
  cbn [with_self self requests resources].
  change (h_method (set_h_record_id (req_id (requests w r)) (self w1)))
    with given.
  change (requests w1 r) with (requests w r).
  destruct (truthy given) eqn:Eg; cbn [negb];
    [|destruct (truthy (req_id (requests w r))
                || in_strs (req_method (requests w r)) ["read"; "display"])];
    unfold bind, modify, get, ret;
    eexists; (split; [reflexivity|]); cbn; repeat split; auto.
Qed.

(** X4: on a request with no component and no method established, the
    method is [read] when the request names a record and [list] otherwise,
    and the target is the master resource and record, with the requests and
    resources untouched; a method given empty (but not [None]) puts the
    method of the request aside, except that [read] and [display] there
    still give [read]. *)
Theorem master_default_method cls r method widget_id attr w :
  req_component (requests w r) = None ->
  exists w0,
    returns (resolve_target actuate_link link_id r method) w
            (req_resource (requests w r)) w0 /\
    __call__ actuate_link link_id str_of call cls r method widget_id attr w =
    execute str_of call cls r (req_resource (requests w r)) widget_id attr w0 /\
    h_record_id (self w0) = req_id (requests w r) /\
    requests w0 = requests w /\
    resources w0 = resources w /\
    (method = VNone ->
     truthy (req_method (requests w r)) = false ->
     h_method (self w0) =
       if truthy (req_id (requests w r)) then VStr "read" else VStr "list") /\
    (is_none method = false ->
     truthy method = false ->
     h_method (self w0) =
       if truthy (req_id (requests w r))
          || in_strs (req_method (requests w r)) ["read"; "display"]
       then VStr "read" else VStr "list").
Proof.
  intros Ec.
  destruct (resolve_target_master r method w Ec)
    as (w0 & Hr & Hm & Hid & Hq & Hs).
  exists w0. split; [assumption|]. split; [now apply call_steps|].
  split; [assumption|]. split; [assumption|]. split; [assumption|].
  unfold resolved_method in Hm. rewrite Ec in Hm. split.
  - intros -> Hf. cbn [is_none] in Hm. rewrite Hf in Hm.
    now rewrite (falsy_not_read _ Hf), orb_false_r in Hm.
  - intros Hn Hf. now rewrite Hn, Hf in Hm.
Qed.

(** X5: a method given to [__call__] that is not empty is the method of the
    handler instance, whatever the method of the request, and (unless it is
    [_init]) the method the handler is applied with; the request keeps its
    own method. *)
Theorem explicit_method_wins cls r method widget_id attr w :
  truthy method = true ->
  exists resource w0,
    returns (resolve_target actuate_link link_id r method) w resource w0 /\
    h_method (self w0) = method /\
    (forall a, req_method (requests w0 a) = req_method (requests w a)) /\
    (is_str method "_init" = false ->
     exists w1,
       __call__ actuate_link link_id str_of call cls r method widget_id attr w =
       apply_handler str_of call cls r resource widget_id attr w1 /\
       h_method (self w1) = method /\
       forall a, req_method (requests w1 a) = req_method (requests w a)).
Proof.
  intros Ht.
  destruct (resolve_target_returns actuate_link link_id r method w)
    as (resource & w0 & Hr & Hu & Hm & _).
  assert (Hm' : h_method (self w0) = method).
  { rewrite Hm. unfold resolved_method.
    destruct method; try discriminate; cbn [is_none]; now rewrite Ht. }
  exists resource, w0. split; [assumption|]. split; [assumption|].
  split; [apply Hu|].
  intros Hinit.
  destruct (hide_filter_policy_returns r attr w0) as (v & Hh & _).
  exists (with_self (set_h_hide_filter v) w0). split; [|split].
  - rewrite (call_steps actuate_link link_id str_of call cls r method
               widget_id attr w resource w0 Hr).
    apply execute_steps; [now rewrite Hm' | assumption].
  - exact Hm'.
  - apply Hu.
Qed.

(** On a request with a component, the target record is what [_record_id]
    returns, and the target resource is chosen once the first component
    record has been enforced. *)
Lemma resolve_target_component r c method w :
  req_component (requests w r) = Some c ->
  exists w1 v w2 resource w0 w3,
    requests w1 = requests w /\
    resources w1 = resources w /\
    returns (_record_id actuate_link link_id r) w1 v w2 /\
    returns (resolve_target actuate_link link_id r method) w resource w0 /\
    h_record_id (self w0) = v /\
    requests w0 = requests w2 /\
    resources w0 = resources w2 /\
    requests w3 = requests w2 /\
    resources w3 = resources w2 /\
    resource = match res_link (resources w2 c) with
               | Some l => if actuate_link w3 r then c else l
               | None => c
               end.
Proof.
  intros Ec.
  unfold returns at 2. unfold resolve_target.
  unfold bind at 1. unfold modify at 1.
  unfold bind at 1. unfold get at 1.
  unfold bind at 1. unfold modify at 1.
  unfold bind at 1. unfold modify at 1.
  cbn [requests resp with_self self].
  set (w1 := with_self _ (with_self _ (with_self _ w))).
  rewrite Ec.
  destruct (record_id_returns actuate_link link_id r w1)
    as (v & w2 & Hr & Hs & Hu & _).
  exists w1, v, w2.
  unfold returns in Hr.
  unfold bind at 1. unfold bind at 1. rewrite Hr.
  unfold bind at 1. unfold modify at 1.
  unfold bind at 1. unfold get at 1.
  cbn [with_self self requests resources].
  destruct (negb (truthy (h_method (set_h_record_id v (self w2)))));
    [destruct (res_multiple (resources w2 c)
               && negb (truthy (req_component_id (requests w2 r))))|];
    unfold bind, modify, get, ret; cbn [with_self self requests resources];
    (destruct (res_link (resources w2 c)) eqn:El;
     [match goal with |- context [actuate_link ?x r] =>
        destruct (actuate_link x r) eqn:Ea;
        [exists c | exists n]; eexists; exists x end
     | exists c; eexists; exists w2]);
    (split; [reflexivity|]); (split; [reflexivity|]); (split; [exact Hr|]);
    (split; [unfold returns; cbn; rewrite ?El, ?Ea; reflexivity|]);
    repeat (split; [reflexivity|]); cbn; rewrite ?El, ?Ea; reflexivity.
Qed.

(** X6: the target resource and the target record of a component request
    agree.  Where [r.actuate_link()] reads the request and the resources
    only, and the link of the request is the link of its component, the
    handler instance is left either with the component as its resource and
    [r.component_id] as its record ID, or, for a link that is not actuated,
    with the link resource and [r.link_id]. *)
Theorem target_record_of_resource r c method w :
  (forall wa wb, requests wa = requests wb -> resources wa = resources wb ->
                 actuate_link wa r = actuate_link wb r) ->
  req_component (requests w r) = Some c ->
  req_link (requests w r) = res_link (resources w c) ->
  exists resource w0,
    returns (resolve_target actuate_link link_id r method) w resource w0 /\
    h_resource (self w0) = Some resource /\
    h_record_id (self w0) = target_record_id actuate_link r w0 /\
    (resource = c /\
     h_record_id (self w0) = req_component_id (requests w0 r) \/
     exists l, res_link (resources w c) = Some l /\
               resource = l /\
               actuate_link w0 r = false /\
               h_record_id (self w0) = req_link_id (requests w0 r)).
Proof.
  intros Hact Ec Hl.
  destruct (resolve_target_component r c method w Ec)
    as (w1 & v & w2 & resource & w0 & w3 &
        Hq1 & Hs1 & Hid & Hr & Hv & Hq0 & Hs0 & Hq3 & Hs3 & Hres).
  destruct (record_id_result actuate_link link_id r w1 v w2 Hid) as [Ev El].
  destruct (record_id_returns actuate_link link_id r w1)
    as (v' & w2' & Hid' & _ & Hu & _).
  unfold returns in Hid, Hid'. rewrite Hid in Hid'.
  injection Hid' as <- <-.
  destruct (resolve_target_returns actuate_link link_id r method w)
    as (resource' & w0' & Hr' & _ & _ & _ & _ & _ & Ht).
  unfold returns in Hr, Hr'. rewrite Hr in Hr'. injection Hr' as <- <-.
  destruct Ht as (_ & Hres' & _).
  assert (Ea0 : actuate_link w0 r = actuate_link w2 r)
    by (apply Hact; assumption).
  assert (Ea3 : actuate_link w3 r = actuate_link w2 r)
    by (apply Hact; assumption).
  assert (Ec2 : req_component (requests w2 r) = Some c).
  { rewrite (ub_req_component _ _ Hu), Hq1. exact Ec. }
  assert (El2 : req_link (requests w2 r) = res_link (resources w c)).
  { rewrite El, Hq1. exact Hl. }
  assert (Erl : res_link (resources w2 c) = res_link (resources w c)).
  { rewrite (ub_res_link _ _ Hu), Hs1. reflexivity. }
  assert (Et : target_record_id actuate_link r w0 =
               target_record_id actuate_link r w2).
  { unfold target_record_id. now rewrite Hq0, Ea0. }
  exists resource, w0. split; [exact Hr|]. split; [exact Hres'|].
  split; [now rewrite Hv, Et|].
  rewrite Hv, Ev, Hres, Erl, Ea3, Ea0, Hq0.
  unfold target_record_id. rewrite Ec2, El2.
  destruct (res_link (resources w c)) as [l|]; [|now left].
  destruct (actuate_link w2 r); [now left|].
  right. exists l. repeat split.
Qed.

(** The record ID of the handler instance is what [_record_id] returns for
    the request, called on the requests and resources as they were; and
    the requests and resources are left as [_record_id] leaves them. *)
Lemma resolve_target_record r method w :
  exists resource w0 w1 w2,
    returns (resolve_target actuate_link link_id r method) w resource w0 /\
    requests w1 = requests w /\
    resources w1 = resources w /\
    returns (_record_id actuate_link link_id r) w1 (h_record_id (self w0)) w2 /\
    requests w0 = requests w2 /\
    resources w0 = resources w2.
Proof.
  destruct (req_component (requests w r)) as [c|] eqn:Ec.
  - destruct (resolve_target_component r c method w Ec)
      as (w1 & v & w2 & resource & w0 & w3 &
          Hq1 & Hs1 & Hid & Hr & Hv & Hq0 & Hs0 & _).
    exists resource, w0, w1, w2. rewrite Hv. now repeat split.
  - destruct (resolve_target_master r method w Ec)
      as (w0 & Hr & _ & Hid & Hq & Hs).
    exists (req_resource (requests w r)), w0, w, w.
    split; [exact Hr|]. split; [reflexivity|]. split; [reflexivity|].
    split; [|now split].
    unfold returns. rewrite Hid.
    rewrite (record_id_reads actuate_link link_id r w)
      by (unfold nothing_to_enforce; now rewrite Ec).
    unfold target_record_id. now rewrite Ec.
Qed.

(* ------------------------------------------------------------------ *)
(** *** The [_init] method *)

(** C10, amended: when the resolved method is [_init], [__call__] returns
    [None] in the state the resolution of the target leaves, whatever the
    handlers of the subclass are.  On the handler instance the attributes
    of the target are set ([request], [download_url], [method], [prefix],
    [name], [tablename], [table], [resource], and [record_id], which is
    what [_record_id] returns for the request), and the two others,
    [hide_filter] and [next], are as before.  [r.next], the response and
    the permission checks are as before.  The requests and the resources
    are as [_record_id] leaves them: unchanged where there is nothing to
    enforce (no component, a component that is multiple, or a component ID
    given), and with the first component record enforced otherwise. *)
Theorem init_only r method widget_id attr w :
  is_str (resolved_method r method w) "_init" = true ->
  exists resource w0,
    returns (resolve_target actuate_link link_id r method) w resource w0 /\
    (forall cls,
        __call__ actuate_link link_id str_of call cls r method widget_id attr w
        = (Returns VNone, w0)) /\
    h_request (self w0) = Some r /\
    h_method (self w0) = resolved_method r method w /\
    target_set r resource w w0 /\
    (exists w1 w2,
        requests w1 = requests w /\
        resources w1 = resources w /\
        returns (_record_id actuate_link link_id r) w1
                (h_record_id (self w0)) w2 /\
        requests w0 = requests w2 /\
        resources w0 = resources w2) /\
    (req_component (requests w r) = None ->
     h_record_id (self w0) = req_id (requests w r)) /\
    h_hide_filter (self w0) = h_hide_filter (self w) /\
    h_next (self w0) = h_next (self w) /\
    req_next (requests w0 r) = req_next (requests w r) /\
    resp w0 = resp w /\
    checks w0 = checks w /\
    (nothing_to_enforce r w = true ->
     requests w0 = requests w /\ resources w0 = resources w).
Proof.
  intros Hinit.
  destruct (resolve_target_returns actuate_link link_id r method w)
    as (resource & w0 & Hr & Hu & Hmethod & Hreq & Hhide & Hnext & Htarget).
  destruct (resolve_target_record r method w)
    as (resource' & w0' & w1 & w2 & Hr' & Hq1 & Hs1 & Hid & Hq0 & Hs0).
  unfold returns in Hr, Hr'. rewrite Hr in Hr'. injection Hr' as <- <-.
  exists resource, w0. split; [exact Hr|]. split.
  { intros cls.
    rewrite (call_steps actuate_link link_id str_of call cls r method
               widget_id attr w resource w0 Hr).
    apply execute_init. now rewrite Hmethod. }
  split; [exact Hreq|]. split; [exact Hmethod|]. split; [exact Htarget|].
  split; [exists w1, w2; now repeat split|].
  split.
  { intros Ec.
    destruct (resolve_target_master r method w Ec) as (w0' & Hr' & _ & H & _).
    unfold returns in Hr'. rewrite Hr in Hr'. now injection Hr' as _ <-. }
  split; [exact Hhide|]. split; [exact Hnext|].
  split; [apply (ub_req_next _ _ Hu)|].
  split; [apply (ub_resp _ _ Hu)|]. split; [apply (ub_checks _ _ Hu)|].
  intros En.
  assert (En1 : nothing_to_enforce r w1 = true).
  { unfold nothing_to_enforce in *. now rewrite Hq1, Hs1. }
  unfold returns in Hid.
  rewrite (record_id_reads actuate_link link_id r w1 En1) in Hid.
  injection Hid as _ <-. split; congruence.
Qed.

(** The [hide_filter] policy with a setting that is no dict. *)
Lemma hide_filter_policy_plain r attr w :
  req_interactive (requests w r) = true ->
  is_dict (attr_get "hide_filter" attr) = false ->
  returns (hide_filter_policy r attr) w tt
    (with_self
       (set_h_hide_filter
          (if is_none (attr_get "hide_filter" attr)
           then VBool (has_component (requests w r))
           else attr_get "hide_filter" attr)) w).
Proof.
  intros Hi Hd.
  unfold returns, hide_filter_policy, bind, get, modify, has_component.
  rewrite Hi.
  destruct (attr_get "hide_filter" attr); try discriminate; reflexivity.
Qed.

(** X7: on an interactive request, a [hide_filter] attr that is no dict is
    the setting of the handler instance as it stands, whatever its value,
    when the handler is applied; with no such attr, or with [None], the
    setting is [True] on a component and [False] on the master. *)
Theorem hide_filter_plain cls r method widget_id attr w :
  is_str (resolved_method r method w) "_init" = false ->
  req_interactive (requests w r) = true ->
  is_dict (attr_get "hide_filter" attr) = false ->
  exists resource w1,
    __call__ actuate_link link_id str_of call cls r method widget_id attr w =
    apply_handler str_of call cls r resource widget_id attr w1 /\
    (is_none (attr_get "hide_filter" attr) = false ->
     h_hide_filter (self w1) = attr_get "hide_filter" attr) /\
    (dict_get String.eqb "hide_filter" attr = None \/
     dict_get String.eqb "hide_filter" attr = Some VNone ->
     h_hide_filter (self w1) = VBool (has_component (requests w r))).
Proof.
  intros Hinit Hi Hd.
  destruct (resolve_target_returns actuate_link link_id r method w)
    as (resource & w0 & Hr & Hu & Hmethod & _).
  assert (Hi0 : req_interactive (requests w0 r) = true)
    by now rewrite (ub_req_interactive _ _ Hu).
  pose proof (hide_filter_policy_plain r attr w0 Hi0 Hd) as Hh.
  eexists resource, _. split.
  - rewrite (call_steps actuate_link link_id str_of call cls r method
               widget_id attr w resource w0 Hr).
    apply execute_steps; [now rewrite Hmethod | exact Hh].
  - cbn [self with_self h_hide_filter set_h_hide_filter].
    unfold has_component. rewrite (ub_req_component _ _ Hu). split.
    + now intros ->.
    + unfold attr_get. now intros [-> | ->].
Qed.

(** X8: an exception of the handler goes through [__call__] as it is, in
    the state the handler left: for the standalone page there is no
    redirection, no assignment to [r.next] and no view variable after it.
    When the handler is applied, [r.next] and [self.next] are as they were
    before the call. *)
Theorem handler_exception_propagates cls r method widget_id attr w :
  is_str (resolved_method r method w) "_init" = false ->
  exists w1,
    req_next (requests w1 r) = req_next (requests w r) /\
    h_next (self w1) = h_next (self w) /\
    (forall e w2,
        truthy widget_id = false \/ widget cls = None ->
        apply_method cls r attr w1 = (Raises e, w2) ->
        __call__ actuate_link link_id str_of call cls r method widget_id attr w
        = (Raises e, w2)) /\
    (forall widget_method e w2,
        truthy widget_id = true ->
        widget cls = Some widget_method ->
        widget_method r (resolved_method r method w) widget_id attr w1
        = (Raises e, w2) ->
        __call__ actuate_link link_id str_of call cls r method widget_id attr w
        = (Raises e, w2)).
Proof.
  intros Hinit.
  destruct (resolve_target_returns actuate_link link_id r method w)
    as (resource & w0 & Hr & Hu & Hmethod & _ & _ & Hnext & _).
  destruct (hide_filter_policy_returns r attr w0) as (v & Hh & _).
  assert (Hcall :
    __call__ actuate_link link_id str_of call cls r method widget_id attr w =
    apply_handler str_of call cls r resource widget_id attr
      (with_self (set_h_hide_filter v) w0)).
  { rewrite (call_steps actuate_link link_id str_of call cls r method
               widget_id attr w resource w0 Hr).
    apply execute_steps; [now rewrite Hmethod | assumption]. }
  exists (with_self (set_h_hide_filter v) w0).
  split; [apply (ub_req_next _ _ Hu)|]. split; [exact Hnext|]. split.
  - intros e w2 Hw Ha. rewrite Hcall, apply_handler_page by assumption.
    unfold standalone_page. unfold bind at 1. now rewrite Ha.
  - intros widget_method e w2 Hw Hm Ha.
    rewrite Hcall, (apply_handler_widget str_of call cls r resource widget_id
                      attr _ widget_method Hw Hm).
    cbn [self with_self h_method set_h_hide_filter]. now rewrite Hmethod.
Qed.

(** The redirection where [self.next] is not set, or the target resource
    has no [lastid]. *)
Lemma redirect_without_lastid r resource w :
  truthy (h_next (self w)) = false \/
  res_lastid (resources w resource) = None \/
  res_lastid (resources w resource) = Some "" ->
  returns (redirect str_of r resource) w tt
    (if truthy (resp_error (resp w)) then w
     else with_request r (set_req_next (h_next (self w))) w).
Proof.
  intros H. unfold returns, redirect.
  unfold bind at 1. unfold get at 1. unfold bind at 1.
  destruct (res_lastid (resources w resource)) as [lastid|] eqn:El.
  - assert (E : truthy (h_next (self w)) && negb (String.eqb lastid "") = false).
    { destruct H as [H | [H | H]].
      + now rewrite H.
      + discriminate.
      + injection H as ->. apply andb_false_r. }
    rewrite E. unfold bind, get, modify, ret.
    now destruct (truthy (resp_error (resp w))).
  - unfold bind, get, modify, ret.
    now destruct (truthy (resp_error (resp w))).
Qed.

(** X9: on the standalone page, when [apply_method] leaves [self.next]
    unset, or the target resource has no [lastid] (none, or an empty one),
    [self.next] stays as it is (it is not turned into a string), and
    [r.next] is assigned [self.next], be it [None], unless
    [response.error] is set, where nothing changes at all. *)
Theorem no_redirection cls r method widget_id attr w resource w0 w1 output w2 :
  returns (resolve_target actuate_link link_id r method) w resource w0 ->
  is_str (h_method (self w0)) "_init" = false ->
  returns (hide_filter_policy r attr) w0 tt w1 ->
  truthy widget_id = false \/ widget cls = None ->
  returns (apply_method cls r attr) w1 output w2 ->
  truthy (h_next (self w2)) = false \/
  res_lastid (resources w2 resource) = None \/
  res_lastid (resources w2 resource) = Some "" ->
  exists w3,
    returns (redirect str_of r resource) w2 tt w3 /\
    __call__ actuate_link link_id str_of call cls r method widget_id attr w =
    extend_view_call call output r attr w3 /\
    self w3 = self w2 /\
    resources w3 = resources w2 /\
    (truthy (resp_error (resp w2)) = false ->
     req_next (requests w3 r) = h_next (self w2)) /\
    (truthy (resp_error (resp w2)) = true -> w3 = w2).
Proof.
  intros Hr Hinit Hh Hw Ha Hno.
  pose proof (redirect_without_lastid r resource w2 Hno) as Hred.
  eexists. split; [exact Hred|]. split.
  - rewrite (call_after_apply_method actuate_link link_id str_of call cls r
               method widget_id attr w resource w0 w1 output w2
               Hr Hinit Hh Hw Ha).
    unfold bind. unfold returns in Hred. now rewrite Hred.
  - destruct (truthy (resp_error (resp w2))); cbn;
      rewrite ?Nat.eqb_refl; repeat split; auto; discriminate.
Qed.

(** X10: on the standalone page, where the request is not interactive or
    the output of [apply_method] is no dict, and the attr has no entry
    named [output], [__call__] returns that output as it is, in the state
    the redirection left: no callable of the attr is called.  With an entry
    named [output], [__call__] raises a [TypeError] in that state, whatever
    the request and the output are. *)
Theorem output_returned_as_is cls r method widget_id attr w resource w0 w1
  output w2 w3 :
  returns (resolve_target actuate_link link_id r method) w resource w0 ->
  is_str (h_method (self w0)) "_init" = false ->
  returns (hide_filter_policy r attr) w0 tt w1 ->
  truthy widget_id = false \/ widget cls = None ->
  returns (apply_method cls r attr) w1 output w2 ->
  returns (redirect str_of r resource) w2 tt w3 ->
  (dict_has String.eqb "output" attr = false ->
   req_interactive (requests w3 r) = false \/ is_dict output = false ->
   __call__ actuate_link link_id str_of call cls r method widget_id attr w =
   (Returns output, w3)) /\
  (dict_has String.eqb "output" attr = true ->
   __call__ actuate_link link_id str_of call cls r method widget_id attr w =
   (Raises (TypeError
              "_extend_view() got multiple values for argument 'output'"),
    w3)).
Proof.
  intros Hr Hinit Hh Hw Ha Hred.
  assert (Hpage :
    __call__ actuate_link link_id str_of call cls r method widget_id attr w =
    extend_view_call call output r attr w3).
  { rewrite (call_after_apply_method actuate_link link_id str_of call cls r
               method widget_id attr w resource w0 w1 output w2
               Hr Hinit Hh Hw Ha).
    unfold bind. unfold returns in Hred. now rewrite Hred. }
  split.
  - intros Hb Hskip.
    rewrite Hpage, (extend_view_call_binds call _ _ _ _ Hb).
    now apply extend_view_skips.
  - intros Hb. rewrite Hpage. now apply extend_view_call_refused.
Qed.

(** An entry of the attr that is not callable: its value is stored, unless
    it is [None], where the output stays as it is. *)
Lemma extend_plain r name v rest output w :
  callable v = false ->
  extend_entries call r ((name, v) :: rest) output w =
  extend_entries call r rest
    (if is_none v then output else dict_set key_eqb (Some name) v output) w.
Proof.
  intros Hc. destruct (is_none v) eqn:Hn.
  - destruct v; try discriminate. cbn. unfold bind, extend_entry. cbn.
    now rewrite andb_false_r.
  - now apply extend_value.
Qed.

(** The loop of [_extend_view] over an attr that holds no callable. *)
Lemma extend_entries_plain r (attr : kwargs) output w :
  forallb (fun kv => negb (callable (snd kv))) attr = true ->
  NoDup (map fst attr) ->
  exists d,
    extend_entries call r attr output w = (Returns d, w) /\
    (forall name,
        dict_get key_eqb (Some name) d =
        match dict_get String.eqb name attr with
        | Some v => if is_none v then dict_get key_eqb (Some name) output
                    else Some v
        | None => dict_get key_eqb (Some name) output
        end) /\
    dict_get key_eqb None d = dict_get key_eqb None output.
Proof.
  intros Hplain Hnd. revert output.
  induction attr as [|[name v] rest IH]; intros output.
  - exists output. now repeat split.
  - cbn [forallb snd] in Hplain. apply andb_true_iff in Hplain as [Hv Hrest].
    apply negb_true_iff in Hv.
    cbn [map fst] in Hnd. inversion Hnd as [|? ? Hnotin Hnd']; subst.
    destruct (IH Hrest Hnd'
                (if is_none v then output
                 else dict_set key_eqb (Some name) v output))
      as (d & Hd & Hget & Hnone).
    exists d. split; [now rewrite extend_plain|]. split.
    + intros k. rewrite Hget. cbn [dict_get].
      destruct (String.eqb_spec k name) as [->|Hne].
      * rewrite (dict_get_absent String.eqb String.eqb_spec _ _ Hnotin).
        destruct (is_none v); [reflexivity|].
        apply (dict_get_set_same key_eqb key_eqb_spec).
      * assert (Hk : dict_get key_eqb (Some k)
                       (if is_none v then output
                        else dict_set key_eqb (Some name) v output)
                     = dict_get key_eqb (Some k) output).
        { destruct (is_none v); [reflexivity|].
          apply (dict_get_set_other key_eqb key_eqb_spec). congruence. }
        now rewrite Hk.
    + rewrite Hnone. destruct (is_none v); [reflexivity|].
      now apply (dict_get_set_other key_eqb key_eqb_spec).
Qed.

(** X11: with an attr that holds no callable, [_extend_view] on an
    interactive request and an output dict returns, changes nothing but the
    output, and leaves it with every attr value that is not [None] under
    its key, and every other entry as it was: a value of [None] removes
    nothing. *)
Theorem plain_view_variables r (attr : kwargs) output w :
  req_interactive (requests w r) = true ->
  forallb (fun kv => negb (callable (snd kv))) attr = true ->
  NoDup (map fst attr) ->
  exists d,
    _extend_view call (VDict output) r attr w = (Returns (VDict d), w) /\
    (forall name,
        dict_get key_eqb (Some name) d =
        match dict_get String.eqb name attr with
        | Some v => if is_none v then dict_get key_eqb (Some name) output
                    else Some v
        | None => dict_get key_eqb (Some name) output
        end) /\
    dict_get key_eqb None d = dict_get key_eqb None output.
Proof.
  intros Hi Hplain Hnd.
  rewrite (extend_view_dict call r attr output w Hi).
  destruct (extend_entries_plain r attr output w Hplain Hnd)
    as (d & Hd & Hget & Hnone).
  exists d. split; [|split; assumption].
  unfold bind, ret. now rewrite Hd.
Qed.

(** The redirection returns, and leaves the requests interactive or not as
    they were. *)
Lemma redirect_returns r resource w :
  exists w',
    returns (redirect str_of r resource) w tt w' /\
    forall a, req_interactive (requests w' a) = req_interactive (requests w a).
Proof.
  unfold returns, redirect.
  unfold bind at 1. unfold get at 1. unfold bind at 1.
  destruct (res_lastid (resources w resource)) as [lastid|];
    [destruct (truthy (h_next (self w)) && negb (String.eqb lastid ""))|];
    unfold bind, get, modify, ret; cbn [resp with_self];
    destruct (truthy (resp_error (resp w))); cbn [negb];
    eexists; (split; [reflexivity|]); intros a; cbn;
    try reflexivity; now destruct (Nat.eqb a r).
Qed.

(** X12: the base class as it stands.  Called with a widget ID, the stub
    [widget] makes [__call__] return [None], with [r.next] as it was; called
    without, and with no attr entry named [output], the stub [apply_method]
    makes it return an empty dict on a request that is not interactive, and
    on an interactive one, with an attr that holds no callable, a dict of
    just the attr values that are not [None]; called without a widget ID
    and with an attr entry named [output], it raises a [TypeError]. *)
Theorem base_class_call r method widget_id (attr : kwargs) w :
  is_str (resolved_method r method w) "_init" = false ->
  (truthy widget_id = true ->
   exists w1,
     __call__ actuate_link link_id str_of call S3Method r method widget_id
              attr w = (Returns VNone, w1) /\
     req_next (requests w1 r) = req_next (requests w r)) /\
  (truthy widget_id = false ->
   dict_has String.eqb "output" attr = false ->
   req_interactive (requests w r) = false ->
   exists w3,
     __call__ actuate_link link_id str_of call S3Method r method widget_id
              attr w = (Returns (VDict []), w3)) /\
  (truthy widget_id = false ->
   dict_has String.eqb "output" attr = false ->
   req_interactive (requests w r) = true ->
   forallb (fun kv => negb (callable (snd kv))) attr = true ->
   NoDup (map fst attr) ->
   exists d w3,
     __call__ actuate_link link_id str_of call S3Method r method widget_id
              attr w = (Returns (VDict d), w3) /\
     forall name,
       dict_get key_eqb (Some name) d =
       match dict_get String.eqb name attr with
       | Some v => if is_none v then None else Some v
       | None => None
       end) /\
  (truthy widget_id = false ->
   dict_has String.eqb "output" attr = true ->
   exists w3,
     __call__ actuate_link link_id str_of call S3Method r method widget_id
              attr w =
     (Raises (TypeError
                "_extend_view() got multiple values for argument 'output'"),
      w3)).
Proof.
  intros Hinit.
  destruct (resolve_target_returns actuate_link link_id r method w)
    as (resource & w0 & Hr & Hu & Hmethod & _).
  destruct (hide_filter_policy_returns r attr w0) as (v & Hh & _).
  set (w1 := with_self (set_h_hide_filter v) w0) in *.
  assert (Hcall :
    __call__ actuate_link link_id str_of call S3Method r method widget_id
             attr w =
    apply_handler str_of call S3Method r resource widget_id attr w1).
  { rewrite (call_steps actuate_link link_id str_of call S3Method r method
               widget_id attr w resource w0 Hr).
    apply execute_steps; [now rewrite Hmethod | assumption]. }
  assert (Hi1 : req_interactive (requests w1 r)
                = req_interactive (requests w r))
    by apply (ub_req_interactive _ _ Hu).
  destruct (redirect_returns r resource w1) as (w3 & Hred & Hi3).
  assert (Hpage :
    truthy widget_id = false ->
    __call__ actuate_link link_id str_of call S3Method r method widget_id
             attr w = extend_view_call call (VDict []) r attr w3).
  { intros Hw. rewrite Hcall, apply_handler_page by now left.
    unfold standalone_page. cbn [apply_method S3Method].
    unfold bind at 1. unfold ret at 1. unfold bind at 1.
    unfold returns in Hred. now rewrite Hred. }
  split; [|split; [|split]].
  - intros Hw. exists w1. split.
    + rewrite Hcall. unfold apply_handler, bind, get. rewrite Hw. reflexivity.
    + apply (ub_req_next _ _ Hu).
  - intros Hw Hb Hi. exists w3.
    rewrite (Hpage Hw), (extend_view_call_binds call _ _ _ _ Hb).
    apply extend_view_skips. left. now rewrite Hi3, Hi1.
  - intros Hw Hb Hi Hplain Hnd.
    assert (Hi' : req_interactive (requests w3 r) = true)
      by now rewrite Hi3, Hi1.
    destruct (extend_entries_plain r attr [] w3 Hplain Hnd)
      as (d & Hd & Hget & _).
    exists d, w3. split.
    + rewrite (Hpage Hw), (extend_view_call_binds call _ _ _ _ Hb),
        (extend_view_dict call r attr [] w3 Hi').
      unfold bind, ret. now rewrite Hd.
    + intros name. rewrite Hget. cbn [dict_get].
      now destruct (dict_get String.eqb name attr).
  - intros Hw Hb. exists w3. rewrite (Hpage Hw).
    now apply extend_view_call_refused.
Qed.

End CallFacts.

(* ================================================================== *)
(** ** Further properties of [_permitted] *)

Section PermittedFacts.

Variable s3_has_permission : value -> table -> value -> bool.
Variable get_config : string -> string -> value.

(** Once the handler instance has a request, [_permitted] returns.  It
    changes nothing but the record of the checks, to which it adds the check
    on the target, the check of [update] on the master, or both in that
    order; and it returns [True] only where the target check does. *)
Lemma permitted_returns method w r :
  h_request (self w) = Some r ->
  exists b w',
    returns (_permitted s3_has_permission get_config method) w b w' /\
    self w' = self w /\
    requests w' = requests w /\
    resources w' = resources w /\
    resp w' = resp w /\
    (b = true ->
     s3_has_permission (chk_method (target_check method w r))
                       (chk_table (target_check method w r))
                       (chk_record_id (target_check method w r)) = true) /\
    (checks w' = (checks w ++ [target_check method w r])%list \/
     checks w' = (checks w ++ [master_check (requests w r)])%list /\
     b = false \/
     checks w' = ((checks w ++ [master_check (requests w r)])
                  ++ [target_check method w r])%list).
Proof.
  intros Hreq. unfold returns, _permitted, target_check, permission_target.
  unfold bind at 1. unfold get at 1. rewrite Hreq.
  fold (checked_method method w).
  fold (permission_method (checked_method method w)).
  destruct (req_component (requests w r)) as [c|].
  2:{ do 2 eexists. split; [reflexivity|]. cbn. repeat split; auto. }
  destruct (is_str (permission_method (checked_method method w)) "create").
  2:{ do 2 eexists. split; [reflexivity|]. cbn. repeat split; auto. }
  destruct (negb _ || negb _).
  2:{ do 2 eexists. split; [reflexivity|]. cbn. repeat split; auto. }
  unfold bind, has_permission, modify, ret. cbn [with_check].
  destruct (s3_has_permission (VStr "update") (req_table (requests w r))
              (req_id (requests w r))); cbn [negb];
    do 2 eexists; (split; [reflexivity|]); cbn; repeat split; auto;
    discriminate.
Qed.

(** X13: [_permitted] reads the methods [list], [datatable] and [datalist]
    as [read], be they given or the method of the handler instance: the call
    is the call with the method [read], in result and in the checks it
    makes. *)
Theorem permitted_list_as_read method w :
  in_strs (checked_method method w) ["list"; "datatable"; "datalist"] = true ->
  _permitted s3_has_permission get_config method w =
  _permitted s3_has_permission get_config (VStr "read") w.
Proof.
  intros H. unfold _permitted. unfold bind at 1 3. unfold get at 1 2.
  destruct (h_request (self w)) as [r|]; [|reflexivity].
  fold (checked_method method w). rewrite H.
  reflexivity.
Qed.

(** X14: once the handler instance has a request, [_permitted] returns and
    does not raise; it changes nothing but the record of the permission
    checks, to which it adds one or two; and it returns [True] only where
    [s3_has_permission] grants the checked method on the target table and
    record. *)
Theorem permitted_sound method w r :
  h_request (self w) = Some r ->
  exists b w',
    returns (_permitted s3_has_permission get_config method) w b w' /\
    self w' = self w /\
    requests w' = requests w /\
    resources w' = resources w /\
    resp w' = resp w /\
    (exists c, checks w' = (checks w ++ [c])%list \/
               exists c', checks w' = (checks w ++ [c'; c])%list) /\
    (b = true ->
     s3_has_permission (permission_method (checked_method method w))
                       (fst (permission_target (requests w r) w))
                       (snd (permission_target (requests w r) w)) = true).
Proof.
  intros Hreq.
  destruct (permitted_returns method w r Hreq)
    as (b & w' & Hr & Hs & Hq & Hres & Hresp & Hb & Hc).
  exists b, w'. repeat (split; [assumption|]). split; [|exact Hb].
  destruct Hc as [Hc | [[Hc _] | Hc]].
  - exists (target_check method w r). now left.
  - exists (master_check (requests w r)). now left.
  - exists (target_check method w r). right.
    exists (master_check (requests w r)). now rewrite Hc, <- app_assoc.
Qed.

(** X15: the permission to update the master record is asked for the method
    [create] only.  For every other method on a component, [_permitted]
    makes the one check on the component table and record, whatever
    [ignore_master_access] is configured and whatever the permissions on the
    master record are. *)
Theorem master_access_only_for_create method w r c :
  h_request (self w) = Some r ->
  req_component (requests w r) = Some c ->
  is_str (permission_method (checked_method method w)) "create" = false ->
  _permitted s3_has_permission get_config method w =
  (Returns (s3_has_permission (permission_method (checked_method method w))
                              (res_table (resources w c))
                              (req_component_id (requests w r))),
   with_check {| chk_method := permission_method (checked_method method w);
                 chk_table := res_table (resources w c);
                 chk_record_id := req_component_id (requests w r) |} w).
Proof.
  intros Hreq Hc Hm.
  rewrite (permitted_one_check s3_has_permission get_config method w r Hreq
             (or_intror Hm)).
  unfold permission_target. rewrite Hc. reflexivity.
Qed.

End PermittedFacts.

(** X16: a handler instance that has not been called has no request, and
    [_permitted] raises an [AttributeError] on it; once [__call__] has
    resolved the target, [_permitted] with no argument returns what
    [s3_has_permission] says for the resolved method (with [list] read as
    [read]) on the master table and record of a request with no component,
    and records that one check. *)
Theorem permitted_before_and_after_call s3_has_permission get_config
  actuate_link link_id r method w :
  self w = __init__ ->
  req_component (requests w r) = None ->
  (exists e,
      _permitted s3_has_permission get_config VNone w = (Raises e, w) /\
      exn_classes e = ["AttributeError"; "Exception"]) /\
  exists resource w0,
    returns (resolve_target actuate_link link_id r method) w resource w0 /\
    _permitted s3_has_permission get_config VNone w0 =
    (Returns (s3_has_permission (permission_method (resolved_method r method w))
                                (req_table (requests w r))
                                (req_id (requests w r))),
     with_check {| chk_method := permission_method (resolved_method r method w);
                   chk_table := req_table (requests w r);
                   chk_record_id := req_id (requests w r) |} w0).
Proof.
  intros Hself Hc. split.
  - unfold _permitted, bind, get, raise. rewrite Hself. cbn.
    eexists. split; reflexivity.
  - destruct (resolve_target_master actuate_link link_id r method w Hc)
      as (w0 & Hr & Hm & _ & Hq & _).
    destruct (resolve_target_returns actuate_link link_id r method w)
      as (resource & w0' & Hr' & _ & _ & Hreq & _).
    unfold returns in Hr, Hr'. rewrite Hr in Hr'. injection Hr' as <- <-.
    exists (req_resource (requests w r)), w0. split; [exact Hr|].
    assert (Hc0 : req_component (requests w0 r) = None) by now rewrite Hq.
    rewrite (permitted_one_check s3_has_permission get_config VNone w0 r Hreq
               (or_introl Hc0)).
    unfold permission_target, checked_method. rewrite Hc0, Hq. cbn [truthy negb fst snd].
    rewrite Hm. reflexivity.
Qed.

(* ================================================================== *)
(** ** Properties of [_view] *)

(** A text with a slash splits in two at its first slash. *)
Lemma split1_slash s :
  occurs "/" s = true ->
  exists a b, split1 "/" s = [a; b] /\ s = a ++ "/" ++ b /\
              occurs "/" a = false.
Proof.
  induction s as [|c s IH]; cbn [occurs split1]; [discriminate|].
  destruct (Ascii.eqb_spec c "/") as [->|Hc]; cbn [orb].
  - intros _. exists "", s. repeat split.
  - intros H. destruct (IH H) as (a & b & -> & -> & Ha).
    exists (String c a), b. repeat split.
    cbn [occurs]. apply Ascii.eqb_neq in Hc. now rewrite Hc.
Qed.

Section ViewFacts.

Variable theme : string.
Variable theme_layouts : string.
Variable path_exists : string -> bool.
Variable path_join : list string -> string.
Variable open_error : string -> option exn.

(** The unpacking of the split default name does not fail. *)
Lemma view_parts default :
  exists subfolder rest,
    (if occurs "/" default then unpack2 (split1 "/" default)
     else Returns (EmptyString, default)) = Returns (subfolder, rest).
Proof.
  destruct (occurs "/" default) eqn:E; [|eauto].
  destruct (split1_slash default E) as (a & b & -> & _). cbn. eauto.
Qed.

(** X17: [_view] raises nothing of its own: the unpacking of the split
    default name does not fail, and the one exception it can end with is
    the one [open] raises on the custom view of the theme for the page.
    Where the theme is not the default one and that file exists, [_view]
    returns it as an open file, or raises what [open] raises; in every
    other case it returns the name that the views of the controller give,
    the same for every theme. *)
Theorem view_result q e default views :
  fst (_view theme theme_layouts path_exists path_join open_error
             q e default views) =
  if negb (String.eqb theme "default")
     && path_exists (page_view path_join theme_layouts e default)
  then match open_error (page_view path_join theme_layouts e default) with
       | None => Returns (ViewFile (page_view path_join theme_layouts e default))
       | Some exception => Raises exception
       end
  else Returns (controller_view path_exists path_join q e default).
Proof.
  unfold _view, page_view.
  destruct (negb (String.eqb theme "default")); cbn [andb]; [|reflexivity].
  destruct (path_exists _); [now destruct (open_error _)|].
  destruct (view_parts default) as (subfolder & rest & ->).
  reflexivity.
Qed.

(** X18: [_view] changes the view mappings of the response at the default
    name only, and not at all with the default theme or where it returns
    the custom view of the page. *)
Theorem view_mapping_frame q e default views :
  (forall k, k <> default ->
     dict_get String.eqb k
       (snd (_view theme theme_layouts path_exists path_join open_error q e default views))
     = dict_get String.eqb k views) /\
  (theme = "default" \/
   path_exists (page_view path_join theme_layouts e default) = true ->
   snd (_view theme theme_layouts path_exists path_join open_error q e default views)
   = views).
Proof.
  unfold _view, page_view. split.
  - intros k Hk.
    destruct (negb (String.eqb theme "default")); [|reflexivity].
    destruct (path_exists _); [now destruct (open_error _)|].
    destruct (view_parts default) as (subfolder & rest & ->).
    cbn [snd]. destruct (path_exists _); [|reflexivity].
    now apply (dict_get_set_other String.eqb String.eqb_spec).
  - intros [-> | H]; [reflexivity|].
    destruct (negb (String.eqb theme "default")); [|reflexivity].
    rewrite H. now destruct (open_error _).
Qed.

(** A name the views of the controller give, other than the default one,
    is the name of a view whose file exists. *)
Lemma controller_view_exists q e default :
  exists n,
    controller_view path_exists path_join q e default = ViewName n /\
    (n = default \/
     exists view,
       n = req_controller e ++ "/" ++ view /\
       path_exists (view_file path_join e view) = true /\
       (view = req_name e ++ "_" ++ default \/
        req_component q <> None /\
        view = req_name e ++ "_" ++ format_key (req_component_name q)
               ++ "_" ++ default)).
Proof.
  unfold controller_view, view_file.
  destruct (req_component q) eqn:Ec.
  - destruct (path_exists (path_join [req_folder e; "views"; req_controller e;
                req_name e ++ "_" ++ format_key (req_component_name q)
                ++ "_" ++ default])) eqn:E1.
    + eexists. split; [reflexivity|]. right. eexists.
      split; [reflexivity|]. split; [exact E1|]. right.
      split; [discriminate | reflexivity].
    + destruct (path_exists (path_join [req_folder e; "views";
                  req_controller e; req_name e ++ "_" ++ default])) eqn:E2.
      * eexists. split; [reflexivity|]. right. eexists.
        split; [reflexivity|]. split; [exact E2|]. now left.
      * eexists. split; [reflexivity|]. now left.
  - destruct (path_exists (path_join [req_folder e; "views";
                req_controller e; req_name e ++ "_" ++ default])) eqn:E2.
    + eexists. split; [reflexivity|]. right. eexists.
      split; [reflexivity|]. split; [exact E2|]. now left.
    + eexists. split; [reflexivity|]. now left.
Qed.

(** X19: what [_view] returns is there: a file it returns exists and has
    been opened, and a name it returns other than the default one is the
    name of a view of the controller, for the component or for the
    resource, whose file exists. *)
Theorem view_exists q e default views v views' :
  _view theme theme_layouts path_exists path_join open_error
        q e default views
  = (Returns v, views') ->
  match v with
  | ViewFile p => path_exists p = true /\ open_error p = None /\
                  theme <> "default" /\
                  p = page_view path_join theme_layouts e default
  | ViewName n =>
      n = default \/
      exists view,
        n = req_controller e ++ "/" ++ view /\
        path_exists (view_file path_join e view) = true /\
        (view = req_name e ++ "_" ++ default \/
         req_component q <> None /\
         view = req_name e ++ "_" ++ format_key (req_component_name q)
                ++ "_" ++ default)
  end.
Proof.
  intros H.
  pose proof (view_result q e default views) as Hv.
  rewrite H in Hv. cbn [fst] in Hv.
  destruct (controller_view_exists q e default) as (n & En & Hn).
  destruct (String.eqb_spec theme "default") as [Ht|Ht]; cbn [negb andb] in Hv.
  - injection Hv as ->. now rewrite En.
  - destruct (path_exists (page_view path_join theme_layouts e default)) eqn:Ep.
    + destruct (open_error (page_view path_join theme_layouts e default))
        eqn:Eo; [discriminate|].
      injection Hv as ->. now repeat split.
    + injection Hv as ->. now rewrite En.
Qed.

End ViewFacts.

(* ================================================================== *)
(** ** [_view] on a POSIX platform *)

Lemma ends_with_slash_app x a :
  a <> "" -> ends_with_slash (x ++ a) = ends_with_slash a.
Proof.
  intros Ha. induction x as [|c x IH]; [reflexivity|].
  cbn [String.append ends_with_slash]. rewrite <- IH.
  destruct (x ++ a) eqn:E; [|reflexivity].
  apply append_eq_nil in E. now destruct E.
Qed.

Lemma ends_with_slash_sep x a :
  a <> "" -> ends_with_slash (x ++ "/" ++ a) = ends_with_slash a.
Proof.
  intros Ha. rewrite <- append_assoc. now apply ends_with_slash_app.
Qed.

Lemma starts_with_slash_app a b :
  a <> "" -> starts_with_slash (a ++ b) = starts_with_slash a.
Proof. destruct a; [congruence | reflexivity]. Qed.

Lemma eqb_app_nonempty x a : a <> "" -> String.eqb (x ++ a) "" = false.
Proof.
  intros Ha. apply String.eqb_neq. intros E.
  apply append_eq_nil in E. now destruct E.
Qed.

Lemma no_slash_plain s :
  occurs "/" s = false ->
  starts_with_slash s = false /\ ends_with_slash s = false.
Proof.
  induction s as [|c s IH]; [now split|].
  cbn [occurs]. intros H. apply orb_false_iff in H as [Hc Hs].
  destruct (IH Hs) as [_ He]. split; [exact Hc|].
  cbn [ends_with_slash]. now destruct s.
Qed.

Lemma plain_part_spec s :
  plain_part s = true ->
  s <> "" /\ starts_with_slash s = false /\ ends_with_slash s = false.
Proof.
  unfold plain_part. intros H.
  apply andb_true_iff in H as [H He]. apply andb_true_iff in H as [Hn Hs].
  apply negb_true_iff in Hn, Hs, He. apply String.eqb_neq in Hn. auto.
Qed.

(** A part with no slash in front is added to the path, after a slash
    where the path needs one. *)
Lemma posix_join_step_rel p a :
  starts_with_slash a = false ->
  posix_join_step p a =
  p ++ (if String.eqb p "" || ends_with_slash p then "" else "/") ++ a.
Proof.
  intros Ha. unfold posix_join_step. rewrite Ha.
  now destruct (String.eqb p "" || ends_with_slash p).
Qed.

(** Joining two parts one after the other is joining their path. *)
Lemma posix_join_step_step p a b :
  a <> "" -> starts_with_slash a = false -> ends_with_slash a = false ->
  starts_with_slash b = false ->
  posix_join_step (posix_join_step p a) b = posix_join_step p (a ++ "/" ++ b).
Proof.
  intros Hne Hs He Hb.
  rewrite (posix_join_step_rel p a Hs).
  rewrite (posix_join_step_rel p (a ++ "/" ++ b))
    by now rewrite starts_with_slash_app.
  set (sep := if String.eqb p "" || ends_with_slash p then "" else "/").
  unfold posix_join_step. rewrite Hb.
  replace (p ++ sep ++ a) with ((p ++ sep) ++ a) by apply append_assoc.
  rewrite (eqb_app_nonempty _ _ Hne), (ends_with_slash_app _ _ Hne), He.
  cbn [orb]. now rewrite !append_assoc.
Qed.

(** An empty part adds the slash the next part would add. *)
Lemma posix_join_step_empty p a c :
  a <> "" -> starts_with_slash a = false -> ends_with_slash a = false ->
  starts_with_slash c = false ->
  posix_join_step (posix_join_step (posix_join_step p a) "") c =
  posix_join_step (posix_join_step p a) c.
Proof.
  intros Hne Hs He Hc.
  rewrite (posix_join_step_rel p a Hs).
  set (sep := if String.eqb p "" || ends_with_slash p then "" else "/").
  replace (p ++ sep ++ a) with ((p ++ sep) ++ a) by apply append_assoc.
  set (x := (p ++ sep) ++ a).
  assert (Hx : String.eqb x "" = false) by now apply eqb_app_nonempty.
  assert (Hxe : ends_with_slash x = false)
    by (unfold x; now rewrite ends_with_slash_app).
  unfold posix_join_step at 2. cbn [starts_with_slash].
  rewrite Hx, Hxe. cbn [orb].
  unfold posix_join_step. rewrite Hc, Hx, Hxe. cbn [orb].
  rewrite (eqb_app_nonempty x ("/" ++ "")) by discriminate.
  rewrite (ends_with_slash_app x ("/" ++ "")) by discriminate.
  cbn [String.append ends_with_slash Ascii.eqb Bool.eqb orb].
  now rewrite !append_assoc.
Qed.

(** The general view of a theme that [_view] looks for is the file at
    [modules/templates/<layouts>/views/] and the template name, under the
    folder of the application. *)
Lemma joined_template folder tl a b :
  plain_part tl = true ->
  occurs "/" a = false ->
  posix_join [folder; "modules"; "templates"; tl; "views"; a; "_" ++ b] =
  posix_join [folder; "modules/templates/" ++ tl ++ "/views/"
                      ++ (if String.eqb a "" then "" else a ++ "/")
                      ++ "_" ++ b].
Proof.
  intros Htl Ha.
  destruct (plain_part_spec tl Htl) as (Hne & Hs & He).
  destruct (no_slash_plain a Ha) as [Has Hae].
  unfold posix_join. cbn [fold_left].
  rewrite (posix_join_step_step folder "modules" "templates")
    by (reflexivity || discriminate).
  rewrite (posix_join_step_step folder _ tl)
    by (reflexivity || discriminate || assumption).
  rewrite (posix_join_step_step folder _ "views");
    [| discriminate | reflexivity
     | now rewrite ends_with_slash_sep | reflexivity].
  assert (Hv : ends_with_slash
                 ((("modules" ++ "/" ++ "templates") ++ "/" ++ tl)
                  ++ "/" ++ "views") = false)
    by now rewrite ends_with_slash_sep.
  destruct (String.eqb_spec a "") as [->|Han].
  - rewrite posix_join_step_empty;
      [| discriminate | reflexivity | exact Hv | reflexivity].
    rewrite (posix_join_step_step folder _ ("_" ++ b));
      [| discriminate | reflexivity | exact Hv | reflexivity].
    f_equal. rewrite !append_assoc. reflexivity.
  - rewrite (posix_join_step_step folder _ a);
      [| discriminate | reflexivity | exact Hv | exact Has].
    rewrite (posix_join_step_rel _ ("_" ++ b)) by reflexivity.
    rewrite (posix_join_step_rel folder) by reflexivity.
    rewrite (posix_join_step_rel folder) by reflexivity.
    set (sep := if String.eqb folder "" || ends_with_slash folder
                then "" else "/").
    match goal with
    | |- ?x ++ (if ?c then _ else _) ++ _ = _ =>
        assert (Hc : c = false)
    end.
    { rewrite <- !append_assoc.
      rewrite (eqb_app_nonempty _ a Han), (ends_with_slash_app _ a Han), Hae.
      reflexivity. }
    rewrite Hc. rewrite !append_assoc. reflexivity.
Qed.

(** X20: with [os.path.join] of a POSIX platform, the mapping [_view]
    enters for the default name is the path, as seen from the views folder
    of the application, of the very template it found: with a theme other
    than the default one and no custom view for the page, the mapping
    [../modules/templates/<layouts>/views/<template>] is entered exactly
    when the file [modules/templates/<layouts>/views/<template>] of the
    application exists. *)
Theorem view_mapping_names_template theme theme_layouts path_exists
  open_error q e default views :
  plain_part theme_layouts = true ->
  theme <> "default" ->
  path_exists (page_view posix_join theme_layouts e default) = false ->
  snd (_view theme theme_layouts path_exists posix_join open_error
             q e default views) =
  if path_exists
       (posix_join [req_folder e;
                    "modules/templates/" ++ theme_layouts ++ "/views/"
                    ++ template_name default])
  then dict_set String.eqb default
         ("../modules/templates/" ++ theme_layouts ++ "/views/"
          ++ template_name default) views
  else views.
Proof.
  intros Htl Ht Hp. unfold _view, page_view in *.
  apply String.eqb_neq in Ht. rewrite Ht. cbn [negb]. rewrite Hp.
  unfold template_name.
  destruct (occurs "/" default) eqn:Eo.
  - destruct (split1_slash default Eo) as (a & b & Es & _ & Ha).
    rewrite Es. cbn [unpack2 snd].
    rewrite (joined_template (req_folder e) theme_layouts a b Htl Ha).
    destruct (String.eqb_spec a "") as [->|_]; cbn [negb];
      destruct (path_exists _); reflexivity.
  - cbn [snd].
    rewrite (joined_template (req_folder e) theme_layouts "" default Htl)
      by reflexivity.
    cbn [String.eqb].
    destruct (path_exists _); reflexivity.
Qed.

(* ================================================================== *)
(** ** Properties of [crud_string] *)

(** X21: a CRUD string set for a table is the one [crud_string] returns for
    it, whatever the default string under that name, and be it [None]. *)
Theorem crud_string_set crud_strings tablename name v d :
  crud_string
    (dict_set key_eqb (Some tablename)
       (VDict (dict_set key_eqb (Some name) v d)) crud_strings)
    tablename name
  = Returns v.
Proof.
  unfold crud_string.
  rewrite (dict_get_set_same key_eqb key_eqb_spec).
  now rewrite (dict_get_set_same key_eqb key_eqb_spec).
Qed.

(** X22: the CRUD strings set for one table do not change those of another
    table, for every name that is not the name of the table set: the
    default strings and the tables share one dict. *)
Theorem crud_string_frame crud_strings tablename strings other name :
  other <> tablename ->
  name <> tablename ->
  crud_string (dict_set key_eqb (Some tablename) strings crud_strings)
              other name
  = crud_string crud_strings other name.
Proof.
  intros Ho Hn. unfold crud_string.
  rewrite (dict_get_set_other key_eqb key_eqb_spec) by congruence.
  destruct (dict_get key_eqb (Some other) crud_strings) as [t|].
  - destruct t; try reflexivity.
    now rewrite (dict_get_set_other key_eqb key_eqb_spec) by congruence.
  - now rewrite (dict_get_set_other key_eqb key_eqb_spec) by congruence.
Qed.

(* ================================================================== *)
(** ** The theorems at the worked request *)

(** The stubs of the base class at the example: the page is the empty dict
    (no view variables are given), the widget is [None]. *)
Example base_class_page :
  fst (__call__ ex_actuate_link ex_link_id ex_str_of ex_call S3Method
                0 VNone VNone [] ex_world) = Returns (VDict []) /\
  fst (__call__ ex_actuate_link ex_link_id ex_str_of ex_call S3Method
                0 VNone (VStr "w") [] ex_world) = Returns VNone.
Proof. split; reflexivity. Qed.

(** An attr entry named [output] at the example: the page of the base class
    is returned to [__call__], and the call of [_extend_view] is refused. *)
Example output_keyword_refused :
  fst (__call__ ex_actuate_link ex_link_id ex_str_of ex_call S3Method
                0 VNone VNone [("output", VStr "x")] ex_world)
  = Raises (TypeError
              "_extend_view() got multiple values for argument 'output'").
Proof. reflexivity. Qed.

(** C1 at the example: the component is multiple and no component ID is
    given, so the method is [list]. *)
Lemma component_default_method_witness :
  exists resource w0,
    returns (resolve_target ex_actuate_link ex_link_id 0 VNone)
            ex_world resource w0 /\
    h_method (self w0) = VStr "list" /\
    ex_run VNone VNone [] =
    execute ex_str_of ex_call ex_cls 0 resource VNone [] w0.
Proof.
  exact (component_default_method ex_actuate_link ex_link_id ex_str_of
           ex_call ex_cls 0 VNone [] 1 ex_world eq_refl eq_refl).
Defined.

(** C10 at the example, called with the method [_init]: the component is
    multiple, and there is nothing to enforce. *)
Lemma init_only_witness :
  exists resource w0,
    returns (resolve_target ex_actuate_link ex_link_id 0 (VStr "_init"))
            ex_world resource w0 /\
    (forall cls,
        __call__ ex_actuate_link ex_link_id ex_str_of ex_call cls
                 0 (VStr "_init") (VStr "w") [] ex_world
        = (Returns VNone, w0)) /\
    h_request (self w0) = Some 0 /\
    h_method (self w0) = VStr "_init" /\
    target_set 0 resource ex_world w0 /\
    (exists w1 w2,
        requests w1 = requests ex_world /\
        resources w1 = resources ex_world /\
        returns (_record_id ex_actuate_link ex_link_id 0) w1
                (h_record_id (self w0)) w2 /\
        requests w0 = requests w2 /\
        resources w0 = resources w2) /\
    (req_component (requests ex_world 0) = None ->
     h_record_id (self w0) = req_id (requests ex_world 0)) /\
    h_hide_filter (self w0) = VBool false /\
    h_next (self w0) = VNone /\
    req_next (requests w0 0) = VNone /\
    resp w0 = resp ex_world /\
    checks w0 = [] /\
    (nothing_to_enforce 0 ex_world = true ->
     requests w0 = requests ex_world /\ resources w0 = resources ex_world).
Proof.
  exact (init_only ex_actuate_link ex_link_id ex_str_of ex_call
           0 (VStr "_init") (VStr "w") [] ex_world eq_refl).
Defined.

(** C10, as stated, fails: on the home address of the person 5, a component
    that is not multiple, [__call__] with the method [_init] returns
    [None], and has set more than the attributes of the handler instance:
    the component is loaded, its first record is the component ID of the
    request, the link ID of the request is set, and the component has a
    filter more. *)
Lemma init_enforces_first_record :
  is_str (resolved_method 0 (VStr "_init") (ex_home_world [VInt 7; VInt 8]))
         "_init" = true /\
  fst (__call__ ex_unactuated ex_link_row ex_str_of ex_call ex_cls
                0 (VStr "_init") VNone [] (ex_home_world [VInt 7; VInt 8]))
  = Returns VNone /\
  req_component_id (requests (ex_home_world [VInt 7; VInt 8]) 0) = VNone /\
  req_component_id
    (requests
       (snd (__call__ ex_unactuated ex_link_row ex_str_of ex_call ex_cls
                      0 (VStr "_init") VNone []
                      (ex_home_world [VInt 7; VInt 8]))) 0) = VInt 7 /\
  req_link_id
    (requests
       (snd (__call__ ex_unactuated ex_link_row ex_str_of ex_call ex_cls
                      0 (VStr "_init") VNone []
                      (ex_home_world [VInt 7; VInt 8]))) 0) = VInt 57 /\
  res_rows
    (resources
       (snd (__call__ ex_unactuated ex_link_row ex_str_of ex_call ex_cls
                      0 (VStr "_init") VNone []
                      (ex_home_world [VInt 7; VInt 8]))) 1) = [VInt 7] /\
  res_filters (resources (ex_home_world [VInt 7; VInt 8]) 1) = [] /\
  res_filters
    (resources
       (snd (__call__ ex_unactuated ex_link_row ex_str_of ex_call ex_cls
                      0 (VStr "_init") VNone []
                      (ex_home_world [VInt 7; VInt 8]))) 1) = [VInt 7].
Proof. repeat split. Qed.

(** C9 at the example: the [hide_filter] dict has no entry for the
    component [office], and [False] under [_default]. *)
Lemma hide_filter_resolved_witness :
  exists resource w1,
    ex_run VNone VNone [("hide_filter", VDict [(Some "_default", VBool false)])]
    = apply_handler ex_str_of ex_call ex_cls 0 resource VNone
        [("hide_filter", VDict [(Some "_default", VBool false)])] w1 /\
    (req_interactive (requests ex_world 0) = false ->
     h_hide_filter (self w1) = VBool true) /\
    (req_interactive (requests ex_world 0) = true ->
     forall d,
       attr_get "hide_filter"
                [("hide_filter", VDict [(Some "_default", VBool false)])]
       = VDict d ->
       h_hide_filter (self w1) =
       if is_none (chosen_setting (req_component_name (requests ex_world 0)) d)
       then VBool (has_component (requests ex_world 0))
       else chosen_setting (req_component_name (requests ex_world 0)) d).
Proof.
  exact (hide_filter_resolved ex_actuate_link ex_link_id ex_str_of ex_call
           ex_cls 0 VNone VNone
           [("hide_filter", VDict [(Some "_default", VBool false)])]
           ex_world eq_refl).
Defined.

(** C5 at the example: with the widget ID [w] the call is the call of the
    widget, in the state the resolution of the target and the [hide_filter]
    policy leave. *)
Lemma handler_delegation_witness :
  exists resource w0 w1,
    returns (resolve_target ex_actuate_link ex_link_id 0 VNone)
            ex_world resource w0 /\
    returns (hide_filter_policy 0 []) w0 tt w1 /\
    req_next (requests w1 0) = req_next (requests ex_world 0) /\
    h_next (self w1) = h_next (self ex_world) /\
    (forall widget_method,
        truthy (VStr "w") = true ->
        widget ex_cls = Some widget_method ->
        ex_run VNone (VStr "w") [] =
        widget_method 0 (resolved_method 0 VNone ex_world) (VStr "w") [] w1) /\
    (truthy (VStr "w") = false \/ widget ex_cls = None ->
     ex_run VNone (VStr "w") [] =
     standalone_page ex_str_of ex_call ex_cls 0 resource [] w1).
Proof.
  exact (handler_delegation ex_actuate_link ex_link_id ex_str_of ex_call
           ex_cls 0 VNone (VStr "w") [] ex_world eq_refl).
Defined.

(** C2 at the example. *)
Lemma delegation_without_check_witness :
  exists resource w1,
    checks w1 = checks ex_world /\
    h_request (self w1) = Some 0 /\
    h_method (self w1) = resolved_method 0 VNone ex_world /\
    (forall widget_method,
        truthy VNone = true ->
        widget ex_cls = Some widget_method ->
        ex_run VNone VNone [] =
        widget_method 0 (h_method (self w1)) VNone [] w1) /\
    (truthy VNone = false \/ widget ex_cls = None ->
     ex_run VNone VNone [] =
     standalone_page ex_str_of ex_call ex_cls 0 resource [] w1).
Proof.
  exact (delegation_without_check ex_actuate_link ex_link_id ex_str_of ex_call
           ex_cls 0 VNone VNone [] ex_world eq_refl).
Defined.

(** C2, as stated, fails: every permission is denied, so that the check of
    the request fails in the state [__call__] leaves, and [__call__] has run
    the handler all the same, and made no check. *)
Lemma handler_runs_without_permission :
  (forall method t record_id, deny_all method t record_id = false) /\
  fst (_permitted deny_all ex_get_config VNone (snd (ex_run VNone VNone [])))
  = Returns false /\
  fst (ex_run VNone VNone []) = Returns (VDict [(Some "item", VStr "form")]) /\
  checks (snd (ex_run VNone VNone [])) = [].
Proof. repeat split. Qed.

(** C5, as stated, fails: a widget ID is given and the instance has a widget
    method, but the method is [_init], and [__call__] returns [None], not
    what the widget returns. *)
Lemma init_skips_widget :
  truthy (VStr "w") = true /\
  widget ex_cls = Some ex_widget /\
  (forall method w,
      fst (ex_widget 0 method (VStr "w") [] w)
      = Returns (VDict [(Some "widget", VStr "w")])) /\
  fst (ex_run (VStr "_init") (VStr "w") []) = Returns VNone.
Proof. repeat split. Qed.

(** C6 at the example: the page leaves the next-URL
    [/org/office/[id]/read?next=%5Bid%5D], the office last created has the
    ID 12, and no error is set. *)
Lemma redirection_witness :
  exists w3,
    returns (redirect ex_str_of 0 1) (ex_w2 []) tt w3 /\
    ex_run VNone VNone [] =
    extend_view_call ex_call (VDict [(Some "item", VStr "form")]) 0 [] w3 /\
    h_next (self w3) = VStr "/org/office/12/read?next=12" /\
    (forall ps,
        str ex_str_of (h_next (self (ex_w2 []))) = pattern_text ps ->
        forallb plain_piece ps = true ->
        occurs "[" "12" = false ->
        h_next (self w3) = VStr (filled_text "12" ps)) /\
    (truthy (resp_error (resp (ex_w2 []))) = false ->
     req_next (requests w3 0) = h_next (self w3)) /\
    (truthy (resp_error (resp (ex_w2 []))) = true ->
     req_next (requests w3 0) = req_next (requests (ex_w2 []) 0)).
Proof.
  refine (redirection ex_actuate_link ex_link_id ex_str_of ex_call ex_cls
            0 VNone VNone [] ex_world 1 ex_w0 (ex_w1 [])
            (VDict [(Some "item", VStr "form")]) (ex_w2 []) "12"
            eq_refl eq_refl eq_refl (or_introl eq_refl) eq_refl eq_refl
            eq_refl _).
  discriminate.
Defined.

(** C7 at the example, with a title for the view. *)
Lemma view_variables_witness :
  ex_run VNone VNone [("title", VStr "Offices")] =
  (d' <- extend_entries ex_call 0 [("title", VStr "Offices")]
                        [(Some "item", VStr "form")] ;;
   ret (VDict d')) (ex_w3 [("title", VStr "Offices")]) /\
  fst (ex_run VNone VNone [("title", VStr "Offices")]) =
  Returns (VDict [(Some "item", VStr "form"); (Some "title", VStr "Offices")]).
Proof.
  split; [|reflexivity].
  exact (proj1
           (view_variables ex_actuate_link ex_link_id ex_str_of ex_call ex_cls
              0 VNone VNone [("title", VStr "Offices")] ex_world 1 ex_w0
              (ex_w1 [("title", VStr "Offices")])
              [(Some "item", VStr "form")]
              (ex_w2 [("title", VStr "Offices")])
              (ex_w3 [("title", VStr "Offices")])
              eq_refl eq_refl eq_refl (or_introl eq_refl) eq_refl eq_refl
              eq_refl) eq_refl).
Defined.

(** C7, as stated, fails: on an interactive request handled as a widget the
    handler returns a dict, and the attr entry [rheader], neither callable
    nor [None], is not stored in it; and on a standalone page a callable
    that returns a dict with the key [None] has nothing merged: the update
    raises a [TypeError]. *)
Lemma widget_output_not_extended :
  (req_interactive (requests ex_world 0) = true /\
   fst (ex_run VNone (VStr "w") [("rheader", VStr "Organisation")])
   = Returns (VDict [(Some "widget", VStr "w")])) /\
  (fst (ex_call 4 0 (ex_w3 [("rheader", VCallable 4)]))
   = Returns (VDict [(None, VInt 1)]) /\
   fst (ex_run VNone VNone [("rheader", VCallable 4)])
   = Raises (TypeError "keywords must be strings")).
Proof. repeat split. Qed.

(** C3 at the example: the handler of [rheader] does not take the request,
    the one of [footer] fails otherwise. *)
Lemma extend_view_handler_raises_witness :
  (is_TypeError (TypeError "rheader() takes 0 positional arguments but 1 was given")
   = true ->
   _extend_view ex_call (VDict [(Some "item", VStr "form")]) 0
     ([("title", VStr "Offices")] ++ ("rheader", VCallable 1)
        :: [("footer", VCallable 2)])%list ex_w0
   = (d <- extend_entries ex_call 0 [("footer", VCallable 2)]
             [(Some "item", VStr "form"); (Some "title", VStr "Offices")] ;;
      ret (VDict d)) ex_w0) /\
  (is_TypeError (TypeError "rheader() takes 0 positional arguments but 1 was given")
   = false ->
   _extend_view ex_call (VDict [(Some "item", VStr "form")]) 0
     ([("title", VStr "Offices")] ++ ("rheader", VCallable 1)
        :: [("footer", VCallable 2)])%list ex_w0
   = (Raises (TypeError "rheader() takes 0 positional arguments but 1 was given"),
      ex_w0)).
Proof.
  exact (extend_view_handler_raises ex_call 0 [("title", VStr "Offices")]
           "rheader" 1 [("footer", VCallable 2)]
           [(Some "item", VStr "form")] ex_w0
           [(Some "item", VStr "form"); (Some "title", VStr "Offices")] ex_w0
           (TypeError "rheader() takes 0 positional arguments but 1 was given")
           ex_w0 eq_refl eq_refl eq_refl).
Defined.

(** C4 at the example: [update] on the organisation is denied, and the
    creation of an office with it. *)
Lemma permitted_create_on_component_witness :
  _permitted deny_update ex_get_config VNone ex_create =
  (Returns false, with_check (master_check (requests ex_create 0)) ex_create).
Proof.
  exact (proj1 (permitted_create_on_component deny_update ex_get_config
                  VNone ex_create 0 1 eq_refl eq_refl eq_refl)
               eq_refl eq_refl).
Defined.

(* ================================================================== *)
(** ** The further theorems at the worked requests *)

(** X1 at the home address of the person 5: the locations 7 and 8 are
    found, the first becomes the component record, and the ID returned is
    that of the link row, 57. *)
Lemma record_id_enforces_first_witness :
  exists v w',
    returns (_record_id ex_unactuated ex_link_row 0)
            (ex_home_world [VInt 7; VInt 8]) v w' /\
    req_component_id (requests w' 0) = VInt 7 /\
    res_filters (resources w' 1) = [VInt 7] /\
    req_link_id (requests w' 0) = VInt 57 /\
    v = req_link_id (requests w' 0).
Proof.
  destruct (record_id_enforces_first ex_unactuated ex_link_row 0 1
              (ex_home_world [VInt 7; VInt 8]) (VInt 7) [VInt 8]
              eq_refl eq_refl eq_refl eq_refl)
    as (v & w' & Hr & Hc & _ & Hf & _ & Hl).
  destruct (Hl 2 eq_refl) as (Hid & _ & Hv).
  exists v, w'. split; [exact Hr|]. split; [exact Hc|]. split; [exact Hf|].
  split; [exact (Hid eq_refl) | exact Hv].
Defined.

(** X2 at the same request, with no location found. *)
Lemma record_id_nothing_found_witness :
  exists v w',
    returns (_record_id ex_unactuated ex_link_row 0) (ex_home_world []) v w' /\
    requests w' = requests (ex_home_world []) /\
    res_rows (resources w' 1) = [] /\
    v = target_record_id ex_unactuated 0 w'.
Proof.
  destruct (record_id_nothing_found ex_unactuated ex_link_row 0 1
              (ex_home_world []) eq_refl eq_refl eq_refl eq_refl)
    as (v & w' & Hr & Hq & Hrows & _ & Hv & _).
  exists v, w'. repeat split; assumption.
Defined.

(** X3 at the same request: once the location 7 is enforced, the ID of the
    link row is the target record ID, and a second call returns it again
    and changes nothing. *)
Lemma record_id_settled_witness :
  VInt 57 = target_record_id ex_unactuated 0 ex_home_found /\
  (nothing_to_enforce 0 ex_home_found = true ->
   returns (_record_id ex_unactuated ex_link_row 0)
           ex_home_found (VInt 57) ex_home_found).
Proof.
  exact (record_id_settled ex_unactuated ex_link_row 0
           (ex_home_world [VInt 7; VInt 8]) (VInt 57) ex_home_found eq_refl).
Defined.

(** X4 at the list of the organisations: the method is [list], the record
    ID [None]. *)
Lemma master_default_method_witness :
  exists w0,
    returns (resolve_target ex_actuate_link ex_link_id 0 VNone)
            ex_list_world 0 w0 /\
    h_method (self w0) = VStr "list" /\
    h_record_id (self w0) = VNone.
Proof.
  destruct (master_default_method ex_actuate_link ex_link_id ex_str_of
              ex_call ex_cls 0 VNone VNone [] ex_list_world eq_refl)
    as (w0 & Hr & _ & Hid & _ & _ & Hm & _).
  exists w0. split; [exact Hr|]. split; [exact (Hm eq_refl eq_refl)|].
  exact Hid.
Defined.

(** X5 at the offices of the organisation 4, called with the method
    [create]. *)
Lemma explicit_method_wins_witness :
  exists resource w0,
    returns (resolve_target ex_actuate_link ex_link_id 0 (VStr "create"))
            ex_world resource w0 /\
    h_method (self w0) = VStr "create" /\
    req_method (requests w0 0) = VNone.
Proof.
  destruct (explicit_method_wins ex_actuate_link ex_link_id ex_str_of
              ex_call ex_cls 0 (VStr "create") VNone [] ex_world eq_refl)
    as (resource & w0 & Hr & Hm & Hq & _).
  exists resource, w0. split; [exact Hr|]. split; [exact Hm|]. exact (Hq 0).
Defined.

(** X6 at the home address of the person 5: the link is not actuated, and
    the handler instance is left with a resource and the record ID that
    goes with it. *)
Lemma target_record_of_resource_witness :
  exists resource w0,
    returns (resolve_target ex_unactuated ex_link_row 0 VNone)
            (ex_home_world [VInt 7; VInt 8]) resource w0 /\
    h_resource (self w0) = Some resource /\
    h_record_id (self w0) = target_record_id ex_unactuated 0 w0.
Proof.
  destruct (target_record_of_resource ex_unactuated ex_link_row 0 1 VNone
              (ex_home_world [VInt 7; VInt 8])
              (fun _ _ _ _ => eq_refl) eq_refl eq_refl)
    as (resource & w0 & Hr & Hres & Hid & _).
  exists resource, w0. repeat split; assumption.
Defined.

(** X7 at the offices of the organisation 4, with [hide_filter=False]. *)
Lemma hide_filter_plain_witness :
  exists resource w1,
    ex_run VNone VNone [("hide_filter", VBool false)] =
    apply_handler ex_str_of ex_call ex_cls 0 resource VNone
                  [("hide_filter", VBool false)] w1 /\
    h_hide_filter (self w1) = VBool false.
Proof.
  destruct (hide_filter_plain ex_actuate_link ex_link_id ex_str_of ex_call
              ex_cls 0 VNone VNone [("hide_filter", VBool false)] ex_world
              eq_refl eq_refl eq_refl)
    as (resource & w1 & Hc & Hset & _).
  exists resource, w1. split; [exact Hc | exact (Hset eq_refl)].
Defined.

(** X8 at the same request, with a page that fails. *)
Lemma handler_exception_propagates_witness :
  exists w1,
    req_next (requests w1 0) = VNone /\
    __call__ ex_actuate_link ex_link_id ex_str_of ex_call ex_failing
             0 VNone VNone [("rheader", VCallable 0)] ex_world
    = (Raises (ValueError "no such record"), w1).
Proof.
  destruct (handler_exception_propagates ex_actuate_link ex_link_id ex_str_of
              ex_call ex_failing 0 VNone VNone [("rheader", VCallable 0)]
              ex_world eq_refl)
    as (w1 & Hn & _ & Hpage & _).
  exists w1. split; [exact Hn|].
  exact (Hpage (ValueError "no such record") w1 (or_introl eq_refl) eq_refl).
Defined.

(** X9 at the same request, with the page of the base class, which sets no
    next-URL. *)
Lemma no_redirection_witness :
  exists w3,
    returns (redirect ex_str_of 0 1) (ex_w1 []) tt w3 /\
    self w3 = self (ex_w1 []) /\
    req_next (requests w3 0) = VNone.
Proof.
  destruct (no_redirection ex_actuate_link ex_link_id ex_str_of ex_call
              S3Method 0 VNone VNone [] ex_world 1 ex_w0 (ex_w1 [])
              (VDict []) (ex_w1 [])
              eq_refl eq_refl eq_refl (or_introl eq_refl) eq_refl
              (or_introl eq_refl))
    as (w3 & Hr & _ & Hs & _ & Hn & _).
  exists w3. split; [exact Hr|]. split; [exact Hs | exact (Hn eq_refl)].
Defined.

(** X10 at the same request, with a page that is an export: the handler of
    [rheader], which would fail, is not called. *)
Lemma output_returned_as_is_witness :
  __call__ ex_actuate_link ex_link_id ex_str_of ex_call ex_export
           0 VNone VNone [("rheader", VCallable 2)] ex_world
  = (Returns (VStr "<xml/>"),
     snd (redirect ex_str_of 0 1 (ex_w1 [("rheader", VCallable 2)]))).
Proof.
  exact (proj1
    (output_returned_as_is ex_actuate_link ex_link_id ex_str_of ex_call
           ex_export 0 VNone VNone [("rheader", VCallable 2)] ex_world 1
           ex_w0 (ex_w1 [("rheader", VCallable 2)]) (VStr "<xml/>")
           (ex_w1 [("rheader", VCallable 2)])
           (snd (redirect ex_str_of 0 1 (ex_w1 [("rheader", VCallable 2)])))
           eq_refl eq_refl eq_refl (or_introl eq_refl) eq_refl eq_refl)
        eq_refl (or_intror eq_refl)).
Defined.

(** X11 at the same request: a title is stored, and an rheader of [None]
    leaves the one of the output in place. *)
Lemma plain_view_variables_witness :
  exists d,
    _extend_view ex_call (VDict [(Some "rheader", VStr "old")]) 0
                 [("title", VStr "Offices"); ("rheader", VNone)] ex_world
    = (Returns (VDict d), ex_world) /\
    dict_get key_eqb (Some "title") d = Some (VStr "Offices") /\
    dict_get key_eqb (Some "rheader") d = Some (VStr "old").
Proof.
  assert (Hnd : NoDup (map fst [("title", VStr "Offices"); ("rheader", VNone)])).
  { repeat constructor; cbn; intuition discriminate. }
  destruct (plain_view_variables ex_call 0
              [("title", VStr "Offices"); ("rheader", VNone)]
              [(Some "rheader", VStr "old")] ex_world eq_refl eq_refl Hnd)
    as (d & Hd & Hget & _).
  exists d. split; [exact Hd|].
  split; [exact (Hget "title") | exact (Hget "rheader")].
Defined.

(** X12 at the same request, with a widget ID. *)
Lemma base_class_call_witness :
  exists w1,
    __call__ ex_actuate_link ex_link_id ex_str_of ex_call S3Method
             0 VNone (VStr "w") [] ex_world = (Returns VNone, w1) /\
    req_next (requests w1 0) = VNone.
Proof.
  exact (proj1 (base_class_call ex_actuate_link ex_link_id ex_str_of ex_call
                  0 VNone (VStr "w") [] ex_world eq_refl) eq_refl).
Defined.

(** X13 at the same request, once the target is resolved: the method is
    [list]. *)
Lemma permitted_list_as_read_witness :
  _permitted deny_update ex_get_config VNone ex_w0 =
  _permitted deny_update ex_get_config (VStr "read") ex_w0.
Proof.
  exact (permitted_list_as_read deny_update ex_get_config VNone ex_w0 eq_refl).
Defined.

(** X14 at the same state. *)
Lemma permitted_sound_witness :
  exists b w',
    returns (_permitted deny_update ex_get_config VNone) ex_w0 b w' /\
    self w' = self ex_w0 /\
    requests w' = requests ex_w0 /\
    resources w' = resources ex_w0.
Proof.
  destruct (permitted_sound deny_update ex_get_config VNone ex_w0 0 eq_refl)
    as (b & w' & Hr & Hs & Hq & Hres & _).
  exists b, w'. repeat split; assumption.
Defined.

(** X15 at the same state: [update] on the organisation is denied, and the
    deletion of an office is permitted all the same. *)
Lemma master_access_only_for_create_witness :
  _permitted deny_update ex_get_config (VStr "delete") ex_w0 =
  (Returns true,
   with_check {| chk_method := VStr "delete";
                 chk_table := ex_table "org_office";
                 chk_record_id := VNone |} ex_w0).
Proof.
  exact (master_access_only_for_create deny_update ex_get_config
           (VStr "delete") ex_w0 0 1 eq_refl eq_refl eq_refl).
Defined.

(** X16 at the list of the organisations: the check made is [read] on the
    table of the organisations. *)
Lemma permitted_before_and_after_call_witness :
  (exists e,
      _permitted deny_all ex_get_config VNone ex_list_world
      = (Raises e, ex_list_world) /\
      exn_classes e = ["AttributeError"; "Exception"]) /\
  exists resource w0,
    returns (resolve_target ex_actuate_link ex_link_id 0 VNone)
            ex_list_world resource w0 /\
    _permitted deny_all ex_get_config VNone w0 =
    (Returns false,
     with_check {| chk_method := VStr "read";
                   chk_table := ex_table "org_organisation";
                   chk_record_id := VNone |} w0).
Proof.
  exact (permitted_before_and_after_call deny_all ex_get_config
           ex_actuate_link ex_link_id 0 VNone ex_list_world eq_refl eq_refl).
Defined.

(** X19 at the list of the offices of an organisation, where the controller
    has a view for it. *)
Lemma view_exists_witness :
  "org/organisation_office_list.html" = "list.html" \/
  exists view,
    "org/organisation_office_list.html" = req_controller ex_names ++ "/" ++ view /\
    ex_controller_files (view_file posix_join ex_names view) = true /\
    (view = req_name ex_names ++ "_" ++ "list.html" \/
     req_component ex_request <> None /\
     view = req_name ex_names ++ "_"
            ++ format_key (req_component_name ex_request)
            ++ "_" ++ "list.html").
Proof.
  exact (view_exists "default" "default" ex_controller_files posix_join
           ex_open_error ex_request ex_names "list.html" []
           (ViewName "org/organisation_office_list.html") [] eq_refl).
Defined.

(** The custom view of the page is there, but it is a directory: [_view]
    ends with what [open] raises. *)
Example view_of_directory :
  fst (_view "RMS" "RMS" (fun _ => true) posix_join
             (fun _ => Some {| exn_classes := ["IsADirectoryError"; "OSError";
                                               "Exception"];
                               exn_message := "Is a directory" |})
             ex_request ex_names "list.html" [])
  = Raises {| exn_classes := ["IsADirectoryError"; "OSError"; "Exception"];
              exn_message := "Is a directory" |}.
Proof. reflexivity. Qed.

(** X20 at the same page, with the theme [RMS] and its general list view. *)
Lemma view_mapping_names_template_witness :
  snd (_view "RMS" "RMS" ex_theme_files posix_join ex_open_error
             ex_request ex_names "list.html" [])
  = [("list.html", "../modules/templates/RMS/views/_list.html")].
Proof.
  refine (view_mapping_names_template "RMS" "RMS" ex_theme_files
            ex_open_error ex_request ex_names "list.html" []
            eq_refl _ eq_refl).
  discriminate.
Defined.

(** X22 at the CRUD strings of the example: strings set for the
    organisations leave the label of the offices alone. *)
Lemma crud_string_frame_witness :
  crud_string
    (dict_set key_eqb (Some "org_organisation")
       (VDict [(Some "label_create", VStr "Add Organisation")])
       ex_crud_strings)
    "org_office" "label_create"
  = crud_string ex_crud_strings "org_office" "label_create".
Proof.
  refine (crud_string_frame ex_crud_strings "org_organisation"
            (VDict [(Some "label_create", VStr "Add Organisation")])
            "org_office" "label_create" _ _); discriminate.
Defined.
